(** * czl-scrape: the Article extractor of [externe/scraper/article.py]

    A shallow embedding of the [Article] class together with the parts of
    the Python runtime it calls ([str], [re], [datetime.date], [hashlib.md5],
    the BeautifulSoup tree accessors), followed by the properties of the
    extraction pipeline. *)

From Stdlib Require Import NArith ZArith List String Ascii Lia Bool.
From stdpp Require Import gmap strings list fin_maps.

Local Open Scope N_scope.

(** ** Python values and exceptions *)

(** A Python [str] is a sequence of Unicode code points. *)
Abbreviation codepoint := N.
Abbreviation str := (list N).

(** A Python [bytes] object: every element is below 256. *)
Abbreviation bytes := (list N).

(** The exceptions the modelled code can raise. *)
Inductive exn :=
| IndexError | AttributeError | TypeError | KeyError | ValueError
| OverflowError | UnicodeEncodeError | UnicodeDecodeError.

Inductive result (A : Type) :=
| Ok (a : A)
| Raise (e : exn).
Arguments Ok {A} a.
Arguments Raise {A} e.

Definition rbind {A B} (r : result A) (f : A -> result B) : result B :=
  match r with
  | Ok a => f a
  | Raise e => Raise e
  end.

Definition raises {A} (r : result A) : Prop := exists e, r = Raise e.

Declare Scope py_scope.
Delimit Scope py_scope with py.
Notation "'let!' x ':=' r 'in' k" := (rbind r (fun x => k))
  (at level 10, x pattern, r at level 100, k at level 200) : py_scope.
Local Open Scope py_scope.

(** A string literal of the source that holds ASCII characters only. *)
Definition lit (s : string) : str :=
  List.map N_of_ascii (list_ascii_of_string s).

(** ** Character classes (Unicode 14 tables of CPython 3.11) *)

(** [str.isspace] for one code point; [\s] of [re] and [str.strip] use it. *)
Definition isspace (c : codepoint) : bool :=
  ((0x9 <=? c) && (c <=? 0xD)) || ((0x1C <=? c) && (c <=? 0x20))
  || (c =? 0x85) || (c =? 0xA0) || (c =? 0x1680)
  || ((0x2000 <=? c) && (c <=? 0x200A))
  || (c =? 0x2028) || (c =? 0x2029) || (c =? 0x202F) || (c =? 0x205F)
  || (c =? 0x3000).

(** The code points of the digit zero of every decimal script (general
    category Nd); each is followed by its digits one to nine. *)
Definition decimal_zeros : list codepoint :=
  [0x30; 0x660; 0x6F0; 0x7C0; 0x966; 0x9E6; 0xA66; 0xAE6; 0xB66; 0xBE6;
   0xC66; 0xCE6; 0xD66; 0xDE6; 0xE50; 0xED0; 0xF20; 0x1040; 0x1090; 0x17E0;
   0x1810; 0x1946; 0x19D0; 0x1A80; 0x1A90; 0x1B50; 0x1BB0; 0x1C40; 0x1C50;
   0xA620; 0xA8D0; 0xA900; 0xA9D0; 0xA9F0; 0xAA50; 0xABF0; 0xFF10; 0x104A0;
   0x10D30; 0x11066; 0x110F0; 0x11136; 0x111D0; 0x112F0; 0x11450; 0x114D0;
   0x11650; 0x116C0; 0x11730; 0x118E0; 0x11950; 0x11C50; 0x11D50; 0x11DA0;
   0x16A60; 0x16AC0; 0x16B50; 0x1D7CE; 0x1D7D8; 0x1D7E2; 0x1D7EC; 0x1D7F6;
   0x1E140; 0x1E2F0; 0x1E950; 0x1FBF0].

(** The decimal value of a code point, when it is a decimal digit. *)
Definition decimal_value (c : codepoint) : option N :=
  match List.find (fun z => (z <=? c) && (c <? z + 10)) decimal_zeros with
  | Some z => Some (c - z)
  | None => None
  end.

(** [\d] of [re] on [str] patterns, which is [str.isdecimal]. *)
Definition isdecimal (c : codepoint) : bool :=
  match decimal_value c with Some _ => true | None => false end.

(** [[a-zA-Z]] *)
Definition is_ascii_alpha (c : codepoint) : bool :=
  ((0x61 <=? c) && (c <=? 0x7A)) || ((0x41 <=? c) && (c <=? 0x5A)).

(** [[0-9]] *)
Definition is_ascii_digit (c : codepoint) : bool :=
  (0x30 <=? c) && (c <=? 0x39).

(** ** The [str] methods the extractor calls *)

Fixpoint lstrip_by (p : codepoint -> bool) (s : str) : str :=
  match s with
  | c :: t => if p c then lstrip_by p t else s
  | [] => []
  end.

Definition rstrip_by (p : codepoint -> bool) (s : str) : str :=
  rev (lstrip_by p (rev s)).

(** [s.strip()] *)
Definition strip (s : str) : str := rstrip_by isspace (lstrip_by isspace s).

(** [s.rstrip(chars)] *)
Definition rstrip (chars : str) (s : str) : str :=
  rstrip_by (fun c => existsb (N.eqb c) chars) s.

Fixpoint is_prefix (p s : list N) : bool :=
  match p, s with
  | [], _ => true
  | a :: p', b :: s' => (a =? b) && is_prefix p' s'
  | _ :: _, [] => false
  end.

(** The scan of [replace]: [skip] counts the remaining elements of an
    occurrence of [old] that was just replaced. *)
Fixpoint replace_go (old new : list N) (skip : nat) (l : list N) : list N :=
  match l with
  | [] => []
  | x :: t =>
    match skip with
    | S n => replace_go old new n t
    | O =>
      if is_prefix old l
      then new ++ replace_go old new (List.length old - 1) t
      else x :: replace_go old new 0 t
    end
  end.

(** [s.replace(old, new)] for a non-empty [old], on [str] and on [bytes]:
    the occurrences are replaced from the left and do not overlap. *)
Definition replace (old new l : list N) : list N := replace_go old new 0 l.

(** ** Case mappings (Unicode 14 tables of CPython 3.11) *)

(** A run [(lo, hi, step, to)] of a case-mapping table: the code points
    [lo], [lo + step], ... up to [hi] are mapped to [to], [to + step], ... *)
Definition in_run (c : codepoint) (r : N * N * N * N) : bool :=
  let '(lo, hi, step, _) := r in
  (lo <=? c) && (c <=? hi) && ((c - lo) mod step =? 0).

Definition map_runs (runs : list (N * N * N * N)) (c : codepoint)
  : option codepoint :=
  match List.find (in_run c) runs with
  | Some (lo, _, _, to) => Some (to + (c - lo))
  | None => None
  end.

Fixpoint assoc_cp {A} (l : list (N * A)) (c : codepoint) : option A :=
  match l with
  | [] => None
  | (k, v) :: t => if k =? c then Some v else assoc_cp t c
  end.

Definition in_ranges (l : list (N * N)) (c : codepoint) : bool :=
  existsb (fun r => (fst r <=? c) && (c <=? snd r)) l.

(** The code points whose lower case is one other code point. *)
Definition LOWER_RUNS : list (N * N * N * N) :=
  [(0x41, 0x5A, 1, 0x61); (0xC0, 0xD6, 1, 0xE0); (0xD8, 0xDE, 1, 0xF8);
   (0x100, 0x12E, 2, 0x101); (0x132, 0x136, 2, 0x133);
   (0x139, 0x147, 2, 0x13A); (0x14A, 0x176, 2, 0x14B);
   (0x178, 0x178, 1, 0xFF); (0x179, 0x17D, 2, 0x17A);
   (0x181, 0x181, 1, 0x253); (0x182, 0x184, 2, 0x183);
   (0x186, 0x186, 1, 0x254); (0x187, 0x187, 1, 0x188);
   (0x189, 0x18A, 1, 0x256); (0x18B, 0x18B, 1, 0x18C);
   (0x18E, 0x18E, 1, 0x1DD); (0x18F, 0x18F, 1, 0x259);
   (0x190, 0x190, 1, 0x25B); (0x191, 0x191, 1, 0x192);
   (0x193, 0x193, 1, 0x260); (0x194, 0x194, 1, 0x263);
   (0x196, 0x196, 1, 0x269); (0x197, 0x197, 1, 0x268);
   (0x198, 0x198, 1, 0x199); (0x19C, 0x19C, 1, 0x26F);
   (0x19D, 0x19D, 1, 0x272); (0x19F, 0x19F, 1, 0x275);
   (0x1A0, 0x1A4, 2, 0x1A1); (0x1A6, 0x1A6, 1, 0x280);
   (0x1A7, 0x1A7, 1, 0x1A8); (0x1A9, 0x1A9, 1, 0x283);
   (0x1AC, 0x1AC, 1, 0x1AD); (0x1AE, 0x1AE, 1, 0x288);
   (0x1AF, 0x1AF, 1, 0x1B0); (0x1B1, 0x1B2, 1, 0x28A);
   (0x1B3, 0x1B5, 2, 0x1B4); (0x1B7, 0x1B7, 1, 0x292);
   (0x1B8, 0x1B8, 1, 0x1B9); (0x1BC, 0x1BC, 1, 0x1BD);
   (0x1C4, 0x1C4, 1, 0x1C6); (0x1C5, 0x1C5, 1, 0x1C6);
   (0x1C7, 0x1C7, 1, 0x1C9); (0x1C8, 0x1C8, 1, 0x1C9);
   (0x1CA, 0x1CA, 1, 0x1CC); (0x1CB, 0x1DB, 2, 0x1CC);
   (0x1DE, 0x1EE, 2, 0x1DF); (0x1F1, 0x1F1, 1, 0x1F3);
   (0x1F2, 0x1F4, 2, 0x1F3); (0x1F6, 0x1F6, 1, 0x195);
   (0x1F7, 0x1F7, 1, 0x1BF); (0x1F8, 0x21E, 2, 0x1F9);
   (0x220, 0x220, 1, 0x19E); (0x222, 0x232, 2, 0x223);
   (0x23A, 0x23A, 1, 0x2C65); (0x23B, 0x23B, 1, 0x23C);
   (0x23D, 0x23D, 1, 0x19A); (0x23E, 0x23E, 1, 0x2C66);
   (0x241, 0x241, 1, 0x242); (0x243, 0x243, 1, 0x180);
   (0x244, 0x244, 1, 0x289); (0x245, 0x245, 1, 0x28C);
   (0x246, 0x24E, 2, 0x247); (0x370, 0x372, 2, 0x371);
   (0x376, 0x376, 1, 0x377); (0x37F, 0x37F, 1, 0x3F3);
   (0x386, 0x386, 1, 0x3AC); (0x388, 0x38A, 1, 0x3AD);
   (0x38C, 0x38C, 1, 0x3CC); (0x38E, 0x38F, 1, 0x3CD);
   (0x391, 0x3A1, 1, 0x3B1); (0x3A3, 0x3AB, 1, 0x3C3);
   (0x3CF, 0x3CF, 1, 0x3D7); (0x3D8, 0x3EE, 2, 0x3D9);
   (0x3F4, 0x3F4, 1, 0x3B8); (0x3F7, 0x3F7, 1, 0x3F8);
   (0x3F9, 0x3F9, 1, 0x3F2); (0x3FA, 0x3FA, 1, 0x3FB);
   (0x3FD, 0x3FF, 1, 0x37B); (0x400, 0x40F, 1, 0x450);
   (0x410, 0x42F, 1, 0x430); (0x460, 0x480, 2, 0x461);
   (0x48A, 0x4BE, 2, 0x48B); (0x4C0, 0x4C0, 1, 0x4CF);
   (0x4C1, 0x4CD, 2, 0x4C2); (0x4D0, 0x52E, 2, 0x4D1);
   (0x531, 0x556, 1, 0x561); (0x10A0, 0x10C5, 1, 0x2D00);
   (0x10C7, 0x10C7, 1, 0x2D27); (0x10CD, 0x10CD, 1, 0x2D2D);
   (0x13A0, 0x13EF, 1, 0xAB70); (0x13F0, 0x13F5, 1, 0x13F8);
   (0x1C90, 0x1CBA, 1, 0x10D0); (0x1CBD, 0x1CBF, 1, 0x10FD);
   (0x1E00, 0x1E94, 2, 0x1E01); (0x1E9E, 0x1E9E, 1, 0xDF);
   (0x1EA0, 0x1EFE, 2, 0x1EA1); (0x1F08, 0x1F0F, 1, 0x1F00);
   (0x1F18, 0x1F1D, 1, 0x1F10); (0x1F28, 0x1F2F, 1, 0x1F20);
   (0x1F38, 0x1F3F, 1, 0x1F30); (0x1F48, 0x1F4D, 1, 0x1F40);
   (0x1F59, 0x1F5F, 2, 0x1F51); (0x1F68, 0x1F6F, 1, 0x1F60);
   (0x1F88, 0x1F8F, 1, 0x1F80); (0x1F98, 0x1F9F, 1, 0x1F90);
   (0x1FA8, 0x1FAF, 1, 0x1FA0); (0x1FB8, 0x1FB9, 1, 0x1FB0);
   (0x1FBA, 0x1FBB, 1, 0x1F70); (0x1FBC, 0x1FBC, 1, 0x1FB3);
   (0x1FC8, 0x1FCB, 1, 0x1F72); (0x1FCC, 0x1FCC, 1, 0x1FC3);
   (0x1FD8, 0x1FD9, 1, 0x1FD0); (0x1FDA, 0x1FDB, 1, 0x1F76);
   (0x1FE8, 0x1FE9, 1, 0x1FE0); (0x1FEA, 0x1FEB, 1, 0x1F7A);
   (0x1FEC, 0x1FEC, 1, 0x1FE5); (0x1FF8, 0x1FF9, 1, 0x1F78);
   (0x1FFA, 0x1FFB, 1, 0x1F7C); (0x1FFC, 0x1FFC, 1, 0x1FF3);
   (0x2126, 0x2126, 1, 0x3C9); (0x212A, 0x212A, 1, 0x6B);
   (0x212B, 0x212B, 1, 0xE5); (0x2132, 0x2132, 1, 0x214E);
   (0x2160, 0x216F, 1, 0x2170); (0x2183, 0x2183, 1, 0x2184);
   (0x24B6, 0x24CF, 1, 0x24D0); (0x2C00, 0x2C2F, 1, 0x2C30);
   (0x2C60, 0x2C60, 1, 0x2C61); (0x2C62, 0x2C62, 1, 0x26B);
   (0x2C63, 0x2C63, 1, 0x1D7D); (0x2C64, 0x2C64, 1, 0x27D);
   (0x2C67, 0x2C6B, 2, 0x2C68); (0x2C6D, 0x2C6D, 1, 0x251);
   (0x2C6E, 0x2C6E, 1, 0x271); (0x2C6F, 0x2C6F, 1, 0x250);
   (0x2C70, 0x2C70, 1, 0x252); (0x2C72, 0x2C72, 1, 0x2C73);
   (0x2C75, 0x2C75, 1, 0x2C76); (0x2C7E, 0x2C7F, 1, 0x23F);
   (0x2C80, 0x2CE2, 2, 0x2C81); (0x2CEB, 0x2CED, 2, 0x2CEC);
   (0x2CF2, 0x2CF2, 1, 0x2CF3); (0xA640, 0xA66C, 2, 0xA641);
   (0xA680, 0xA69A, 2, 0xA681); (0xA722, 0xA72E, 2, 0xA723);
   (0xA732, 0xA76E, 2, 0xA733); (0xA779, 0xA77B, 2, 0xA77A);
   (0xA77D, 0xA77D, 1, 0x1D79); (0xA77E, 0xA786, 2, 0xA77F);
   (0xA78B, 0xA78B, 1, 0xA78C); (0xA78D, 0xA78D, 1, 0x265);
   (0xA790, 0xA792, 2, 0xA791); (0xA796, 0xA7A8, 2, 0xA797);
   (0xA7AA, 0xA7AA, 1, 0x266); (0xA7AB, 0xA7AB, 1, 0x25C);
   (0xA7AC, 0xA7AC, 1, 0x261); (0xA7AD, 0xA7AD, 1, 0x26C);
   (0xA7AE, 0xA7AE, 1, 0x26A); (0xA7B0, 0xA7B0, 1, 0x29E);
   (0xA7B1, 0xA7B1, 1, 0x287); (0xA7B2, 0xA7B2, 1, 0x29D);
   (0xA7B3, 0xA7B3, 1, 0xAB53); (0xA7B4, 0xA7C2, 2, 0xA7B5);
   (0xA7C4, 0xA7C4, 1, 0xA794); (0xA7C5, 0xA7C5, 1, 0x282);
   (0xA7C6, 0xA7C6, 1, 0x1D8E); (0xA7C7, 0xA7C9, 2, 0xA7C8);
   (0xA7D0, 0xA7D0, 1, 0xA7D1); (0xA7D6, 0xA7D8, 2, 0xA7D7);
   (0xA7F5, 0xA7F5, 1, 0xA7F6); (0xFF21, 0xFF3A, 1, 0xFF41);
   (0x10400, 0x10427, 1, 0x10428); (0x104B0, 0x104D3, 1, 0x104D8);
   (0x10570, 0x10594, 2, 0x10597); (0x10571, 0x10579, 2, 0x10598);
   (0x1057D, 0x10589, 2, 0x105A4); (0x1058D, 0x10591, 2, 0x105B4);
   (0x10595, 0x10595, 1, 0x105BC); (0x10C80, 0x10CB2, 1, 0x10CC0);
   (0x118A0, 0x118BF, 1, 0x118C0); (0x16E40, 0x16E5F, 1, 0x16E60);
   (0x1E900, 0x1E921, 1, 0x1E922)].

(** The one code point whose lower case is longer. *)
Definition LOWER_SPECIAL : list (N * list N) :=
  [(0x130, [0x69; 0x307])].

(** The code points whose title case is one other code point. *)
Definition TITLE_RUNS : list (N * N * N * N) :=
  [(0x61, 0x7A, 1, 0x41); (0xB5, 0xB5, 1, 0x39C); (0xE0, 0xF6, 1, 0xC0);
   (0xF8, 0xFE, 1, 0xD8); (0xFF, 0xFF, 1, 0x178); (0x101, 0x12F, 2, 0x100);
   (0x131, 0x131, 1, 0x49); (0x133, 0x137, 2, 0x132);
   (0x13A, 0x148, 2, 0x139); (0x14B, 0x177, 2, 0x14A);
   (0x17A, 0x17E, 2, 0x179); (0x17F, 0x17F, 1, 0x53);
   (0x180, 0x180, 1, 0x243); (0x183, 0x185, 2, 0x182);
   (0x188, 0x188, 1, 0x187); (0x18C, 0x18C, 1, 0x18B);
   (0x192, 0x192, 1, 0x191); (0x195, 0x195, 1, 0x1F6);
   (0x199, 0x199, 1, 0x198); (0x19A, 0x19A, 1, 0x23D);
   (0x19E, 0x19E, 1, 0x220); (0x1A1, 0x1A5, 2, 0x1A0);
   (0x1A8, 0x1A8, 1, 0x1A7); (0x1AD, 0x1AD, 1, 0x1AC);
   (0x1B0, 0x1B0, 1, 0x1AF); (0x1B4, 0x1B6, 2, 0x1B3);
   (0x1B9, 0x1B9, 1, 0x1B8); (0x1BD, 0x1BD, 1, 0x1BC);
   (0x1BF, 0x1BF, 1, 0x1F7); (0x1C4, 0x1C4, 1, 0x1C5);
   (0x1C6, 0x1C6, 1, 0x1C5); (0x1C7, 0x1C7, 1, 0x1C8);
   (0x1C9, 0x1C9, 1, 0x1C8); (0x1CA, 0x1CA, 1, 0x1CB);
   (0x1CC, 0x1DC, 2, 0x1CB); (0x1DD, 0x1DD, 1, 0x18E);
   (0x1DF, 0x1EF, 2, 0x1DE); (0x1F1, 0x1F1, 1, 0x1F2);
   (0x1F3, 0x1F5, 2, 0x1F2); (0x1F9, 0x21F, 2, 0x1F8);
   (0x223, 0x233, 2, 0x222); (0x23C, 0x23C, 1, 0x23B);
   (0x23F, 0x240, 1, 0x2C7E); (0x242, 0x242, 1, 0x241);
   (0x247, 0x24F, 2, 0x246); (0x250, 0x250, 1, 0x2C6F);
   (0x251, 0x251, 1, 0x2C6D); (0x252, 0x252, 1, 0x2C70);
   (0x253, 0x253, 1, 0x181); (0x254, 0x254, 1, 0x186);
   (0x256, 0x257, 1, 0x189); (0x259, 0x259, 1, 0x18F);
   (0x25B, 0x25B, 1, 0x190); (0x25C, 0x25C, 1, 0xA7AB);
   (0x260, 0x260, 1, 0x193); (0x261, 0x261, 1, 0xA7AC);
   (0x263, 0x263, 1, 0x194); (0x265, 0x265, 1, 0xA78D);
   (0x266, 0x266, 1, 0xA7AA); (0x268, 0x268, 1, 0x197);
   (0x269, 0x269, 1, 0x196); (0x26A, 0x26A, 1, 0xA7AE);
   (0x26B, 0x26B, 1, 0x2C62); (0x26C, 0x26C, 1, 0xA7AD);
   (0x26F, 0x26F, 1, 0x19C); (0x271, 0x271, 1, 0x2C6E);
   (0x272, 0x272, 1, 0x19D); (0x275, 0x275, 1, 0x19F);
   (0x27D, 0x27D, 1, 0x2C64); (0x280, 0x280, 1, 0x1A6);
   (0x282, 0x282, 1, 0xA7C5); (0x283, 0x283, 1, 0x1A9);
   (0x287, 0x287, 1, 0xA7B1); (0x288, 0x288, 1, 0x1AE);
   (0x289, 0x289, 1, 0x244); (0x28A, 0x28B, 1, 0x1B1);
   (0x28C, 0x28C, 1, 0x245); (0x292, 0x292, 1, 0x1B7);
   (0x29D, 0x29D, 1, 0xA7B2); (0x29E, 0x29E, 1, 0xA7B0);
   (0x345, 0x345, 1, 0x399); (0x371, 0x373, 2, 0x370);
   (0x377, 0x377, 1, 0x376); (0x37B, 0x37D, 1, 0x3FD);
   (0x3AC, 0x3AC, 1, 0x386); (0x3AD, 0x3AF, 1, 0x388);
   (0x3B1, 0x3C1, 1, 0x391); (0x3C2, 0x3C2, 1, 0x3A3);
   (0x3C3, 0x3CB, 1, 0x3A3); (0x3CC, 0x3CC, 1, 0x38C);
   (0x3CD, 0x3CE, 1, 0x38E); (0x3D0, 0x3D0, 1, 0x392);
   (0x3D1, 0x3D1, 1, 0x398); (0x3D5, 0x3D5, 1, 0x3A6);
   (0x3D6, 0x3D6, 1, 0x3A0); (0x3D7, 0x3D7, 1, 0x3CF);
   (0x3D9, 0x3EF, 2, 0x3D8); (0x3F0, 0x3F0, 1, 0x39A);
   (0x3F1, 0x3F1, 1, 0x3A1); (0x3F2, 0x3F2, 1, 0x3F9);
   (0x3F3, 0x3F3, 1, 0x37F); (0x3F5, 0x3F5, 1, 0x395);
   (0x3F8, 0x3F8, 1, 0x3F7); (0x3FB, 0x3FB, 1, 0x3FA);
   (0x430, 0x44F, 1, 0x410); (0x450, 0x45F, 1, 0x400);
   (0x461, 0x481, 2, 0x460); (0x48B, 0x4BF, 2, 0x48A);
   (0x4C2, 0x4CE, 2, 0x4C1); (0x4CF, 0x4CF, 1, 0x4C0);
   (0x4D1, 0x52F, 2, 0x4D0); (0x561, 0x586, 1, 0x531);
   (0x13F8, 0x13FD, 1, 0x13F0); (0x1C80, 0x1C80, 1, 0x412);
   (0x1C81, 0x1C81, 1, 0x414); (0x1C82, 0x1C82, 1, 0x41E);
   (0x1C83, 0x1C84, 1, 0x421); (0x1C85, 0x1C85, 1, 0x422);
   (0x1C86, 0x1C86, 1, 0x42A); (0x1C87, 0x1C87, 1, 0x462);
   (0x1C88, 0x1C88, 1, 0xA64A); (0x1D79, 0x1D79, 1, 0xA77D);
   (0x1D7D, 0x1D7D, 1, 0x2C63); (0x1D8E, 0x1D8E, 1, 0xA7C6);
   (0x1E01, 0x1E95, 2, 0x1E00); (0x1E9B, 0x1E9B, 1, 0x1E60);
   (0x1EA1, 0x1EFF, 2, 0x1EA0); (0x1F00, 0x1F07, 1, 0x1F08);
   (0x1F10, 0x1F15, 1, 0x1F18); (0x1F20, 0x1F27, 1, 0x1F28);
   (0x1F30, 0x1F37, 1, 0x1F38); (0x1F40, 0x1F45, 1, 0x1F48);
   (0x1F51, 0x1F57, 2, 0x1F59); (0x1F60, 0x1F67, 1, 0x1F68);
   (0x1F70, 0x1F71, 1, 0x1FBA); (0x1F72, 0x1F75, 1, 0x1FC8);
   (0x1F76, 0x1F77, 1, 0x1FDA); (0x1F78, 0x1F79, 1, 0x1FF8);
   (0x1F7A, 0x1F7B, 1, 0x1FEA); (0x1F7C, 0x1F7D, 1, 0x1FFA);
   (0x1F80, 0x1F87, 1, 0x1F88); (0x1F90, 0x1F97, 1, 0x1F98);
   (0x1FA0, 0x1FA7, 1, 0x1FA8); (0x1FB0, 0x1FB1, 1, 0x1FB8);
   (0x1FB3, 0x1FB3, 1, 0x1FBC); (0x1FBE, 0x1FBE, 1, 0x399);
   (0x1FC3, 0x1FC3, 1, 0x1FCC); (0x1FD0, 0x1FD1, 1, 0x1FD8);
   (0x1FE0, 0x1FE1, 1, 0x1FE8); (0x1FE5, 0x1FE5, 1, 0x1FEC);
   (0x1FF3, 0x1FF3, 1, 0x1FFC); (0x214E, 0x214E, 1, 0x2132);
   (0x2170, 0x217F, 1, 0x2160); (0x2184, 0x2184, 1, 0x2183);
   (0x24D0, 0x24E9, 1, 0x24B6); (0x2C30, 0x2C5F, 1, 0x2C00);
   (0x2C61, 0x2C61, 1, 0x2C60); (0x2C65, 0x2C65, 1, 0x23A);
   (0x2C66, 0x2C66, 1, 0x23E); (0x2C68, 0x2C6C, 2, 0x2C67);
   (0x2C73, 0x2C73, 1, 0x2C72); (0x2C76, 0x2C76, 1, 0x2C75);
   (0x2C81, 0x2CE3, 2, 0x2C80); (0x2CEC, 0x2CEE, 2, 0x2CEB);
   (0x2CF3, 0x2CF3, 1, 0x2CF2); (0x2D00, 0x2D25, 1, 0x10A0);
   (0x2D27, 0x2D27, 1, 0x10C7); (0x2D2D, 0x2D2D, 1, 0x10CD);
   (0xA641, 0xA66D, 2, 0xA640); (0xA681, 0xA69B, 2, 0xA680);
   (0xA723, 0xA72F, 2, 0xA722); (0xA733, 0xA76F, 2, 0xA732);
   (0xA77A, 0xA77C, 2, 0xA779); (0xA77F, 0xA787, 2, 0xA77E);
   (0xA78C, 0xA78C, 1, 0xA78B); (0xA791, 0xA793, 2, 0xA790);
   (0xA794, 0xA794, 1, 0xA7C4); (0xA797, 0xA7A9, 2, 0xA796);
   (0xA7B5, 0xA7C3, 2, 0xA7B4); (0xA7C8, 0xA7CA, 2, 0xA7C7);
   (0xA7D1, 0xA7D1, 1, 0xA7D0); (0xA7D7, 0xA7D9, 2, 0xA7D6);
   (0xA7F6, 0xA7F6, 1, 0xA7F5); (0xAB53, 0xAB53, 1, 0xA7B3);
   (0xAB70, 0xABBF, 1, 0x13A0); (0xFF41, 0xFF5A, 1, 0xFF21);
   (0x10428, 0x1044F, 1, 0x10400); (0x104D8, 0x104FB, 1, 0x104B0);
   (0x10597, 0x105BB, 2, 0x10570); (0x10598, 0x105A0, 2, 0x10571);
   (0x105A4, 0x105B0, 2, 0x1057D); (0x105B4, 0x105B8, 2, 0x1058D);
   (0x105BC, 0x105BC, 1, 0x10595); (0x10CC0, 0x10CF2, 1, 0x10C80);
   (0x118C0, 0x118DF, 1, 0x118A0); (0x16E60, 0x16E7F, 1, 0x16E40);
   (0x1E922, 0x1E943, 1, 0x1E900)].

(** The code points whose title case is longer, ligatures and the like. *)
Definition TITLE_SPECIAL : list (N * list N) :=
  [(0xDF, [0x53; 0x73]); (0x149, [0x2BC; 0x4E]); (0x1F0, [0x4A; 0x30C]);
   (0x390, [0x399; 0x308; 0x301]); (0x3B0, [0x3A5; 0x308; 0x301]);
   (0x587, [0x535; 0x582]); (0x1E96, [0x48; 0x331]); (0x1E97, [0x54; 0x308]);
   (0x1E98, [0x57; 0x30A]); (0x1E99, [0x59; 0x30A]); (0x1E9A, [0x41; 0x2BE]);
   (0x1F50, [0x3A5; 0x313]); (0x1F52, [0x3A5; 0x313; 0x300]);
   (0x1F54, [0x3A5; 0x313; 0x301]); (0x1F56, [0x3A5; 0x313; 0x342]);
   (0x1FB2, [0x1FBA; 0x345]); (0x1FB4, [0x386; 0x345]);
   (0x1FB6, [0x391; 0x342]); (0x1FB7, [0x391; 0x342; 0x345]);
   (0x1FC2, [0x1FCA; 0x345]); (0x1FC4, [0x389; 0x345]);
   (0x1FC6, [0x397; 0x342]); (0x1FC7, [0x397; 0x342; 0x345]);
   (0x1FD2, [0x399; 0x308; 0x300]); (0x1FD3, [0x399; 0x308; 0x301]);
   (0x1FD6, [0x399; 0x342]); (0x1FD7, [0x399; 0x308; 0x342]);
   (0x1FE2, [0x3A5; 0x308; 0x300]); (0x1FE3, [0x3A5; 0x308; 0x301]);
   (0x1FE4, [0x3A1; 0x313]); (0x1FE6, [0x3A5; 0x342]);
   (0x1FE7, [0x3A5; 0x308; 0x342]); (0x1FF2, [0x1FFA; 0x345]);
   (0x1FF4, [0x38F; 0x345]); (0x1FF6, [0x3A9; 0x342]);
   (0x1FF7, [0x3A9; 0x342; 0x345]); (0xFB00, [0x46; 0x66]);
   (0xFB01, [0x46; 0x69]); (0xFB02, [0x46; 0x6C]);
   (0xFB03, [0x46; 0x66; 0x69]); (0xFB04, [0x46; 0x66; 0x6C]);
   (0xFB05, [0x53; 0x74]); (0xFB06, [0x53; 0x74]); (0xFB13, [0x544; 0x576]);
   (0xFB14, [0x544; 0x565]); (0xFB15, [0x544; 0x56B]);
   (0xFB16, [0x54E; 0x576]); (0xFB17, [0x544; 0x56D])].

(** The cased code points: upper case, lower case and title case letters. *)
Definition CASED : list (N * N) :=
  [(0x41, 0x5A); (0x61, 0x7A); (0xAA, 0xAA); (0xB5, 0xB5); (0xBA, 0xBA);
   (0xC0, 0xD6); (0xD8, 0xF6); (0xF8, 0x1BA); (0x1BC, 0x1BF); (0x1C4, 0x293);
   (0x295, 0x2B8); (0x2C0, 0x2C1); (0x2E0, 0x2E4); (0x345, 0x345);
   (0x370, 0x373); (0x376, 0x377); (0x37A, 0x37D); (0x37F, 0x37F);
   (0x386, 0x386); (0x388, 0x38A); (0x38C, 0x38C); (0x38E, 0x3A1);
   (0x3A3, 0x3F5); (0x3F7, 0x481); (0x48A, 0x52F); (0x531, 0x556);
   (0x560, 0x588); (0x10A0, 0x10C5); (0x10C7, 0x10C7); (0x10CD, 0x10CD);
   (0x10D0, 0x10FA); (0x10FD, 0x10FF); (0x13A0, 0x13F5); (0x13F8, 0x13FD);
   (0x1C80, 0x1C88); (0x1C90, 0x1CBA); (0x1CBD, 0x1CBF); (0x1D00, 0x1DBF);
   (0x1E00, 0x1F15); (0x1F18, 0x1F1D); (0x1F20, 0x1F45); (0x1F48, 0x1F4D);
   (0x1F50, 0x1F57); (0x1F59, 0x1F59); (0x1F5B, 0x1F5B); (0x1F5D, 0x1F5D);
   (0x1F5F, 0x1F7D); (0x1F80, 0x1FB4); (0x1FB6, 0x1FBC); (0x1FBE, 0x1FBE);
   (0x1FC2, 0x1FC4); (0x1FC6, 0x1FCC); (0x1FD0, 0x1FD3); (0x1FD6, 0x1FDB);
   (0x1FE0, 0x1FEC); (0x1FF2, 0x1FF4); (0x1FF6, 0x1FFC); (0x2071, 0x2071);
   (0x207F, 0x207F); (0x2090, 0x209C); (0x2102, 0x2102); (0x2107, 0x2107);
   (0x210A, 0x2113); (0x2115, 0x2115); (0x2119, 0x211D); (0x2124, 0x2124);
   (0x2126, 0x2126); (0x2128, 0x2128); (0x212A, 0x212D); (0x212F, 0x2134);
   (0x2139, 0x2139); (0x213C, 0x213F); (0x2145, 0x2149); (0x214E, 0x214E);
   (0x2160, 0x217F); (0x2183, 0x2184); (0x24B6, 0x24E9); (0x2C00, 0x2CE4);
   (0x2CEB, 0x2CEE); (0x2CF2, 0x2CF3); (0x2D00, 0x2D25); (0x2D27, 0x2D27);
   (0x2D2D, 0x2D2D); (0xA640, 0xA66D); (0xA680, 0xA69D); (0xA722, 0xA787);
   (0xA78B, 0xA78E); (0xA790, 0xA7CA); (0xA7D0, 0xA7D1); (0xA7D3, 0xA7D3);
   (0xA7D5, 0xA7D9); (0xA7F5, 0xA7F6); (0xA7F8, 0xA7FA); (0xAB30, 0xAB5A);
   (0xAB5C, 0xAB68); (0xAB70, 0xABBF); (0xFB00, 0xFB06); (0xFB13, 0xFB17);
   (0xFF21, 0xFF3A); (0xFF41, 0xFF5A); (0x10400, 0x1044F); (0x104B0, 0x104D3);
   (0x104D8, 0x104FB); (0x10570, 0x1057A); (0x1057C, 0x1058A);
   (0x1058C, 0x10592); (0x10594, 0x10595); (0x10597, 0x105A1);
   (0x105A3, 0x105B1); (0x105B3, 0x105B9); (0x105BB, 0x105BC);
   (0x10780, 0x10780); (0x10783, 0x10785); (0x10787, 0x107B0);
   (0x107B2, 0x107BA); (0x10C80, 0x10CB2); (0x10CC0, 0x10CF2);
   (0x118A0, 0x118DF); (0x16E40, 0x16E7F); (0x1D400, 0x1D454);
   (0x1D456, 0x1D49C); (0x1D49E, 0x1D49F); (0x1D4A2, 0x1D4A2);
   (0x1D4A5, 0x1D4A6); (0x1D4A9, 0x1D4AC); (0x1D4AE, 0x1D4B9);
   (0x1D4BB, 0x1D4BB); (0x1D4BD, 0x1D4C3); (0x1D4C5, 0x1D505);
   (0x1D507, 0x1D50A); (0x1D50D, 0x1D514); (0x1D516, 0x1D51C);
   (0x1D51E, 0x1D539); (0x1D53B, 0x1D53E); (0x1D540, 0x1D544);
   (0x1D546, 0x1D546); (0x1D54A, 0x1D550); (0x1D552, 0x1D6A5);
   (0x1D6A8, 0x1D6C0); (0x1D6C2, 0x1D6DA); (0x1D6DC, 0x1D6FA);
   (0x1D6FC, 0x1D714); (0x1D716, 0x1D734); (0x1D736, 0x1D74E);
   (0x1D750, 0x1D76E); (0x1D770, 0x1D788); (0x1D78A, 0x1D7A8);
   (0x1D7AA, 0x1D7C2); (0x1D7C4, 0x1D7CB); (0x1DF00, 0x1DF09);
   (0x1DF0B, 0x1DF1E); (0x1E900, 0x1E943); (0x1F130, 0x1F149);
   (0x1F150, 0x1F169); (0x1F170, 0x1F189)].

(** The code points a word may hold without a break of case: marks,
    modifiers, format characters and some punctuation. *)
Definition CASE_IGNORABLE : list (N * N) :=
  [(0x27, 0x27); (0x2E, 0x2E); (0x3A, 0x3A); (0x5E, 0x5E); (0x60, 0x60);
   (0xA8, 0xA8); (0xAD, 0xAD); (0xAF, 0xAF); (0xB4, 0xB4); (0xB7, 0xB8);
   (0x2B0, 0x36F); (0x374, 0x375); (0x37A, 0x37A); (0x384, 0x385);
   (0x387, 0x387); (0x483, 0x489); (0x559, 0x559); (0x55F, 0x55F);
   (0x591, 0x5BD); (0x5BF, 0x5BF); (0x5C1, 0x5C2); (0x5C4, 0x5C5);
   (0x5C7, 0x5C7); (0x5F4, 0x5F4); (0x600, 0x605); (0x610, 0x61A);
   (0x61C, 0x61C); (0x640, 0x640); (0x64B, 0x65F); (0x670, 0x670);
   (0x6D6, 0x6DD); (0x6DF, 0x6E8); (0x6EA, 0x6ED); (0x70F, 0x70F);
   (0x711, 0x711); (0x730, 0x74A); (0x7A6, 0x7B0); (0x7EB, 0x7F5);
   (0x7FA, 0x7FA); (0x7FD, 0x7FD); (0x816, 0x82D); (0x859, 0x85B);
   (0x888, 0x888); (0x890, 0x891); (0x898, 0x89F); (0x8C9, 0x902);
   (0x93A, 0x93A); (0x93C, 0x93C); (0x941, 0x948); (0x94D, 0x94D);
   (0x951, 0x957); (0x962, 0x963); (0x971, 0x971); (0x981, 0x981);
   (0x9BC, 0x9BC); (0x9C1, 0x9C4); (0x9CD, 0x9CD); (0x9E2, 0x9E3);
   (0x9FE, 0x9FE); (0xA01, 0xA02); (0xA3C, 0xA3C); (0xA41, 0xA42);
   (0xA47, 0xA48); (0xA4B, 0xA4D); (0xA51, 0xA51); (0xA70, 0xA71);
   (0xA75, 0xA75); (0xA81, 0xA82); (0xABC, 0xABC); (0xAC1, 0xAC5);
   (0xAC7, 0xAC8); (0xACD, 0xACD); (0xAE2, 0xAE3); (0xAFA, 0xAFF);
   (0xB01, 0xB01); (0xB3C, 0xB3C); (0xB3F, 0xB3F); (0xB41, 0xB44);
   (0xB4D, 0xB4D); (0xB55, 0xB56); (0xB62, 0xB63); (0xB82, 0xB82);
   (0xBC0, 0xBC0); (0xBCD, 0xBCD); (0xC00, 0xC00); (0xC04, 0xC04);
   (0xC3C, 0xC3C); (0xC3E, 0xC40); (0xC46, 0xC48); (0xC4A, 0xC4D);
   (0xC55, 0xC56); (0xC62, 0xC63); (0xC81, 0xC81); (0xCBC, 0xCBC);
   (0xCBF, 0xCBF); (0xCC6, 0xCC6); (0xCCC, 0xCCD); (0xCE2, 0xCE3);
   (0xD00, 0xD01); (0xD3B, 0xD3C); (0xD41, 0xD44); (0xD4D, 0xD4D);
   (0xD62, 0xD63); (0xD81, 0xD81); (0xDCA, 0xDCA); (0xDD2, 0xDD4);
   (0xDD6, 0xDD6); (0xE31, 0xE31); (0xE34, 0xE3A); (0xE46, 0xE4E);
   (0xEB1, 0xEB1); (0xEB4, 0xEBC); (0xEC6, 0xEC6); (0xEC8, 0xECD);
   (0xF18, 0xF19); (0xF35, 0xF35); (0xF37, 0xF37); (0xF39, 0xF39);
   (0xF71, 0xF7E); (0xF80, 0xF84); (0xF86, 0xF87); (0xF8D, 0xF97);
   (0xF99, 0xFBC); (0xFC6, 0xFC6); (0x102D, 0x1030); (0x1032, 0x1037);
   (0x1039, 0x103A); (0x103D, 0x103E); (0x1058, 0x1059); (0x105E, 0x1060);
   (0x1071, 0x1074); (0x1082, 0x1082); (0x1085, 0x1086); (0x108D, 0x108D);
   (0x109D, 0x109D); (0x10FC, 0x10FC); (0x135D, 0x135F); (0x1712, 0x1714);
   (0x1732, 0x1733); (0x1752, 0x1753); (0x1772, 0x1773); (0x17B4, 0x17B5);
   (0x17B7, 0x17BD); (0x17C6, 0x17C6); (0x17C9, 0x17D3); (0x17D7, 0x17D7);
   (0x17DD, 0x17DD); (0x180B, 0x180F); (0x1843, 0x1843); (0x1885, 0x1886);
   (0x18A9, 0x18A9); (0x1920, 0x1922); (0x1927, 0x1928); (0x1932, 0x1932);
   (0x1939, 0x193B); (0x1A17, 0x1A18); (0x1A1B, 0x1A1B); (0x1A56, 0x1A56);
   (0x1A58, 0x1A5E); (0x1A60, 0x1A60); (0x1A62, 0x1A62); (0x1A65, 0x1A6C);
   (0x1A73, 0x1A7C); (0x1A7F, 0x1A7F); (0x1AA7, 0x1AA7); (0x1AB0, 0x1ACE);
   (0x1B00, 0x1B03); (0x1B34, 0x1B34); (0x1B36, 0x1B3A); (0x1B3C, 0x1B3C);
   (0x1B42, 0x1B42); (0x1B6B, 0x1B73); (0x1B80, 0x1B81); (0x1BA2, 0x1BA5);
   (0x1BA8, 0x1BA9); (0x1BAB, 0x1BAD); (0x1BE6, 0x1BE6); (0x1BE8, 0x1BE9);
   (0x1BED, 0x1BED); (0x1BEF, 0x1BF1); (0x1C2C, 0x1C33); (0x1C36, 0x1C37);
   (0x1C78, 0x1C7D); (0x1CD0, 0x1CD2); (0x1CD4, 0x1CE0); (0x1CE2, 0x1CE8);
   (0x1CED, 0x1CED); (0x1CF4, 0x1CF4); (0x1CF8, 0x1CF9); (0x1D2C, 0x1D6A);
   (0x1D78, 0x1D78); (0x1D9B, 0x1DFF); (0x1FBD, 0x1FBD); (0x1FBF, 0x1FC1);
   (0x1FCD, 0x1FCF); (0x1FDD, 0x1FDF); (0x1FED, 0x1FEF); (0x1FFD, 0x1FFE);
   (0x200B, 0x200F); (0x2018, 0x2019); (0x2024, 0x2024); (0x2027, 0x2027);
   (0x202A, 0x202E); (0x2060, 0x2064); (0x2066, 0x206F); (0x2071, 0x2071);
   (0x207F, 0x207F); (0x2090, 0x209C); (0x20D0, 0x20F0); (0x2C7C, 0x2C7D);
   (0x2CEF, 0x2CF1); (0x2D6F, 0x2D6F); (0x2D7F, 0x2D7F); (0x2DE0, 0x2DFF);
   (0x2E2F, 0x2E2F); (0x3005, 0x3005); (0x302A, 0x302D); (0x3031, 0x3035);
   (0x303B, 0x303B); (0x3099, 0x309E); (0x30FC, 0x30FE); (0xA015, 0xA015);
   (0xA4F8, 0xA4FD); (0xA60C, 0xA60C); (0xA66F, 0xA672); (0xA674, 0xA67D);
   (0xA67F, 0xA67F); (0xA69C, 0xA69F); (0xA6F0, 0xA6F1); (0xA700, 0xA721);
   (0xA770, 0xA770); (0xA788, 0xA78A); (0xA7F2, 0xA7F4); (0xA7F8, 0xA7F9);
   (0xA802, 0xA802); (0xA806, 0xA806); (0xA80B, 0xA80B); (0xA825, 0xA826);
   (0xA82C, 0xA82C); (0xA8C4, 0xA8C5); (0xA8E0, 0xA8F1); (0xA8FF, 0xA8FF);
   (0xA926, 0xA92D); (0xA947, 0xA951); (0xA980, 0xA982); (0xA9B3, 0xA9B3);
   (0xA9B6, 0xA9B9); (0xA9BC, 0xA9BD); (0xA9CF, 0xA9CF); (0xA9E5, 0xA9E6);
   (0xAA29, 0xAA2E); (0xAA31, 0xAA32); (0xAA35, 0xAA36); (0xAA43, 0xAA43);
   (0xAA4C, 0xAA4C); (0xAA70, 0xAA70); (0xAA7C, 0xAA7C); (0xAAB0, 0xAAB0);
   (0xAAB2, 0xAAB4); (0xAAB7, 0xAAB8); (0xAABE, 0xAABF); (0xAAC1, 0xAAC1);
   (0xAADD, 0xAADD); (0xAAEC, 0xAAED); (0xAAF3, 0xAAF4); (0xAAF6, 0xAAF6);
   (0xAB5B, 0xAB5F); (0xAB69, 0xAB6B); (0xABE5, 0xABE5); (0xABE8, 0xABE8);
   (0xABED, 0xABED); (0xFB1E, 0xFB1E); (0xFBB2, 0xFBC2); (0xFE00, 0xFE0F);
   (0xFE13, 0xFE13); (0xFE20, 0xFE2F); (0xFE52, 0xFE52); (0xFE55, 0xFE55);
   (0xFEFF, 0xFEFF); (0xFF07, 0xFF07); (0xFF0E, 0xFF0E); (0xFF1A, 0xFF1A);
   (0xFF3E, 0xFF3E); (0xFF40, 0xFF40); (0xFF70, 0xFF70); (0xFF9E, 0xFF9F);
   (0xFFE3, 0xFFE3); (0xFFF9, 0xFFFB); (0x101FD, 0x101FD); (0x102E0, 0x102E0);
   (0x10376, 0x1037A); (0x10780, 0x10785); (0x10787, 0x107B0);
   (0x107B2, 0x107BA); (0x10A01, 0x10A03); (0x10A05, 0x10A06);
   (0x10A0C, 0x10A0F); (0x10A38, 0x10A3A); (0x10A3F, 0x10A3F);
   (0x10AE5, 0x10AE6); (0x10D24, 0x10D27); (0x10EAB, 0x10EAC);
   (0x10F46, 0x10F50); (0x10F82, 0x10F85); (0x11001, 0x11001);
   (0x11038, 0x11046); (0x11070, 0x11070); (0x11073, 0x11074);
   (0x1107F, 0x11081); (0x110B3, 0x110B6); (0x110B9, 0x110BA);
   (0x110BD, 0x110BD); (0x110C2, 0x110C2); (0x110CD, 0x110CD);
   (0x11100, 0x11102); (0x11127, 0x1112B); (0x1112D, 0x11134);
   (0x11173, 0x11173); (0x11180, 0x11181); (0x111B6, 0x111BE);
   (0x111C9, 0x111CC); (0x111CF, 0x111CF); (0x1122F, 0x11231);
   (0x11234, 0x11234); (0x11236, 0x11237); (0x1123E, 0x1123E);
   (0x112DF, 0x112DF); (0x112E3, 0x112EA); (0x11300, 0x11301);
   (0x1133B, 0x1133C); (0x11340, 0x11340); (0x11366, 0x1136C);
   (0x11370, 0x11374); (0x11438, 0x1143F); (0x11442, 0x11444);
   (0x11446, 0x11446); (0x1145E, 0x1145E); (0x114B3, 0x114B8);
   (0x114BA, 0x114BA); (0x114BF, 0x114C0); (0x114C2, 0x114C3);
   (0x115B2, 0x115B5); (0x115BC, 0x115BD); (0x115BF, 0x115C0);
   (0x115DC, 0x115DD); (0x11633, 0x1163A); (0x1163D, 0x1163D);
   (0x1163F, 0x11640); (0x116AB, 0x116AB); (0x116AD, 0x116AD);
   (0x116B0, 0x116B5); (0x116B7, 0x116B7); (0x1171D, 0x1171F);
   (0x11722, 0x11725); (0x11727, 0x1172B); (0x1182F, 0x11837);
   (0x11839, 0x1183A); (0x1193B, 0x1193C); (0x1193E, 0x1193E);
   (0x11943, 0x11943); (0x119D4, 0x119D7); (0x119DA, 0x119DB);
   (0x119E0, 0x119E0); (0x11A01, 0x11A0A); (0x11A33, 0x11A38);
   (0x11A3B, 0x11A3E); (0x11A47, 0x11A47); (0x11A51, 0x11A56);
   (0x11A59, 0x11A5B); (0x11A8A, 0x11A96); (0x11A98, 0x11A99);
   (0x11C30, 0x11C36); (0x11C38, 0x11C3D); (0x11C3F, 0x11C3F);
   (0x11C92, 0x11CA7); (0x11CAA, 0x11CB0); (0x11CB2, 0x11CB3);
   (0x11CB5, 0x11CB6); (0x11D31, 0x11D36); (0x11D3A, 0x11D3A);
   (0x11D3C, 0x11D3D); (0x11D3F, 0x11D45); (0x11D47, 0x11D47);
   (0x11D90, 0x11D91); (0x11D95, 0x11D95); (0x11D97, 0x11D97);
   (0x11EF3, 0x11EF4); (0x13430, 0x13438); (0x16AF0, 0x16AF4);
   (0x16B30, 0x16B36); (0x16B40, 0x16B43); (0x16F4F, 0x16F4F);
   (0x16F8F, 0x16F9F); (0x16FE0, 0x16FE1); (0x16FE3, 0x16FE4);
   (0x1AFF0, 0x1AFF3); (0x1AFF5, 0x1AFFB); (0x1AFFD, 0x1AFFE);
   (0x1BC9D, 0x1BC9E); (0x1BCA0, 0x1BCA3); (0x1CF00, 0x1CF2D);
   (0x1CF30, 0x1CF46); (0x1D167, 0x1D169); (0x1D173, 0x1D182);
   (0x1D185, 0x1D18B); (0x1D1AA, 0x1D1AD); (0x1D242, 0x1D244);
   (0x1DA00, 0x1DA36); (0x1DA3B, 0x1DA6C); (0x1DA75, 0x1DA75);
   (0x1DA84, 0x1DA84); (0x1DA9B, 0x1DA9F); (0x1DAA1, 0x1DAAF);
   (0x1E000, 0x1E006); (0x1E008, 0x1E018); (0x1E01B, 0x1E021);
   (0x1E023, 0x1E024); (0x1E026, 0x1E02A); (0x1E130, 0x1E13D);
   (0x1E2AE, 0x1E2AE); (0x1E2EC, 0x1E2EF); (0x1E8D0, 0x1E8D6);
   (0x1E944, 0x1E94B); (0x1F3FB, 0x1F3FF); (0xE0001, 0xE0001);
   (0xE0020, 0xE007F); (0xE0100, 0xE01EF)].

(** The full lower case and title case of one code point. *)
Definition lower_full (c : codepoint) : str :=
  match assoc_cp LOWER_SPECIAL c with
  | Some l => l
  | None =>
    match map_runs LOWER_RUNS c with
    | Some d => [d]
    | None => [c]
    end
  end.

Definition title_full (c : codepoint) : str :=
  match assoc_cp TITLE_SPECIAL c with
  | Some l => l
  | None =>
    match map_runs TITLE_RUNS c with
    | Some d => [d]
    | None => [c]
    end
  end.

Definition is_cased (c : codepoint) : bool := in_ranges CASED c.
Definition is_case_ignorable (c : codepoint) : bool :=
  in_ranges CASE_IGNORABLE c.

(** Whether a capital sigma stands at the end of a word: a cased code
    point before it and none after it, case-ignorable ones skipped.
    [before] is the text before the sigma, nearest code point first. *)
Definition final_sigma (before after : str) : bool :=
  match lstrip_by is_case_ignorable before with
  | c :: _ =>
    is_cased c
    && match lstrip_by is_case_ignorable after with
       | c' :: _ => negb (is_cased c')
       | [] => true
       end
  | [] => false
  end.

(** The lower case of [s], which stands behind [before]. *)
Fixpoint lower_from (before s : str) : str :=
  match s with
  | [] => []
  | c :: t =>
    (if c =? 0x3A3
     then [if final_sigma before t then 0x3C2 else 0x3C3]
     else lower_full c)
    ++ lower_from (c :: before) t
  end.

(** [s.lower()] *)
Definition lower (s : str) : str := lower_from [] s.

(** [s.capitalize()]: the first code point in title case, the others in
    lower case. *)
Definition capitalize (s : str) : str :=
  match s with
  | [] => []
  | c :: t => title_full c ++ lower_from [c] t
  end.

(** [re.sub(' +', ' ', s)]: every maximal run of spaces becomes one space. *)
Fixpoint collapse_spaces (s : str) : str :=
  match s with
  | [] => []
  | c :: t =>
    if c =? 0x20
    then match t with
         | c' :: _ => if c' =? 0x20 then collapse_spaces t
                      else c :: collapse_spaces t
         | [] => [c]
         end
    else c :: collapse_spaces t
  end.

(** [int(s)] for the strings the patterns capture: a non-empty run of
    decimal digits of any script.  Anything else is a [ValueError] here;
    the signs, underscores and surrounding blanks that [int] also accepts
    cannot come out of the patterns.  A run of more than 4300 digits,
    leading zeros counted, is a [ValueError] too: that is the limit of
    [sys.get_int_max_str_digits()] as the interpreter starts with it. *)
Definition INT_MAX_STR_DIGITS : N := 4300.

Definition int_too_long (s : str) : bool :=
  INT_MAX_STR_DIGITS <? N.of_nat (List.length s).

Fixpoint int_digits (acc : N) (s : str) : option N :=
  match s with
  | [] => Some acc
  | c :: t =>
    match decimal_value c with
    | Some d => int_digits (10 * acc + d) t
    | None => None
    end
  end.

Definition py_int (s : str) : result Z :=
  match s with
  | [] => Raise ValueError
  | _ => match int_digits 0 s with
         | Some n => if int_too_long s then Raise ValueError
                     else Ok (Z.of_N n)
         | None => Raise ValueError
         end
  end.


(** ** UTF-8, the codec of [str.encode()] and [bytes.decode('utf-8')] *)

(** A Unicode scalar value: a code point that is not a surrogate. *)
Definition is_scalar (c : codepoint) : bool :=
  (c <? 0xD800) || ((0xE000 <=? c) && (c <? 0x110000)).

Definition utf8_encode_cp (c : codepoint) : result bytes :=
  if c <? 0x80 then Ok [c]
  else if c <? 0x800 then Ok [0xC0 + c / 64; 0x80 + c mod 64]
  else if c <? 0x10000 then
    if (0xD800 <=? c) && (c <? 0xE000) then Raise UnicodeEncodeError
    else Ok [0xE0 + c / 4096; 0x80 + (c / 64) mod 64; 0x80 + c mod 64]
  else if c <? 0x110000 then
    Ok [0xF0 + c / 262144; 0x80 + (c / 4096) mod 64;
        0x80 + (c / 64) mod 64; 0x80 + c mod 64]
  else Raise UnicodeEncodeError.

(** [s.encode()]: a lone surrogate is a [UnicodeEncodeError]. *)
Fixpoint utf8_encode (s : str) : result bytes :=
  match s with
  | [] => Ok []
  | c :: t =>
    let! b := utf8_encode_cp c in
    let! bs := utf8_encode t in
    Ok (b ++ bs)
  end.

(** A continuation byte, [10xxxxxx]. *)
Definition is_cont (b : N) : bool := (0x80 <=? b) && (b <? 0xC0).

(** [b.decode('utf-8')], strict: truncated and overlong sequences, encoded
    surrogates and values above U+10FFFF are a [UnicodeDecodeError]. *)
Fixpoint utf8_decode (l : bytes) : result str :=
  match l with
  | [] => Ok []
  | b0 :: t0 =>
    if b0 <? 0x80 then
      let! s := utf8_decode t0 in Ok (b0 :: s)
    else if b0 <? 0xC0 then Raise UnicodeDecodeError
    else if b0 <? 0xE0 then
      match t0 with
      | b1 :: t1 =>
        let c := (b0 - 0xC0) * 64 + (b1 - 0x80) in
        if is_cont b1 && (0x80 <=? c)
        then let! s := utf8_decode t1 in Ok (c :: s)
        else Raise UnicodeDecodeError
      | _ => Raise UnicodeDecodeError
      end
    else if b0 <? 0xF0 then
      match t0 with
      | b1 :: b2 :: t2 =>
        let c := (b0 - 0xE0) * 4096 + (b1 - 0x80) * 64 + (b2 - 0x80) in
        if is_cont b1 && is_cont b2 && (0x800 <=? c)
           && negb ((0xD800 <=? c) && (c <? 0xE000))
        then let! s := utf8_decode t2 in Ok (c :: s)
        else Raise UnicodeDecodeError
      | _ => Raise UnicodeDecodeError
      end
    else if b0 <? 0xF8 then
      match t0 with
      | b1 :: b2 :: b3 :: t3 =>
        let c := (b0 - 0xF0) * 262144 + (b1 - 0x80) * 4096
                 + (b2 - 0x80) * 64 + (b3 - 0x80) in
        if is_cont b1 && is_cont b2 && is_cont b3
           && (0x10000 <=? c) && (c <? 0x110000)
        then let! s := utf8_decode t3 in Ok (c :: s)
        else Raise UnicodeDecodeError
      | _ => Raise UnicodeDecodeError
      end
    else Raise UnicodeDecodeError
  end.

(** ** Regular expressions: the backtracking matcher of [re] *)

(** The pattern syntax the class uses.  [Star true r] is the greedy [r*],
    [Star false r] the lazy [r*?]; [Group n r] is the [n]-th capturing
    group. *)
Inductive regex :=
| Eps
| Chr (p : codepoint -> bool)
| Seq (r1 r2 : regex)
| Alt (r1 r2 : regex)
| Star (greedy : bool) (r : regex)
| Group (n : nat) (r : regex).

(** [r+], [r?], a literal and [r{n}] in terms of the above. *)
Definition Plus (r : regex) : regex := Seq r (Star true r).
Definition Opt (r : regex) : regex := Alt r Eps.
Definition Lit (s : str) : regex :=
  fold_right (fun c r => Seq (Chr (N.eqb c)) r) Eps s.
Fixpoint Repeat (n : nat) (r : regex) : regex :=
  match n with
  | O => Eps
  | S n' => Seq r (Repeat n' r)
  end.

(** The spans [(start, end)] of the groups that took part in the match. *)
Abbreviation caps := (gmap nat (nat * nat)).

(** What remains to be matched after a sub-pattern: the rest of the
    subject, the position reached and the groups set so far. *)
Definition kont := str -> nat -> caps -> option (nat * caps).

(** The loop of a repetition, around the matcher [body] of its operand.
    It runs at most once per remaining character: an iteration that
    consumes nothing is abandoned (no pattern of the class has one).  The
    greedy loop prefers one more iteration, the lazy loop prefers to go
    on with [k]. *)
Fixpoint star_loop (body : str -> nat -> caps -> kont -> option (nat * caps))
  (greedy : bool) (k : kont) (fuel : nat) (rest : str) (i : nat) (c : caps)
  {struct fuel} : option (nat * caps) :=
  match fuel with
  | O => k rest i c
  | S fuel' =>
    let again :=
      body rest i c
        (fun rest' i' c' =>
           if Nat.eqb i' i then None
           else star_loop body greedy k fuel' rest' i' c') in
    if greedy
    then match again with
         | Some res => Some res
         | None => k rest i c
         end
    else match k rest i c with
         | Some res => Some res
         | None => again
         end
  end.

(** [rmatch r rest i c k] matches [r] at position [i], where [rest] is the
    subject from [i] on, and then continues with [k]; alternatives are tried
    in the order of the pattern, and a failure of [k] backtracks into [r]. *)
Fixpoint rmatch (r : regex) (rest : str) (i : nat) (c : caps) (k : kont)
  {struct r} : option (nat * caps) :=
  match r with
  | Eps => k rest i c
  | Chr p =>
    match rest with
    | x :: t => if p x then k t (S i) c else None
    | [] => None
    end
  | Seq r1 r2 =>
    rmatch r1 rest i c (fun rest' i' c' => rmatch r2 rest' i' c' k)
  | Alt r1 r2 =>
    match rmatch r1 rest i c k with
    | Some res => Some res
    | None => rmatch r2 rest i c k
    end
  | Star greedy r' =>
    star_loop (rmatch r') greedy k (S (List.length rest)) rest i c
  | Group n r' =>
    rmatch r' rest i c (fun rest' i' c' => k rest' i' (<[n := (i, i')]> c'))
  end.

(** A match object. *)
Record match_obj := {
  m_string : str;
  m_start : nat;
  m_end : nat;
  m_groups : caps;
}.

Definition substr (s : str) (i j : nat) : str := take (j - i) (drop i s).

(** [m.group(n)]: [None] for a group that took no part in the match. *)
Definition group (n : nat) (m : match_obj) : option str :=
  match n with
  | O => Some (substr (m_string m) (m_start m) (m_end m))
  | _ => match m_groups m !! n with
         | Some (i, j) => Some (substr (m_string m) i j)
         | None => None
         end
  end.

(** The scan of [re.search]: the start positions from the left. *)
Fixpoint search_from (r : regex) (s : str) (rest : str) (i : nat)
  : option match_obj :=
  match rmatch r rest i ∅ (fun _ j c => Some (j, c)) with
  | Some (j, c) =>
    Some {| m_string := s; m_start := i; m_end := j; m_groups := c |}
  | None =>
    match rest with
    | [] => None
    | _ :: rest' => search_from r s rest' (S i)
    end
  end.

(** [re.search(r, s)] *)
Definition re_search (r : regex) (s : str) : option match_obj :=
  search_from r s s 0.

(** *** The patterns of the class *)

Definition rx_d : regex := Chr isdecimal.
Definition rx_s : regex := Chr isspace.
Definition rx_alpha : regex := Chr is_ascii_alpha.
Definition rx_c (a : ascii) : regex := Chr (N.eqb (N_of_ascii a)).
(** [.] matches everything but a newline. *)
Definition rx_dot : regex := Chr (fun c => negb (c =? 0xA)).

(** [DATE_REGX]: group 1 is "\d+", then "\s", group 2 is "[a-zA-Z]*", then
    "\s", group 3 is "\d{4}". *)
Definition DATE_REGX : regex :=
  Seq (Group 1 (Plus rx_d))
 (Seq rx_s
 (Seq (Group 2 (Star true rx_alpha))
 (Seq rx_s
      (Group 3 (Repeat 4 rx_d))))).

(** [TIMEDELTA_REGX], the pattern "(timp\sde\s([0-9]+)\szile)" *)
Definition TIMEDELTA_REGX : regex :=
  Group 1
   (Seq (Lit (lit "timp"))
   (Seq rx_s
   (Seq (Lit (lit "de"))
   (Seq rx_s
   (Seq (Group 2 (Plus (Chr is_ascii_digit)))
   (Seq rx_s
        (Lit (lit "zile")))))))).

(** "(?:\s|-|\.)?" and "(,|\s|\.)?", the tails of the number patterns. *)
Definition rx_num_sep : regex :=
  Opt (Alt rx_s (Alt (rx_c "-") (rx_c "."))).
Definition rx_num_end : regex :=
  Opt (Group 3 (Alt (rx_c ",") (Alt rx_s (rx_c ".")))).

(** "\s?:?\s*((\d+(?:\s|-|\.)?)+)(,|\s|\.)?", shared by tel and fax. *)
Definition rx_number : regex :=
  Seq (Opt rx_s)
 (Seq (Opt (rx_c ":"))
 (Seq (Star true rx_s)
 (Seq (Group 1 (Plus (Group 2 (Seq (Plus rx_d) rx_num_sep))))
      rx_num_end))).

(** email: "\s(([a-zA-Z0-9\._]|\.)*?@[a-zA-Z]*?\.[a-zA-Z]*?)(?:\s|\.|,)" *)
Definition EMAIL_REGX : regex :=
  Seq rx_s
 (Seq (Group 1
        (Seq (Star false
               (Group 2
                 (Alt (Chr (fun c => is_ascii_alpha c || is_ascii_digit c
                                     || (c =? 0x2E) || (c =? 0x5F)))
                      (rx_c "."))))
        (Seq (rx_c "@")
        (Seq (Star false rx_alpha)
        (Seq (rx_c ".")
             (Star false rx_alpha))))))
      (Alt rx_s (Alt (rx_c ".") (rx_c ",")))).

(** tel: "(?:tel|telefon)\s?:?\s*((\d+(?:\s|-|\.)?)+)(,|\s|\.)?" *)
Definition TEL_REGX : regex :=
  Seq (Alt (Lit (lit "tel")) (Lit (lit "telefon"))) rx_number.

(** fax: "fax\s?:?\s*((\d+(?:\s|-|\.)?)+)(,|\s|\.)?" *)
Definition FAX_REGX : regex :=
  Seq (Lit (lit "fax")) rx_number.

(** ["adresa poştală"], with U+015F and U+0103. *)
Definition adresa_postala : str :=
  lit "adresa po" ++ [0x15F] ++ lit "tal" ++ [0x103].

(** addr: "adresa poştală\s?a?\s*(.*?\scod(:|\s)?\d+)" *)
Definition ADDR_REGX : regex :=
  Seq (Lit adresa_postala)
 (Seq (Opt rx_s)
 (Seq (Opt (rx_c "a"))
 (Seq (Star true rx_s)
      (Group 1
        (Seq (Star false rx_dot)
        (Seq rx_s
        (Seq (Lit (lit "cod"))
        (Seq (Opt (Group 2 (Alt (rx_c ":") rx_s)))
             (Plus rx_d))))))))).

(** [CONTACT_REGX], in the order of its keys. *)
Definition CONTACT_REGX : list (string * regex) :=
  [("email"%string, EMAIL_REGX); ("tel"%string, TEL_REGX);
   ("fax"%string, FAX_REGX); ("addr"%string, ADDR_REGX)].

(** ** Calendar dates: [datetime.date] and [datetime.timedelta] *)

Local Open Scope Z_scope.

Record date := { year : Z; month : Z; day : Z }.

Definition is_leap (y : Z) : bool :=
  (y mod 4 =? 0) && (negb (y mod 100 =? 0) || (y mod 400 =? 0)).

(** The number of days before January 1st of year [y]. *)
Definition days_before_year (y : Z) : Z :=
  let y := y - 1 in y * 365 + y / 4 - y / 100 + y / 400.

Definition DAYS_IN_MONTH : list Z :=
  [31; 28; 31; 30; 31; 30; 31; 31; 30; 31; 30; 31].
Definition DAYS_BEFORE_MONTH : list Z :=
  [0; 31; 59; 90; 120; 151; 181; 212; 243; 273; 304; 334].

Definition days_in_month (y m : Z) : Z :=
  if (m =? 2) && is_leap y then 29
  else nth (Z.to_nat (m - 1)) DAYS_IN_MONTH 0.

(** The number of days in year [y] before the first day of month [m]. *)
Definition days_before_month (y m : Z) : Z :=
  nth (Z.to_nat (m - 1)) DAYS_BEFORE_MONTH 0
  + (if (2 <? m) && is_leap y then 1 else 0).

(** The proleptic Gregorian ordinal, where 0001-01-01 is day 1. *)
Definition ymd2ord (y m d : Z) : Z :=
  days_before_year y + days_before_month y m + d.

Definition MAXORDINAL : Z := 3652059.

(** The arguments of [date] are converted to C integers first. *)
Definition fits_int (x : Z) : bool :=
  (-2147483648 <=? x) && (x <=? 2147483647).

(** [date(year=y, month=m, day=d)] *)
Definition date_new (y m d : Z) : result date :=
  if fits_int y && fits_int m && fits_int d then
    if (1 <=? y) && (y <=? 9999) then
      if (1 <=? m) && (m <=? 12) then
        if (1 <=? d) && (d <=? days_in_month y m)
        then Ok {| year := y; month := m; day := d |}
        else Raise ValueError
      else Raise ValueError
    else Raise ValueError
  else Raise OverflowError.

(** [d.toordinal()] *)
Definition toordinal (d : date) : Z := ymd2ord (year d) (month d) (day d).

(** [date.fromordinal(n)], by the 400-, 100-, 4- and 1-year cycles. *)
Definition ord2ymd (n : Z) : date :=
  let n := n - 1 in
  let n400 := n / 146097 in
  let n := n mod 146097 in
  let n100 := n / 36524 in
  let n := n mod 36524 in
  let n4 := n / 1461 in
  let n := n mod 1461 in
  let n1 := n / 365 in
  let n := n mod 365 in
  let y := n400 * 400 + 1 + n100 * 100 + n4 * 4 + n1 in
  if (n1 =? 4) || (n100 =? 4)
  then {| year := y - 1; month := 12; day := 31 |}
  else
    let leapyear := (n1 =? 3) && (negb (n4 =? 24) || (n100 =? 3)) in
    let m := Z.shiftr (n + 50) 5 in
    let preceding :=
      nth (Z.to_nat (m - 1)) DAYS_BEFORE_MONTH 0
      + (if (2 <? m) && leapyear then 1 else 0) in
    if n <? preceding
    then
      let m' := m - 1 in
      let preceding' :=
        preceding - (nth (Z.to_nat (m' - 1)) DAYS_IN_MONTH 0
                     + (if (m' =? 2) && leapyear then 1 else 0)) in
      {| year := y; month := m'; day := n - preceding' + 1 |}
    else {| year := y; month := m; day := n - preceding + 1 |}.

(** [timedelta(days=n).days]: the magnitude is limited. *)
Definition timedelta_days (n : Z) : result Z :=
  if (-999999999 <=? n) && (n <=? 999999999) then Ok n
  else Raise OverflowError.

(** [d + timedelta(days=n)] *)
Definition date_add (d : date) (n : Z) : result date :=
  let o := toordinal d + n in
  if (0 <? o) && (o <=? MAXORDINAL) then Ok (ord2ymd o)
  else Raise OverflowError.

(** [(a - b).days] *)
Definition date_sub_days (a b : date) : Z := toordinal a - toordinal b.

Local Open Scope N_scope.

(** ** MD5: [hashlib.md5(b).hexdigest()] *)

Definition w32 : N := 0x100000000.
Definition add32 (a b : N) : N := (a + b) mod w32.
Definition not32 (a : N) : N := N.lxor a 0xFFFFFFFF.
Definition rotl32 (x n : N) : N :=
  N.lor (N.shiftl x n mod w32) (N.shiftr x (32 - n)).

(** The per-round shift amounts. *)
Definition md5_S : list N :=
  [7; 12; 17; 22; 7; 12; 17; 22; 7; 12; 17; 22; 7; 12; 17; 22;
   5; 9; 14; 20; 5; 9; 14; 20; 5; 9; 14; 20; 5; 9; 14; 20;
   4; 11; 16; 23; 4; 11; 16; 23; 4; 11; 16; 23; 4; 11; 16; 23;
   6; 10; 15; 21; 6; 10; 15; 21; 6; 10; 15; 21; 6; 10; 15; 21].

(** The sine table: entry [i] is the integer part of 2^32 |sin (i + 1)|. *)
Definition md5_K : list N :=
  [0xd76aa478; 0xe8c7b756; 0x242070db; 0xc1bdceee;
   0xf57c0faf; 0x4787c62a; 0xa8304613; 0xfd469501;
   0x698098d8; 0x8b44f7af; 0xffff5bb1; 0x895cd7be;
   0x6b901122; 0xfd987193; 0xa679438e; 0x49b40821;
   0xf61e2562; 0xc040b340; 0x265e5a51; 0xe9b6c7aa;
   0xd62f105d; 0x02441453; 0xd8a1e681; 0xe7d3fbc8;
   0x21e1cde6; 0xc33707d6; 0xf4d50d87; 0x455a14ed;
   0xa9e3e905; 0xfcefa3f8; 0x676f02d9; 0x8d2a4c8a;
   0xfffa3942; 0x8771f681; 0x6d9d6122; 0xfde5380c;
   0xa4beea44; 0x4bdecfa9; 0xf6bb4b60; 0xbebfbc70;
   0x289b7ec6; 0xeaa127fa; 0xd4ef3085; 0x04881d05;
   0xd9d4d039; 0xe6db99e5; 0x1fa27cf8; 0xc4ac5665;
   0xf4292244; 0x432aff97; 0xab9423a7; 0xfc93a039;
   0x655b59c3; 0x8f0ccc92; 0xffeff47d; 0x85845dd1;
   0x6fa87e4f; 0xfe2ce6e0; 0xa3014314; 0x4e0811a1;
   0xf7537e82; 0xbd3af235; 0x2ad7d2bb; 0xeb86d391].

(** The message followed by the bit 1, zeros up to 56 modulo 64, and the
    length in bits as 8 little-endian bytes. *)
Definition le_bytes (n : nat) (x : N) : bytes :=
  List.map (fun i => N.shiftr x (8 * N.of_nat i) mod 256) (seq 0 n).

Definition md5_pad (msg : bytes) : bytes :=
  let len := N.of_nat (List.length msg) in
  let zeros := N.to_nat ((55 + 64 - len mod 64) mod 64) in
  msg ++ [0x80] ++ repeat 0 zeros ++ le_bytes 8 ((8 * len) mod 0x10000000000000000).

Definition le_word (b : bytes) : N :=
  fold_right (fun x acc => x + 256 * acc) 0 b.

(** The sixteen little-endian words of a 64-byte block. *)
Definition md5_words (block : bytes) : list N :=
  List.map (fun i => le_word (take 4 (drop (4 * i) block))) (seq 0 16).

Definition md5_state : Type := N * N * N * N.

(** One of the 64 operations. *)
Definition md5_step (M : list N) (st : md5_state) (i : nat) : md5_state :=
  let '(A, B, C, D) := st in
  let '(F, g) :=
    if (i <? 16)%nat then
      (N.lor (N.land B C) (N.land (not32 B) D), i)
    else if (i <? 32)%nat then
      (N.lor (N.land D B) (N.land (not32 D) C), ((5 * i + 1) mod 16)%nat)
    else if (i <? 48)%nat then
      (N.lxor (N.lxor B C) D, ((3 * i + 5) mod 16)%nat)
    else
      (N.lxor C (N.lor B (not32 D)), ((7 * i) mod 16)%nat) in
  let F := add32 (add32 (add32 F A) (nth i md5_K 0)) (nth g M 0) in
  (D, add32 B (rotl32 F (nth i md5_S 0)), B, C).

Definition md5_block (st : md5_state) (block : bytes) : md5_state :=
  let '(a0, b0, c0, d0) := st in
  let '(A, B, C, D) :=
    fold_left (md5_step (md5_words block)) (seq 0 64) st in
  (add32 a0 A, add32 b0 B, add32 c0 C, add32 d0 D).

(** The blocks of a padded message; [n] counts them. *)
Fixpoint md5_blocks (n : nat) (st : md5_state) (data : bytes) : md5_state :=
  match n with
  | O => st
  | S n' => md5_blocks n' (md5_block st (take 64 data)) (drop 64 data)
  end.

(** [hashlib.md5(msg).digest()] *)
Definition md5 (msg : bytes) : bytes :=
  let data := md5_pad msg in
  let '(a, b, c, d) :=
    md5_blocks (List.length data / 64)
      (0x67452301, 0xefcdab89, 0x98badcfe, 0x10325476) data in
  le_bytes 4 a ++ le_bytes 4 b ++ le_bytes 4 c ++ le_bytes 4 d.

Definition hex_digit (n : N) : codepoint :=
  if n <? 10 then 0x30 + n else 0x61 + (n - 10).

(** [.hexdigest()]: two lower-case hexadecimal digits per byte. *)
Definition hexlify (b : bytes) : str :=
  flat_map (fun x => [hex_digit (x / 16); hex_digit (x mod 16)]) b.

Definition md5_hexdigest (msg : bytes) : str := hexlify (md5 msg).

(** ** The parsed HTML tree and its BeautifulSoup accessors *)

#[local] Set Warnings "-register-all".

Inductive node :=
| Text (s : str)
| Tag (name : string) (attrs : gmap string str) (children : list node).

(** [tag.descendants]: everything below [n], in document order. *)
Fixpoint descendants (n : node) : list node :=
  match n with
  | Text _ => []
  | Tag _ _ ch => flat_map (fun c => c :: descendants c) ch
  end.

Definition has_name (name : string) (n : node) : bool :=
  match n with
  | Text _ => false
  | Tag nm _ _ => bool_decide (nm = name)
  end.

(** [tag.find_all(name)] *)
Definition find_all (name : string) (n : node) : list node :=
  List.filter (has_name name) (descendants n).

(** [tag.select(name)] for a selector that is one tag name. *)
Definition select (name : string) (n : node) : list node := find_all name n.

(** [tag.find(name)]: the first such descendant, or [None]. *)
Definition find (name : string) (n : node) : option node :=
  head (find_all name n).

(** [tag.text]: the strings below the tag, concatenated. *)
Fixpoint text (n : node) : str :=
  match n with
  | Text s => s
  | Tag _ _ ch => flat_map text ch
  end.

(** [tag.attrs[key]] *)
Definition attr (key : string) (n : node) : result str :=
  match n with
  | Tag _ attrs _ =>
    match attrs !! key with
    | Some v => Ok v
    | None => Raise KeyError
    end
  | Text _ => Raise AttributeError
  end.

(** An attribute access or method call on a value that may be [None]. *)
Definition deref {A} (o : option A) : result A :=
  match o with
  | Some a => Ok a
  | None => Raise AttributeError
  end.

(** [l[i]], where a negative [i] counts from the end. *)
Definition py_index {A} (l : list A) (i : Z) : result A :=
  let n := Z.of_nat (List.length l) in
  let j := (if i <? 0 then i + n else i)%Z in
  if ((0 <=? j) && (j <? n))%Z
  then match l !! Z.to_nat j with
       | Some a => Ok a
       | None => Raise IndexError
       end
  else Raise IndexError.

(** ** The settings module *)

(** Modelled from the spec: the module [scraper.settings] is not among the
    sources; the specification names its four values: the table from raw
    type labels to type codes (with its "OTHER" entry), the table from month
    names to month numbers, the base url of the document links and the list
    of the mandatory field names. *)
Record settings := {
  TYPES : gmap str str;
  MONTHS : gmap str Z;
  MAE_BASE_URL : str;
  MANDATORY_FIELDS : list string;
}.

(** [d.get(key)], where the key may be [None], which no table holds. *)
Definition dict_get {V} (d : gmap str V) (key : option str) : option V :=
  match key with
  | Some k => d !! k
  | None => None
  end.

(** ** The Article class *)

(** One entry of [documents]: [dict(type=..., url=...)]. *)
Record doc := { doc_type : option str; doc_url : str }.

(** The attributes of an instance.  Each of the seven data attributes
    reads as the class-level [None] until a method assigns it; [assigned]
    tells whether any of them was assigned on the instance, which is whether
    the [__dict__] of the instance holds something. *)
Record Article := {
  identifier : option str;
  article_type : option str;
  title : option str;
  documents : option (list doc);
  published_at : option date;
  feedback_days : option Z;
  contact : option (gmap string str);
  assigned : bool;
}.

(** The object before [__init__] has run. *)
Definition Article_new : Article :=
  {| identifier := None; article_type := None; title := None;
     documents := None; published_at := None; feedback_days := None;
     contact := None; assigned := false |}.

(** [self.<attribute> = v] *)
Definition set_identifier (v : option str) (a : Article) : Article :=
  {| identifier := v; article_type := article_type a; title := title a;
     documents := documents a; published_at := published_at a;
     feedback_days := feedback_days a; contact := contact a;
     assigned := true |}.
Definition set_article_type (v : option str) (a : Article) : Article :=
  {| identifier := identifier a; article_type := v; title := title a;
     documents := documents a; published_at := published_at a;
     feedback_days := feedback_days a; contact := contact a;
     assigned := true |}.
Definition set_title (v : option str) (a : Article) : Article :=
  {| identifier := identifier a; article_type := article_type a; title := v;
     documents := documents a; published_at := published_at a;
     feedback_days := feedback_days a; contact := contact a;
     assigned := true |}.
Definition set_documents (v : option (list doc)) (a : Article) : Article :=
  {| identifier := identifier a; article_type := article_type a;
     title := title a; documents := v; published_at := published_at a;
     feedback_days := feedback_days a; contact := contact a;
     assigned := true |}.
Definition set_published_at (v : option date) (a : Article) : Article :=
  {| identifier := identifier a; article_type := article_type a;
     title := title a; documents := documents a; published_at := v;
     feedback_days := feedback_days a; contact := contact a;
     assigned := true |}.
Definition set_feedback_days (v : option Z) (a : Article) : Article :=
  {| identifier := identifier a; article_type := article_type a;
     title := title a; documents := documents a;
     published_at := published_at a; feedback_days := v;
     contact := contact a; assigned := true |}.
Definition set_contact (v : option (gmap string str)) (a : Article)
  : Article :=
  {| identifier := identifier a; article_type := article_type a;
     title := title a; documents := documents a;
     published_at := published_at a; feedback_days := feedback_days a;
     contact := v; assigned := true |}.

(** Truth value of an optional string: [None] and [''] are false. *)
Definition truthy_str (o : option str) : bool :=
  match o with
  | Some (_ :: _) => true
  | _ => false
  end.

(** [ANEXA = ' - ANEXA'] *)
Definition ANEXA : str := lit " - ANEXA".

(** [_sanitize]: without newlines and zero-width spaces; an empty string
    falls through the [if] and gives [None]. *)
Definition _sanitize (s : str) : option str :=
  match s with
  | [] => None
  | _ => Some (replace [0x200B] [] (replace [0xA] [] s))
  end.

(** [_do_magic]: the bytes C5 A2 C4 82 of the UTF-8 form become "TA". *)
Definition _do_magic (s : option str) : result (option str) :=
  match s with
  | Some ((_ :: _) as s) =>
    let! b := utf8_encode s in
    let! s' := utf8_decode (replace [0xC5; 0xA2; 0xC4; 0x82] [0x54; 0x41] b) in
    Ok (Some s')
  | _ => Ok None
  end.

(** Methods take [self] and give back the updated [self], with the
    returned value when there is one.  The [print] calls of the failure
    branches are left out. *)

Definition _extract_article_type (cfg : settings) (row : list node)
  (self : Article) : result (Article * option str) :=
  let! r0 := py_index row 0 in
  let! a0 := py_index (find_all "a" r0) 0 in
  let article_type0 := _sanitize (strip (text a0)) in
  let self := set_article_type (dict_get (TYPES cfg) article_type0) self in
  if negb (truthy_str (article_type self)) then
    let! article_type1 := _do_magic article_type0 in
    let self := set_article_type (dict_get (TYPES cfg) article_type1) self in
    if negb (truthy_str (article_type self)) then
      let self := set_article_type (TYPES cfg !! lit "OTHER") self in
      Ok (self, article_type self)
    else Ok (self, article_type self)
  else Ok (self, article_type self).

Definition _extract_title (cfg : settings) (row : list node)
  (self : Article) : result Article :=
  let! (self, t) := _extract_article_type cfg row self in
  let! t := deref t in
  let art_type := capitalize (lower t) in
  let! r0 := py_index row 0 in
  let! a1 := py_index (find_all "a" r0) 1 in
  let desc_text := rstrip [0xA] (text a1) in
  let t1 :=
    replace [0x9] (lit " ")
      (replace [0xA] (lit " ") (art_type ++ lit " " ++ desc_text)) in
  let self := set_title (Some t1) self in
  Ok (set_title (Some (strip (collapse_spaces t1))) self).

(** [field.lower()] on the keys of [CONTACT_REGX]. *)
Definition ascii_lower (a : ascii) : ascii :=
  let n := N_of_ascii a in
  if (0x41 <=? n) && (n <=? 0x5A) then ascii_of_N (n + 32) else a.
Fixpoint string_lower (s : string) : string :=
  match s with
  | EmptyString => EmptyString
  | String a t => String (ascii_lower a) (string_lower t)
  end.

(** The body of the loop of [_build_contact] for one field. *)
Definition contact_step (paragraph : str) (acc : gmap string str)
  (field : string * regex) : result (gmap string str) :=
  match re_search (snd field) paragraph with
  | Some aux =>
    let! g := deref (group 1 aux) in
    match strip g with
    | [] => Ok acc
    | v => Ok (<[string_lower (fst field) := v]> acc)
    end
  | None => Ok acc
  end.

Fixpoint contact_loop (paragraph : str) (fields : list (string * regex))
  (acc : gmap string str) : result (gmap string str) :=
  match fields with
  | [] => Ok acc
  | f :: rest =>
    let! acc := contact_step paragraph acc f in
    contact_loop paragraph rest acc
  end.

Definition _build_contact (row : list node) (self : Article)
  : result Article :=
  let! last := py_index row (-1) in
  let! p := py_index (select "p" last) 0 in
  let contact_paragraph := text p in
  let self := set_contact (Some ∅) self in
  let! c := contact_loop contact_paragraph CONTACT_REGX ∅ in
  Ok (set_contact (Some c) self).

Definition _build_documents (cfg : settings) (row : list node)
  (self : Article) : result Article :=
  let t1 :=
    if truthy_str (article_type self)
    then option_map (fun t => t ++ ANEXA) (article_type self)
    else None in
  let! t2 :=
    if (2 <=? List.length row)%nat then
      let! r1 := py_index row 1 in
      let! td := deref (find "td" r1) in
      match _sanitize (text td) with
      | Some s => Ok (Some (s ++ ANEXA))
      | None => Raise TypeError
      end
    else Ok None in
  let! r0 := py_index row 0 in
  let! td0 := deref (find "td" r0) in
  let! a0 := deref (find "a" td0) in
  let! t1_url := attr "href" a0 in
  let! r1 := py_index row 1 in
  let! td1 := deref (find "td" r1) in
  let! a1 := deref (find "a" td1) in
  let! t2_url := attr "href" a1 in
  let docs := [ {| doc_type := t1; doc_url := MAE_BASE_URL cfg ++ t1_url |} ] in
  if truthy_str t2
  then Ok (set_documents
             (Some (docs ++ [ {| doc_type := t2;
                                 doc_url := MAE_BASE_URL cfg ++ t2_url |} ]))
             self)
  else Ok (set_documents (Some docs) self).

(** [_build_date_from_match]: [None] when the month name is not in the
    table (or maps to 0); the [date] constructor checks the ranges. *)
Definition _build_date_from_match (cfg : settings) (m : match_obj)
  : result (option date) :=
  let! g2 := deref (group 2 m) in
  match MONTHS cfg !! strip g2 with
  | None => Ok None
  | Some mon =>
    if (mon =? 0)%Z then Ok None
    else
      let! g3 := deref (group 3 m) in
      let! y := py_int g3 in
      let! g1 := deref (group 1 m) in
      let! d := py_int g1 in
      let! dt := date_new y mon d in
      Ok (Some dt)
  end.

Definition _extract_published_at (cfg : settings) (row : list node)
  (self : Article) : result Article :=
  let! last := py_index row (-1) in
  let! p := py_index (find_all "p" last) (-1) in
  let published_text := text p in
  match re_search DATE_REGX published_text with
  | Some m =>
    let! d := _build_date_from_match cfg m in
    Ok (set_published_at d self)
  | None => Ok self
  end.

Definition _extract_feedback_days (cfg : settings) (row : list node)
  (self : Article) : result Article :=
  let! last := py_index row (-1) in
  let! p := py_index (find_all "p" last) 0 in
  let desc_text := text p in
  let! feedback_date :=
    match re_search DATE_REGX desc_text with
    | Some m => _build_date_from_match cfg m
    | None =>
      match re_search TIMEDELTA_REGX desc_text with
      | Some delta_match =>
        let! delta := deref (group 2 delta_match) in
        let! n := py_int delta in
        let! days := timedelta_days n in
        match published_at self with
        | Some pub => let! d := date_add pub days in Ok (Some d)
        | None => Raise TypeError
        end
      | None => Ok None
      end
    end in
  match feedback_date with
  | Some fd =>
    match published_at self with
    | Some pub => Ok (set_feedback_days (Some (date_sub_days fd pub)) self)
    | None => Raise TypeError
    end
  | None => Ok self
  end.

Definition _generate_id (self : Article) : result Article :=
  if truthy_str (article_type self) && truthy_str (title self) then
    let! ty := deref (article_type self) in
    let! ti := deref (title self) in
    let! b := utf8_encode ti in
    Ok (set_identifier (Some (ty ++ lit "-" ++ md5_hexdigest b)) self)
  else Ok self.

(** [Article(table)] *)
Definition Article_init (cfg : settings) (table : node) : result Article :=
  let tr := select "tr" table in
  let self := Article_new in
  let! (self, _) := _extract_article_type cfg tr self in
  let! self := _extract_title cfg tr self in
  let! self := _build_contact tr self in
  let! self := _build_documents cfg tr self in
  let! self := _extract_published_at cfg tr self in
  let! self := _extract_feedback_days cfg tr self in
  _generate_id self.

(** The values an attribute of an Article can hold.  Of the dictionary
    of the instance, [__dict__], only whether it holds something is kept;
    [PObject] stands for the constants, methods and the class, whose
    content does not matter but which are all true values. *)
Inductive pyval :=
| PNone
| PStr (s : str)
| PInt (z : Z)
| PDate (d : date)
| PList (l : list doc)
| PDict (d : gmap string str)
| PAttrs (nonempty : bool)
| PObject.

Definition of_opt {A} (f : A -> pyval) (o : option A) : pyval :=
  match o with
  | Some a => f a
  | None => PNone
  end.

(** [bool(v)] *)
Definition truthy (v : pyval) : bool :=
  match v with
  | PNone => false
  | PStr s => negb (bool_decide (s = []))
  | PInt z => negb (z =? 0)%Z
  | PDate _ => true
  | PList l => negb (bool_decide (l = []))
  | PDict d => negb (bool_decide (d = ∅))
  | PAttrs nonempty => nonempty
  | PObject => true
  end.

(** The names the class body defines besides the seven data attributes:
    its constants and its methods, all of them true values. *)
Definition class_names : list string :=
  ["ANEXA"; "DATE_REGX"; "TIMEDELTA_REGX"; "DESCRIPTION_FMT"; "CONTACT_REGX";
   "__init__"; "is_valid"; "_generate_id"; "_build_contact";
   "_build_documents"; "_extract_article_type"; "_extract_title";
   "_extract_published_at"; "_extract_feedback_days";
   "_build_date_from_match"; "_sanitize"; "_do_magic"]%string.

(** The names an instance has from [object] in CPython 3.11: its class
    and the inherited methods, all of them true values. *)
Definition object_names : list string :=
  ["__class__"; "__delattr__"; "__dir__"; "__eq__"; "__format__"; "__ge__";
   "__getattribute__"; "__getstate__"; "__gt__"; "__hash__";
   "__init_subclass__"; "__le__"; "__lt__"; "__ne__"; "__new__";
   "__reduce__"; "__reduce_ex__"; "__repr__"; "__setattr__"; "__sizeof__";
   "__str__"; "__subclasshook__"]%string.

(** The docstring of the class, and the name under which the module is
    imported next to [scraper.settings]. *)
Definition DOC : str :=
  [0xA] ++ lit "  Defines an article object as found on the MAE site."
  ++ [0xA] ++ lit "  ".
Definition MODULE : str := lit "scraper.article".

(** [getattr(self, name)]: the data attributes, what the class statement
    adds ([__doc__], [__module__], [__dict__] and [__weakref__], which is
    [None] as nothing refers weakly to the object), the names of the class
    body and those of [object]; any other name is an [AttributeError]. *)
Definition getattr (self : Article) (name : string) : result pyval :=
  if bool_decide (name = "identifier"%string) then
    Ok (of_opt PStr (identifier self))
  else if bool_decide (name = "article_type"%string) then
    Ok (of_opt PStr (article_type self))
  else if bool_decide (name = "title"%string) then
    Ok (of_opt PStr (title self))
  else if bool_decide (name = "documents"%string) then
    Ok (of_opt PList (documents self))
  else if bool_decide (name = "published_at"%string) then
    Ok (of_opt PDate (published_at self))
  else if bool_decide (name = "feedback_days"%string) then
    Ok (of_opt PInt (feedback_days self))
  else if bool_decide (name = "contact"%string) then
    Ok (of_opt PDict (contact self))
  else if bool_decide (name = "__doc__"%string) then Ok (PStr DOC)
  else if bool_decide (name = "__module__"%string) then Ok (PStr MODULE)
  else if bool_decide (name = "__dict__"%string) then
    Ok (PAttrs (assigned self))
  else if bool_decide (name = "__weakref__"%string) then Ok PNone
  else if bool_decide (name ∈ class_names ++ object_names) then Ok PObject
  else Raise AttributeError.

Fixpoint is_valid_loop (fields : list string) (self : Article)
  : result (Article * bool) :=
  match fields with
  | [] => Ok (self, true)
  | field :: rest =>
    let! v := getattr self field in
    if negb (truthy v) then Ok (self, false)
    else is_valid_loop rest self
  end.

Definition is_valid (cfg : settings) (self : Article)
  : result (Article * bool) :=
  is_valid_loop (MANDATORY_FIELDS cfg) self.

(** ** The language of a pattern *)

(** The words a pattern denotes. *)
Inductive lang : regex -> str -> Prop :=
| lang_eps : lang Eps []
| lang_chr p x : p x = true -> lang (Chr p) [x]
| lang_seq r1 r2 w1 w2 :
    lang r1 w1 -> lang r2 w2 -> lang (Seq r1 r2) (w1 ++ w2)
| lang_alt_l r1 r2 w : lang r1 w -> lang (Alt r1 r2) w
| lang_alt_r r1 r2 w : lang r2 w -> lang (Alt r1 r2) w
| lang_star_nil g r : lang (Star g r) []
| lang_star_app g r w1 w2 :
    lang r w1 -> lang (Star g r) w2 -> lang (Star g r) (w1 ++ w2)
| lang_group n r w : lang r w -> lang (Group n r) w.

(** The capturing groups of a pattern, each with its operand. *)
Fixpoint group_bodies (r : regex) : list (nat * regex) :=
  match r with
  | Eps | Chr _ => []
  | Seq r1 r2 | Alt r1 r2 => group_bodies r1 ++ group_bodies r2
  | Star _ r' => group_bodies r'
  | Group n r' => (n, r') :: group_bodies r'
  end.

(** The groups that take part in every match of a pattern. *)
Fixpoint mandatory (r : regex) (n : nat) : bool :=
  match r with
  | Eps | Chr _ | Star _ _ => false
  | Seq r1 r2 => mandatory r1 n || mandatory r2 n
  | Alt r1 r2 => mandatory r1 n && mandatory r2 n
  | Group m r' => Nat.eqb n m || mandatory r' n
  end.

(** What a successful run of a matcher [f] from position [i] of the
    subject [s] guarantees: the continuation succeeded at some later
    position [j], the text in between is in [L], groups that were set stay
    set, the groups of [mand] are set, and every span is either inherited or
    lies in between and holds a word of the operand of its group. *)
Definition sound_out (s : str) (gs : list (nat * regex)) (mand : nat -> bool)
  (L : str -> Prop) (i : nat) (c : caps) (k : kont) (res : nat * caps)
  : Prop :=
  exists (j : nat) (c' : caps),
    (i <= j)%nat /\ (j <= List.length s)%nat
    /\ L (substr s i j)
    /\ k (drop j s) j c' = Some res
    /\ (forall n, is_Some (c !! n) -> is_Some (c' !! n))
    /\ (forall n, mand n = true -> is_Some (c' !! n))
    /\ (forall n a b, c' !! n = Some (a, b) ->
          c !! n = Some (a, b)
          \/ exists body, (n, body) ∈ gs
               /\ (i <= a)%nat /\ (a <= b)%nat /\ (b <= j)%nat
               /\ lang body (substr s a b)).

Definition sound_at (s : str) (gs : list (nat * regex)) (mand : nat -> bool)
  (L : str -> Prop)
  (f : str -> nat -> caps -> kont -> option (nat * caps)) : Prop :=
  forall (i : nat) (c : caps) (k : kont) (res : nat * caps),
    (i <= List.length s)%nat ->
    f (drop i s) i c k = Some res ->
    sound_out s gs mand L i c k res.

(** ** The day of the year *)

Local Open Scope Z_scope.

(** The month and the day of the day [n] of a year (from 0), as
    [ord2ymd] finds them. *)
Definition month_day (leap : bool) (n : Z) : Z * Z :=
  let m := Z.shiftr (n + 50) 5 in
  let preceding :=
    nth (Z.to_nat (m - 1)) DAYS_BEFORE_MONTH 0
    + (if (2 <? m) && leap then 1 else 0) in
  if n <? preceding
  then
    let m' := m - 1 in
    let preceding' :=
      preceding - (nth (Z.to_nat (m' - 1)) DAYS_IN_MONTH 0
                   + (if (m' =? 2) && leap then 1 else 0)) in
    (m', n - preceding' + 1)
  else (m, n - preceding + 1).

(** The check of [month_day] on day [k]: a month from 1 to 12, a day
    from 1 on, and as many days before it in the year as [k]. *)
Definition month_day_ok (leap : bool) (k : nat) : bool :=
  let n := Z.of_nat k in
  let md := month_day leap n in
  (1 <=? fst md) && (fst md <=? 12) && (1 <=? snd md)
  && (nth (Z.to_nat (fst md - 1)) DAYS_BEFORE_MONTH 0
      + (if (2 <? fst md) && leap then 1 else 0) + snd md =? n + 1).

(** A date that the constructor accepts. *)
Definition valid_date (dt : date) : Prop :=
  date_new (year dt) (month dt) (day dt) = Ok dt.

Local Open Scope N_scope.

(** ** The vocabulary of the properties *)

(** The seven data attributes. *)
Definition data_fields : list string :=
  ["identifier"; "article_type"; "title"; "documents"; "published_at";
   "feedback_days"; "contact"]%string.

(** [bool(getattr(self, name))], false when there is no such attribute. *)
Definition attr_truthy (self : Article) (name : string) : bool :=
  match getattr self name with
  | Ok v => truthy v
  | Raise _ => false
  end.

(** How the first paragraph [desc] resolves to the deadline [fd], given
    the publication date [pub]: by its date, or by its number of days. *)
Definition resolves_deadline (cfg : settings) (desc : str) (pub fd : date)
  : Prop :=
  (exists m,
      re_search DATE_REGX desc = Some m
      /\ _build_date_from_match cfg m = Ok (Some fd))
  \/ (re_search DATE_REGX desc = None
      /\ exists dm g n,
           re_search TIMEDELTA_REGX desc = Some dm
           /\ group 2 dm = Some g /\ py_int g = Ok n
           /\ date_add pub n = Ok fd).

(** [_extract_published_at] leaves [published_at] unset on these rows. *)
Definition published_unset (cfg : settings) (row : list node) : Prop :=
  forall self self',
    published_at self = None ->
    _extract_published_at cfg row self = Ok self' ->
    published_at self' = None.

(** What one pattern contributes for a paragraph: the first group of its
    first match, stripped, unless that is empty. *)
Definition captured (rx : regex) (paragraph : str) : option str :=
  match re_search rx paragraph with
  | Some aux =>
    match group 1 aux with
    | Some g => match strip g with
                | [] => None
                | v => Some v
                end
    | None => None
    end
  | None => None
  end.

(** The bytes replaced by [_do_magic], their replacement, and the same in
    code points: U+0162 U+0102 becomes "TA". *)
Definition MAGIC_BYTES : bytes := [0xC5; 0xA2; 0xC4; 0x82].
Definition MAGIC_TEXT : str := [0x162; 0x102].
Definition MAGIC_NEW : list N := [0x54; 0x41].

(** The classification in the words of the specification: the label
    without newlines and zero-width spaces is looked up; on a miss the
    label with the two letters replaced is looked up; on a second miss the
    entry of "OTHER" is the answer, if there is one. *)
Definition sanitize_spec (s : str) : str :=
  List.filter (fun c => negb (c =? 0xA) && negb (c =? 0x200B)) s.

Definition magic_spec (s : str) : str := replace MAGIC_TEXT MAGIC_NEW s.

Definition classify_spec (cfg : settings) (label : str) : option str :=
  match TYPES cfg !! sanitize_spec label with
  | Some code => Some code
  | None =>
    match TYPES cfg !! magic_spec (sanitize_spec label) with
    | Some code => Some code
    | None => TYPES cfg !! lit "OTHER"
    end
  end.

(** A type table without an entry for the empty label and without an
    empty type code. *)
Definition types_wf (cfg : settings) : Prop :=
  TYPES cfg !! [] = None /\ map_Forall (fun _ code => code <> []) (TYPES cfg).

(** A string of Unicode scalar values, as a parser of HTML gives them. *)
Definition is_text (s : str) : Prop := Forall (fun c => is_scalar c = true) s.

(** ** Sample settings and row-groups *)

(** "HOTARARE" spelled with the two letters U+0162 U+0102 in the middle. *)
Definition label_misencoded : str :=
  lit "HO" ++ [0x162; 0x102] ++ lit "RARE".

Definition sample_cfg : settings :=
  {| TYPES := {[ lit "HOTARARE" := lit "HG"; lit "ORDONANTA" := lit "OG";
                 lit "OTHER" := lit "OTHER" ]};
     MONTHS := {[ lit "ianuarie" := 1%Z; lit "februarie" := 2%Z ]};
     MAE_BASE_URL := lit "http://www.mae.ro";
     MANDATORY_FIELDS := ["article_type"; "title"]%string |}.

(** Settings without any type, not even the fallback. *)
Definition cfg_no_types : settings :=
  {| TYPES := ∅;
     MONTHS := MONTHS sample_cfg;
     MAE_BASE_URL := MAE_BASE_URL sample_cfg;
     MANDATORY_FIELDS := MANDATORY_FIELDS sample_cfg |}.

(** Settings in which the label "HOTARARE" has an entry, the empty type
    code. *)
Definition cfg_empty_code : settings :=
  {| TYPES := {[ lit "HOTARARE" := []; lit "OTHER" := lit "OTHER" ]};
     MONTHS := MONTHS sample_cfg;
     MAE_BASE_URL := MAE_BASE_URL sample_cfg;
     MANDATORY_FIELDS := MANDATORY_FIELDS sample_cfg |}.

(** A label that ends in a lone surrogate. *)
Definition label_surrogate : str := lit "HOTARARE" ++ [0xD800].

Definition link (href : string) (s : str) : node :=
  Tag "a" {[ "href"%string := lit href ]} [Text s].

(** The first row: the type label and the description, both links. *)
Definition first_row (label : str) : node :=
  Tag "tr" ∅
    [Tag "td" ∅
       [link "/node/1" label;
        link "/node/1" (lit "privind   aprobarea unui acord" ++ [0xA])]].

Definition paragraph (s : str) : node := Tag "p" ∅ [Text s].

(** The second row: the annex with its link, and the trailing cell with
    the paragraphs. *)
Definition second_row (paragraphs : list str) : node :=
  Tag "tr" ∅
    [Tag "td" ∅ [Text (lit "Nota de fundamentare"); link "/node/2" []];
     Tag "td" ∅ (List.map paragraph paragraphs)].

(** A row-group of two rows. *)
Definition two_rows (label : str) (paragraphs : list str) : node :=
  Tag "table" ∅ [first_row label; second_row paragraphs].

(** A row-group of one row, which holds the paragraphs as well. *)
Definition one_row (label : str) (paragraphs : list str) : node :=
  Tag "table" ∅
    [Tag "tr" ∅
       [Tag "td" ∅
          [link "/node/1" label;
           link "/node/1" (lit "privind aprobarea unui acord")];
        Tag "td" ∅ (List.map paragraph paragraphs)]].

(** A record with a type and a title and nothing else, and one without
    its title. *)
Definition typed_titled : Article :=
  set_title (Some (lit "Hg privind")) (set_article_type (Some (lit "HG"))
                                         Article_new).
Definition typed_untitled : Article :=
  set_title (Some []) (set_article_type (Some (lit "HG")) Article_new).

(** A row-group whose deadline, 1 January 2020, lies before its
    publication date, 15 January 2020. *)
Definition table_deadline_before : node :=
  two_rows (lit "HOTARARE")
    [lit "Propuneri pana la 1 ianuarie 2020";
     lit "Publicat la 15 ianuarie 2020"].


Definition table_deadline_days : node :=
  two_rows (lit "HOTARARE") [lit "Propuneri timp de 10 zile"; lit "Publicat"].


(** A contact paragraph with an e-mail address and nothing else. *)
Definition table_email_only : node :=
  two_rows (lit "HOTARARE")
    [lit "Propuneri la adresa dce@mae.ro, pana la 20 ianuarie 2020";
     lit "Publicat la 1 ianuarie 2020"].

(** ** Normal forms of strings *)

(** Whether two spaces stand side by side in a string. *)
Fixpoint has_double_space (s : str) : bool :=
  match s with
  | a :: (b :: _) as t => ((a =? 0x20) && (b =? 0x20)) || has_double_space t
  | _ => false
  end.

(** A string without blanks at its ends. *)
Definition trimmed (s : str) : Prop := strip s = s.

(** Whether the two letters U+0162 U+0102 stand side by side in a string. *)
Fixpoint has_magic_pair (s : str) : bool :=
  match s with
  | a :: (b :: _) as t => ((a =? 0x162) && (b =? 0x102)) || has_magic_pair t
  | _ => false
  end.

(** The digits of the hexadecimal notation in lower case. *)
Definition is_hex_digit (c : codepoint) : bool :=
  ((0x30 <=? c) && (c <=? 0x39)) || ((0x61 <=? c) && (c <=? 0x66)).

(** ** Further sample settings and row-groups *)

(** Every name under which [getattr] finds something on an instance. *)
Definition attribute_names : list string :=
  data_fields
  ++ ["__doc__"; "__module__"; "__dict__"; "__weakref__"]%string
  ++ class_names ++ object_names.

(** Settings whose mandatory list names something that is no attribute
    after the title. *)
Definition cfg_unknown_field : settings :=
  {| TYPES := TYPES sample_cfg;
     MONTHS := MONTHS sample_cfg;
     MAE_BASE_URL := MAE_BASE_URL sample_cfg;
     MANDATORY_FIELDS := ["title"; "no_such_field"]%string |}.

(** Settings whose mandatory list names the docstring, the dictionary of
    the instance, the slot of the weak references and no attribute. *)
Definition cfg_weakref : settings :=
  {| TYPES := TYPES sample_cfg;
     MONTHS := MONTHS sample_cfg;
     MAE_BASE_URL := MAE_BASE_URL sample_cfg;
     MANDATORY_FIELDS :=
       ["__doc__"; "__dict__"; "__weakref__"; "no_such_field"]%string |}.

(** A row-group whose trailing cell has one paragraph, with a date. *)
Definition table_single_paragraph : node :=
  two_rows (lit "HOTARARE") [lit "Publicat la 1 ianuarie 2020"].

(** * Properties *)

(** ** The result monad *)

Lemma raises_bind {A B} (r : result A) (f : A -> result B) :
  (forall a, r = Ok a -> raises (f a)) -> raises (rbind r f).
Proof.
  intros H. destruct r as [a|e]; simpl.
  - apply H. reflexivity.
  - exists e. reflexivity.
Qed.

Lemma py_index_cons_0 {A} (x : A) (l : list A) : py_index (x :: l) 0 = Ok x.
Proof.
  unfold py_index. simpl List.length.
  replace (0 <? 0)%Z with false by reflexivity.
  destruct ((0 <=? 0)%Z && (0 <? Z.of_nat (S (List.length l)))%Z) eqn:E.
  - reflexivity.
  - apply andb_false_iff in E as [E|E]; [discriminate|].
    apply Z.ltb_ge in E. lia.
Qed.

Lemma py_index_cons_1 {A} (x y : A) (l : list A) :
  py_index (x :: y :: l) 1 = Ok y.
Proof.
  unfold py_index. simpl List.length.
  replace (1 <? 0)%Z with false by reflexivity.
  destruct ((0 <=? 1)%Z && (1 <? Z.of_nat (S (S (List.length l))))%Z) eqn:E.
  - reflexivity.
  - apply andb_false_iff in E as [E|E]; [discriminate|].
    apply Z.ltb_ge in E. lia.
Qed.

(** ** The runtime on known values *)

Example md5_of_empty :
  md5_hexdigest [] = lit "d41d8cd98f00b204e9800998ecf8427e".
Proof. vm_compute. reflexivity. Qed.

Example md5_of_abc :
  md5_hexdigest (lit "abc") = lit "900150983cd24fb0d6963f7d28e17f72".
Proof. vm_compute. reflexivity. Qed.

Example md5_of_two_blocks :
  md5_hexdigest
    (lit "12345678901234567890123456789012345678901234567890123456789012345678901234567890")
  = lit "57edf4a22be3c955ac49da2e2107b67a".
Proof. vm_compute. reflexivity. Qed.

Example utf8_of_the_two_letters : utf8_encode MAGIC_TEXT = Ok MAGIC_BYTES.
Proof. reflexivity. Qed.

Example strip_unicode_blanks :
  strip ([0xA0; 0x20] ++ lit "HG" ++ [0x9; 0x2003]) = lit "HG".
Proof. reflexivity. Qed.

Example title_case : capitalize (lower (lit "PROIECT")) = lit "Proiect".
Proof. reflexivity. Qed.

(** Case mappings beyond ASCII: the capital sigma at the end of a word and
    within it, the dotted capital I, and the title case of a ligature. *)
Example lower_of_greek :
  lower [0x39F; 0x394; 0x39F; 0x3A3; 0x20; 0x3A3; 0x391]
  = [0x3BF; 0x3B4; 0x3BF; 0x3C2; 0x20; 0x3C3; 0x3B1]
  /\ lower [0x130] = [0x69; 0x307]
  /\ capitalize [0xFB01; 0x4E; 0xC9] = [0x46; 0x69; 0x6E; 0xE9].
Proof. vm_compute. auto. Qed.

(** [int] reads 4300 digits and refuses 4301, also when they are zeros. *)
Example int_digit_limit :
  py_int (List.repeat 0x31 4300) = Ok (Z.of_N (N.div (10 ^ 4300 - 1) 9))
  /\ py_int (List.repeat 0x30 4300 ++ [0x31]) = Raise ValueError.
Proof. vm_compute. auto. Qed.

(** What [getattr] finds besides the data attributes. *)
Example getattr_of_special_names :
  getattr Article_new "__dict__" = Ok (PAttrs false)
  /\ getattr typed_titled "__dict__" = Ok (PAttrs true)
  /\ getattr typed_titled "__weakref__" = Ok PNone
  /\ getattr typed_titled "__hash__" = Ok PObject
  /\ getattr typed_titled "__name__" = Raise AttributeError.
Proof. vm_compute. auto 10. Qed.

Example date_pattern_groups :
  option_map (fun m => (group 0 m, group 1 m, group 2 m, group 3 m))
    (re_search DATE_REGX (lit "Publicat la 15 ianuarie 2020."))
  = Some (Some (lit "15 ianuarie 2020"), Some (lit "15"),
          Some (lit "ianuarie"), Some (lit "2020")).
Proof. vm_compute. reflexivity. Qed.

Example tel_pattern_group :
  option_map (group 1)
    (re_search TEL_REGX (lit "la dce@mae.ro. tel: 021 431 11 00, fax 021.319"))
  = Some (Some (lit "021 431 11 00")).
Proof. vm_compute. reflexivity. Qed.

Example ordinal_of_2020_01_01 :
  toordinal {| year := 2020; month := 1; day := 1 |} = 737425%Z.
Proof. reflexivity. Qed.

Example leap_day_of_2020 :
  ord2ymd 737484 = {| year := 2020; month := 2; day := 29 |}.
Proof. reflexivity. Qed.

(** The whole constructor on a row-group of two rows. *)
Example constructed_record :
  Article_init sample_cfg table_email_only
  = Ok {| identifier := Some (lit "HG-cbd34692e022bf54a9f10bce43367fc6");
          article_type := Some (lit "HG");
          title := Some (lit "Hg privind aprobarea unui acord");
          documents :=
            Some [ {| doc_type := Some (lit "HG - ANEXA");
                      doc_url := lit "http://www.mae.ro/node/1" |};
                   {| doc_type := Some (lit "Nota de fundamentare - ANEXA");
                      doc_url := lit "http://www.mae.ro/node/2" |} ];
          published_at := Some {| year := 2020; month := 1; day := 1 |};
          feedback_days := Some 19%Z;
          contact := Some {[ "email"%string := lit "dce@mae.ro" ]};
          assigned := true |}.
Proof. vm_compute. reflexivity. Qed.

(** ** UTF-8 and the substitution of [_do_magic] *)

Ltac ndiv := zify; Z.to_euclidean_division_equations; lia.

Ltac bool_cases :=
  repeat match goal with
         | |- context [?x <? ?y] => destruct (N.ltb_spec x y)
         | |- context [?x <=? ?y] => destruct (N.leb_spec x y)
         | H : context [?x <? ?y] |- _ => destruct (N.ltb_spec x y)
         | H : context [?x <=? ?y] |- _ => destruct (N.leb_spec x y)
         end.

(** The shape of the encoding of one code point: a leading byte that is
    not a continuation byte, then continuation bytes only. *)
Lemma utf8_encode_cp_shape (c : codepoint) (e : bytes) :
  utf8_encode_cp c = Ok e ->
  exists h tl, e = h :: tl /\ is_cont h = false
               /\ Forall (fun x => is_cont x = true) tl.
Proof.
  unfold utf8_encode_cp. intros H.
  bool_cases; cbn [andb] in H; try discriminate; injection H as <-;
    eexists _, _; (split; [reflexivity|]); unfold is_cont;
    (split; [|repeat constructor]);
    apply andb_true_iff || apply andb_false_iff;
    rewrite ?N.leb_le, ?N.ltb_lt, ?N.leb_gt, ?N.ltb_ge; try ndiv.
  all: try (split; ndiv). all: try (right; ndiv). all: try (left; ndiv).
Qed.

Lemma utf8_decode_encode_cp (c : codepoint) (e rest : bytes) :
  utf8_encode_cp c = Ok e ->
  utf8_decode (e ++ rest) = let! s := utf8_decode rest in Ok (c :: s).
Proof.
  unfold utf8_encode_cp. intros H.
  destruct (c <? 0x80) eqn:E1.
  { injection H as <-. cbn [app utf8_decode]. rewrite E1. reflexivity. }
  destruct (c <? 0x800) eqn:E2.
  { injection H as <-. cbn [app utf8_decode].
    apply N.ltb_ge in E1. apply N.ltb_lt in E2.
    replace (0xC0 + c / 64 <? 0x80) with false by (symmetry; apply N.ltb_ge; ndiv).
    replace (0xC0 + c / 64 <? 0xC0) with false by (symmetry; apply N.ltb_ge; ndiv).
    replace (0xC0 + c / 64 <? 0xE0) with true by (symmetry; apply N.ltb_lt; ndiv).
    replace ((0xC0 + c / 64 - 0xC0) * 64 + (0x80 + c mod 64 - 0x80)) with c by ndiv.
    unfold is_cont.
    replace (0x80 <=? 0x80 + c mod 64) with true by (symmetry; apply N.leb_le; ndiv).
    replace (0x80 + c mod 64 <? 0xC0) with true by (symmetry; apply N.ltb_lt; ndiv).
    replace (0x80 <=? c) with true by (symmetry; apply N.leb_le; lia).
    reflexivity. }
  destruct (c <? 0x10000) eqn:E3.
  { destruct ((0xD800 <=? c) && (c <? 0xE000)) eqn:Es; [discriminate|].
    injection H as <-. cbn [app utf8_decode].
    apply N.ltb_ge in E1. apply N.ltb_ge in E2. apply N.ltb_lt in E3.
    replace (0xE0 + c / 4096 <? 0x80) with false by (symmetry; apply N.ltb_ge; ndiv).
    replace (0xE0 + c / 4096 <? 0xC0) with false by (symmetry; apply N.ltb_ge; ndiv).
    replace (0xE0 + c / 4096 <? 0xE0) with false by (symmetry; apply N.ltb_ge; ndiv).
    replace (0xE0 + c / 4096 <? 0xF0) with true by (symmetry; apply N.ltb_lt; ndiv).
    replace ((0xE0 + c / 4096 - 0xE0) * 4096
             + (0x80 + (c / 64) mod 64 - 0x80) * 64
             + (0x80 + c mod 64 - 0x80)) with c by ndiv.
    unfold is_cont.
    replace (0x80 <=? 0x80 + (c / 64) mod 64) with true by (symmetry; apply N.leb_le; ndiv).
    replace (0x80 + (c / 64) mod 64 <? 0xC0) with true by (symmetry; apply N.ltb_lt; ndiv).
    replace (0x80 <=? 0x80 + c mod 64) with true by (symmetry; apply N.leb_le; ndiv).
    replace (0x80 + c mod 64 <? 0xC0) with true by (symmetry; apply N.ltb_lt; ndiv).
    replace (0x800 <=? c) with true by (symmetry; apply N.leb_le; lia).
    rewrite Es. reflexivity. }
  destruct (c <? 0x110000) eqn:E4; [|discriminate].
  injection H as <-. cbn [app utf8_decode].
  apply N.ltb_ge in E1. apply N.ltb_ge in E2. apply N.ltb_ge in E3.
  pose proof E4 as E4'. apply N.ltb_lt in E4'.
  replace (0xF0 + c / 262144 <? 0x80) with false by (symmetry; apply N.ltb_ge; ndiv).
  replace (0xF0 + c / 262144 <? 0xC0) with false by (symmetry; apply N.ltb_ge; ndiv).
  replace (0xF0 + c / 262144 <? 0xE0) with false by (symmetry; apply N.ltb_ge; ndiv).
  replace (0xF0 + c / 262144 <? 0xF0) with false by (symmetry; apply N.ltb_ge; ndiv).
  replace (0xF0 + c / 262144 <? 0xF8) with true by (symmetry; apply N.ltb_lt; ndiv).
  replace ((0xF0 + c / 262144 - 0xF0) * 262144
           + (0x80 + (c / 4096) mod 64 - 0x80) * 4096
           + (0x80 + (c / 64) mod 64 - 0x80) * 64
           + (0x80 + c mod 64 - 0x80)) with c by ndiv.
  unfold is_cont.
  replace (0x80 <=? 0x80 + (c / 4096) mod 64) with true by (symmetry; apply N.leb_le; ndiv).
  replace (0x80 + (c / 4096) mod 64 <? 0xC0) with true by (symmetry; apply N.ltb_lt; ndiv).
  replace (0x80 <=? 0x80 + (c / 64) mod 64) with true by (symmetry; apply N.leb_le; ndiv).
  replace (0x80 + (c / 64) mod 64 <? 0xC0) with true by (symmetry; apply N.ltb_lt; ndiv).
  replace (0x80 <=? 0x80 + c mod 64) with true by (symmetry; apply N.leb_le; ndiv).
  replace (0x80 + c mod 64 <? 0xC0) with true by (symmetry; apply N.ltb_lt; ndiv).
  replace (0x10000 <=? c) with true by (symmetry; apply N.leb_le; lia).
  rewrite E4. reflexivity.
Qed.

(** Decoding undoes encoding. *)
Theorem utf8_decode_encode (s : str) (b : bytes) :
  utf8_encode s = Ok b -> utf8_decode b = Ok s.
Proof.
  revert b. induction s as [|c s IH]; intros b H; cbn [utf8_encode] in H.
  - injection H as <-. reflexivity.
  - destruct (utf8_encode_cp c) as [e|] eqn:Ec; cbn [rbind] in H;
      [|discriminate].
    destruct (utf8_encode s) as [bs|] eqn:Es; cbn [rbind] in H;
      [|discriminate].
    injection H as <-.
    rewrite (utf8_decode_encode_cp c e bs Ec), (IH bs eq_refl). reflexivity.
Qed.

(** Every string of scalar values has an encoding. *)
Lemma utf8_encode_total (s : str) :
  Forall (fun c => is_scalar c = true) s -> exists b, utf8_encode s = Ok b.
Proof.
  induction 1 as [|c s Hc _ [bs IH]]; cbn [utf8_encode].
  - eauto.
  - rewrite IH.
    assert (He : exists e, utf8_encode_cp c = Ok e).
    { unfold utf8_encode_cp, is_scalar in *.
      bool_cases; cbn [andb orb] in *; try discriminate; eauto; lia. }
    destruct He as [e ->]. cbn [rbind]. eauto.
Qed.

(** *** [replace] *)

Lemma replace_go_skip (old new : list N) (n : nat) (l : list N) :
  replace_go old new n l = replace_go old new 0 (drop n l).
Proof.
  revert n. induction l as [|x t IH]; intros [|n]; try reflexivity.
  cbn [replace_go drop]. apply IH.
Qed.

Lemma replace_nomatch (old new : list N) (x : N) (t : list N) :
  is_prefix old (x :: t) = false ->
  replace old new (x :: t) = x :: replace old new t.
Proof. intros H. unfold replace. cbn [replace_go]. rewrite H. reflexivity. Qed.

Lemma is_prefix_app (old r : list N) : is_prefix old (old ++ r) = true.
Proof.
  induction old as [|a old IH]; [reflexivity|].
  cbn [app is_prefix]. rewrite N.eqb_refl. exact IH.
Qed.

Lemma replace_match (old new r : list N) :
  old <> [] -> replace old new (old ++ r) = new ++ replace old new r.
Proof.
  intros Hne. destruct old as [|a old]; [congruence|].
  unfold replace. cbn [app replace_go].
  change (a :: old ++ r) with ((a :: old) ++ r).
  rewrite is_prefix_app.
  replace (List.length (a :: old) - 1)%nat with (List.length old)
    by (cbn [List.length]; lia).
  rewrite replace_go_skip, drop_app_length. reflexivity.
Qed.

(** Removing one character is a filter. *)
Lemma replace_remove (c : N) (s : list N) :
  replace [c] [] s = List.filter (fun x => negb (c =? x)) s.
Proof.
  induction s as [|x t IH]; [reflexivity|].
  unfold replace in *. cbn [replace_go is_prefix List.filter List.length].
  destruct (c =? x); cbn [andb negb Nat.sub app]; rewrite IH; reflexivity.
Qed.

Lemma is_prefix_cont (x : N) (r : bytes) :
  is_cont x = true -> is_prefix MAGIC_BYTES (x :: r) = false.
Proof.
  unfold is_cont, MAGIC_BYTES. intros H. cbn [is_prefix].
  apply andb_true_iff in H as [_ H]. apply N.ltb_lt in H.
  replace (0xC5 =? x) with false by (symmetry; apply N.eqb_neq; lia).
  reflexivity.
Qed.

Lemma replace_through_cont (tl r : bytes) :
  Forall (fun x => is_cont x = true) tl ->
  replace MAGIC_BYTES MAGIC_NEW (tl ++ r)
  = tl ++ replace MAGIC_BYTES MAGIC_NEW r.
Proof.
  induction 1 as [|x tl Hx _ IH]; [reflexivity|].
  cbn [app]. rewrite replace_nomatch by (apply is_prefix_cont; exact Hx).
  rewrite IH. reflexivity.
Qed.

(** A two-byte sequence at the head of an encoding is the encoding of
    one code point. *)
Lemma utf8_encode_cp_head (h x : N) (c : codepoint) (e rest : bytes) :
  0xC2 <= h -> h < 0xE0 -> 0x80 <= x -> x < 0xC0 ->
  utf8_encode_cp c = Ok e ->
  is_prefix [h; x] (e ++ rest) = true ->
  c = (h - 0xC0) * 64 + (x - 0x80) /\ e = [h; x].
Proof.
  intros Hh1 Hh2 Hx1 Hx2 He Hp. unfold utf8_encode_cp in He.
  destruct (c <? 0x80) eqn:E1.
  { injection He as <-. cbn [app is_prefix] in Hp.
    apply andb_true_iff in Hp as [Hp _]. apply N.eqb_eq in Hp.
    apply N.ltb_lt in E1. lia. }
  destruct (c <? 0x800) eqn:E2.
  { injection He as <-. cbn [app is_prefix] in Hp.
    apply andb_true_iff in Hp as [Hp1 Hp2].
    apply andb_true_iff in Hp2 as [Hp2 _].
    apply N.eqb_eq in Hp1. apply N.eqb_eq in Hp2.
    apply N.ltb_ge in E1. apply N.ltb_lt in E2.
    split; [ndiv | congruence]. }
  destruct (c <? 0x10000) eqn:E3.
  { destruct ((0xD800 <=? c) && (c <? 0xE000)); [discriminate|].
    injection He as <-. cbn [app is_prefix] in Hp.
    apply andb_true_iff in Hp as [Hp _]. apply N.eqb_eq in Hp. ndiv. }
  destruct (c <? 0x110000); [|discriminate].
  injection He as <-. cbn [app is_prefix] in Hp.
  apply andb_true_iff in Hp as [Hp _]. apply N.eqb_eq in Hp. ndiv.
Qed.

Lemma is_prefix_split (a b : N) (p l : list N) :
  is_prefix (a :: b :: p) l = true ->
  exists l', l = a :: b :: l' /\ is_prefix p l' = true.
Proof.
  destruct l as [|x [|y l']]; cbn [is_prefix]; try discriminate.
  - rewrite andb_false_r. discriminate.
  - intros H. apply andb_true_iff in H as [H1 H].
    apply andb_true_iff in H as [H2 H].
    apply N.eqb_eq in H1. apply N.eqb_eq in H2. subst. eauto.
Qed.

(** On the encoding of a string, the byte sequence can only start where
    the two letters start. *)
Lemma magic_prefix_aligned (c : codepoint) (t : str) (e bt : bytes) :
  utf8_encode_cp c = Ok e -> utf8_encode t = Ok bt ->
  is_prefix MAGIC_BYTES (e ++ bt) = true ->
  exists t' bt', c = 0x162 /\ t = 0x102 :: t' /\ e = [0xC5; 0xA2]
                 /\ bt = [0xC4; 0x82] ++ bt' /\ utf8_encode t' = Ok bt'.
Proof.
  intros He Hbt Hp.
  assert (Hp1 : is_prefix [0xC5; 0xA2] (e ++ bt) = true).
  { apply is_prefix_split in Hp as (l' & -> & _). reflexivity. }
  destruct (utf8_encode_cp_head 0xC5 0xA2 c e bt) as [-> ->];
    try assumption; try lia.
  cbn [app] in Hp. apply is_prefix_split in Hp as (l' & [= <-] & Hp2).
  destruct t as [|c2 t']; cbn [utf8_encode] in Hbt.
  { injection Hbt as <-. discriminate. }
  destruct (utf8_encode_cp c2) as [e2|] eqn:He2; cbn [rbind] in Hbt;
    [|discriminate].
  destruct (utf8_encode t') as [bt'|] eqn:Hbt'; cbn [rbind] in Hbt;
    [|discriminate].
  injection Hbt as <-.
  destruct (utf8_encode_cp_head 0xC4 0x82 c2 e2 bt') as [-> ->];
    try assumption; try lia.
  exists t', bt'. auto.
Qed.

(** Replacing the bytes in the encoding is replacing the letters in the
    string. *)
Lemma magic_commutes (n : nat) :
  forall (s : str) (b : bytes),
    (List.length s <= n)%nat ->
    utf8_encode s = Ok b ->
    utf8_encode (replace MAGIC_TEXT MAGIC_NEW s)
    = Ok (replace MAGIC_BYTES MAGIC_NEW b).
Proof.
  induction n as [|n IH]; intros s b Hlen Hb.
  - destruct s; [|cbn in Hlen; lia]. injection Hb as <-. reflexivity.
  - destruct s as [|c t]; [injection Hb as <-; reflexivity|].
    cbn [utf8_encode] in Hb.
    destruct (utf8_encode_cp c) as [e|] eqn:He; cbn [rbind] in Hb;
      [|discriminate].
    destruct (utf8_encode t) as [bt|] eqn:Hbt; cbn [rbind] in Hb;
      [|discriminate].
    injection Hb as <-. cbn [List.length] in Hlen.
    destruct (is_prefix MAGIC_BYTES (e ++ bt)) eqn:Hp.
    + destruct (magic_prefix_aligned c t e bt He Hbt Hp)
        as (t' & bt' & -> & -> & -> & -> & Hbt').
      change (0x162 :: 0x102 :: t') with (MAGIC_TEXT ++ t').
      change ([0xC5; 0xA2] ++ [0xC4; 0x82] ++ bt') with (MAGIC_BYTES ++ bt').
      rewrite !replace_match by discriminate.
      cbn [MAGIC_NEW app utf8_encode].
      rewrite (IH t' bt') by (cbn [List.length] in Hlen; auto with lia).
      reflexivity.
    + assert (Hq : is_prefix MAGIC_TEXT (c :: t) = false).
      { destruct (is_prefix MAGIC_TEXT (c :: t)) eqn:Hq; [|reflexivity].
        apply is_prefix_split in Hq as (t' & [= -> ->] & _).
        cbn [utf8_encode] in Hbt.
        destruct (utf8_encode t') as [bt'|]; cbn -[N.add N.div N.modulo] in Hbt;
          [|discriminate].
        injection He as <-. injection Hbt as <-.
        vm_compute in Hp. discriminate. }
      rewrite (replace_nomatch MAGIC_TEXT) by exact Hq.
      cbn [utf8_encode]. rewrite He. cbn [rbind].
      rewrite (IH t bt) by (auto with lia). cbn [rbind].
      destruct (utf8_encode_cp_shape c e He) as (h & tl & -> & _ & Htl).
      cbn [app] in *. rewrite replace_nomatch by exact Hp.
      rewrite replace_through_cont by exact Htl. reflexivity.
Qed.

(** [_do_magic] on a non-empty string of scalar values: no error, and the
    two letters are replaced. *)
Theorem do_magic_spec (s : str) :
  s <> [] -> Forall (fun c => is_scalar c = true) s ->
  _do_magic (Some s) = Ok (Some (replace MAGIC_TEXT MAGIC_NEW s)).
Proof.
  intros Hne Hs. destruct s as [|c t]; [congruence|].
  unfold _do_magic.
  destruct (utf8_encode_total _ Hs) as [b Hb]. rewrite Hb. cbn [rbind].
  pose proof (magic_commutes _ _ b (le_n _) Hb) as Hc.
  apply utf8_decode_encode in Hc.
  change [0xC5; 0xA2; 0xC4; 0x82] with MAGIC_BYTES.
  change [0x54; 0x41] with MAGIC_NEW.
  rewrite Hc. reflexivity.
Qed.

(** ** The matcher against the language of a pattern *)

Create HintDb lang_db.
#[local] Hint Constructors lang : lang_db.

Section Soundness.

(** The subject of the search. *)
Variable s : str.

Lemma substr_nil (i : nat) : substr s i i = [].
Proof. unfold substr. rewrite Nat.sub_diag. reflexivity. Qed.

Lemma substr_app (i j k : nat) :
  (i <= j)%nat -> (j <= k)%nat ->
  substr s i j ++ substr s j k = substr s i k.
Proof.
  intros Hij Hjk. unfold substr.
  replace (k - i)%nat with ((j - i) + (k - j))%nat by lia.
  rewrite <- take_take_drop, drop_drop.
  replace (i + (j - i))%nat with j by lia. reflexivity.
Qed.

Lemma drop_cons_inv (i : nat) (x : codepoint) (t : str) :
  drop i s = x :: t ->
  (S i <= List.length s)%nat /\ drop (S i) s = t /\ substr s i (S i) = [x].
Proof.
  intros H. split; [|split].
  - assert (Hl : List.length (drop i s) = S (List.length t)) by (rewrite H; reflexivity).
    rewrite length_drop in Hl. lia.
  - replace (S i) with (i + 1)%nat by lia. rewrite <- drop_drop, H. reflexivity.
  - unfold substr. replace (S i - i)%nat with 1%nat by lia. rewrite H. reflexivity.
Qed.

Lemma star_loop_sound (r : regex) (greedy : bool) :
  sound_at s (group_bodies r) (mandatory r) (lang r) (rmatch r) ->
  forall fuel : nat,
    sound_at s (group_bodies r) (fun _ => false) (lang (Star greedy r))
      (fun rest i c k => star_loop (rmatch r) greedy k fuel rest i c).
Proof.
  intros Hbody.
  assert (Hstop : forall (i : nat) (c : caps) (k : kont) (res : nat * caps),
    (i <= List.length s)%nat -> k (drop i s) i c = Some res ->
    sound_out s (group_bodies r) (fun _ => false) (lang (Star greedy r))
      i c k res).
  { intros i c k res Hi Hk. exists i, c.
    rewrite substr_nil. repeat split; auto with lang_db.
    discriminate. }
  induction fuel as [|fuel IH]; intros i c k res Hi H; simpl in H.
  - apply Hstop; assumption.
  - assert (Hagain :
      rmatch r (drop i s) i c
        (fun rest' i' c' =>
           if Nat.eqb i' i then None
           else star_loop (rmatch r) greedy k fuel rest' i' c') = Some res ->
      sound_out s (group_bodies r) (fun _ => false) (lang (Star greedy r))
        i c k res).
    { intros Ha.
      destruct (Hbody i c _ res Hi Ha)
        as (j1 & c1 & Hij1 & Hj1 & Hl1 & Hk1 & Hmono1 & _ & Hspan1).
      destruct (Nat.eqb j1 i); [discriminate|].
      destruct (IH j1 c1 k res Hj1 Hk1)
        as (j2 & c2 & Hij2 & Hj2 & Hl2 & Hk2 & Hmono2 & _ & Hspan2).
      exists j2, c2. split; [lia|]. split; [assumption|].
      split. { rewrite <- (substr_app i j1 j2) by assumption.
               apply lang_star_app; assumption. }
      split; [assumption|].
      split. { intros n Hn. apply Hmono2, Hmono1, Hn. }
      split. { discriminate. }
      intros n a b Hn.
      destruct (Hspan2 n a b Hn) as [Hin | (body & Hb & ? & ? & ? & ?)].
      - destruct (Hspan1 n a b Hin) as [Hin' | (body & Hb & ? & ? & ? & ?)].
        + left. assumption.
        + right. exists body. repeat split; try assumption; lia.
      - right. exists body. repeat split; try assumption; lia. }
    destruct greedy.
    + destruct (rmatch r (drop i s) i c _) as [res'|] eqn:Ea.
      * injection H as ->. apply Hagain. reflexivity.
      * apply Hstop; assumption.
    + destruct (k (drop i s) i c) as [res'|] eqn:Ek.
      * injection H as ->. apply Hstop; assumption.
      * apply Hagain. assumption.
Qed.

(** The matcher is sound for every pattern. *)
Theorem rmatch_sound (r : regex) :
  sound_at s (group_bodies r) (mandatory r) (lang r) (rmatch r).
Proof.
  induction r as [|p|r1 IH1 r2 IH2|r1 IH1 r2 IH2|g r IH|m r IH];
    intros i c k res Hi H; simpl in H.
  - exists i, c. rewrite substr_nil.
    repeat split; auto with lang_db. discriminate.
  - destruct (drop i s) as [|x t] eqn:Ed; [discriminate|].
    destruct (p x) eqn:Ep; [|discriminate].
    apply drop_cons_inv in Ed as (Hlen & Hd & Hs).
    exists (S i), c. rewrite Hs, Hd.
    repeat split; auto with lang_db; try lia. discriminate.
  - destruct (IH1 i c _ res Hi H)
      as (j1 & c1 & Hij1 & Hj1 & Hl1 & Hk1 & Hmono1 & Hmand1 & Hspan1).
    destruct (IH2 j1 c1 k res Hj1 Hk1)
      as (j2 & c2 & Hij2 & Hj2 & Hl2 & Hk2 & Hmono2 & Hmand2 & Hspan2).
    exists j2, c2. split; [lia|]. split; [assumption|].
    split. { rewrite <- (substr_app i j1 j2) by assumption.
             apply lang_seq; assumption. }
    split; [assumption|].
    split. { intros n Hn. apply Hmono2, Hmono1, Hn. }
    split. { simpl. intros n Hn. apply orb_true_iff in Hn as [Hn|Hn].
             - apply Hmono2, Hmand1, Hn.
             - apply Hmand2, Hn. }
    intros n a b Hn. simpl.
    destruct (Hspan2 n a b Hn) as [Hin | (body & Hb & ? & ? & ? & ?)].
    + destruct (Hspan1 n a b Hin) as [Hin' | (body & Hb & ? & ? & ? & ?)].
      * left. assumption.
      * right. exists body. rewrite elem_of_app.
        repeat split; try assumption; [left; assumption | lia].
    + right. exists body. rewrite elem_of_app.
      repeat split; try assumption; [right; assumption | lia].
  - assert (Hl : forall rr, (rr = r1 \/ rr = r2) ->
        sound_at s (group_bodies rr) (mandatory rr) (lang rr) (rmatch rr) ->
        rmatch rr (drop i s) i c k = Some res ->
        sound_out s (group_bodies (Alt r1 r2)) (mandatory (Alt r1 r2))
          (lang (Alt r1 r2)) i c k res).
    { intros rr Hrr IHrr Hm.
      destruct (IHrr i c k res Hi Hm)
        as (j & c' & Hij & Hj & Hl & Hk & Hmono & Hmand & Hspan).
      exists j, c'. split; [assumption|]. split; [assumption|].
      split. { destruct Hrr as [-> | ->];
                 [apply lang_alt_l | apply lang_alt_r]; assumption. }
      split; [assumption|]. split; [assumption|].
      split. { simpl. intros n Hn. apply andb_true_iff in Hn as [Hn1 Hn2].
               apply Hmand. destruct Hrr as [-> | ->]; assumption. }
      intros n a b Hn. simpl.
      destruct (Hspan n a b Hn) as [Hin | (body & Hb & ? & ? & ? & ?)].
      - left. assumption.
      - right. exists body. rewrite elem_of_app.
        repeat split; try assumption.
        destruct Hrr as [-> | ->]; [left | right]; assumption. }
    destruct (rmatch r1 (drop i s) i c k) as [res'|] eqn:E1.
    + injection H as ->. apply (Hl r1); auto.
    + apply (Hl r2); auto.
  - exact (star_loop_sound r g IH (S (List.length (drop i s))) i c k res
             Hi H).
  - destruct (IH i c _ res Hi H)
      as (j & c' & Hij & Hj & Hl & Hk & Hmono & Hmand & Hspan).
    exists j, (<[m := (i, j)]> c'). split; [assumption|]. split; [assumption|].
    split; [apply lang_group; assumption|].
    split; [assumption|].
    split. { intros n Hn. apply lookup_insert_is_Some'. right.
             apply Hmono, Hn. }
    split. { simpl. intros n Hn. apply lookup_insert_is_Some'.
             apply orb_true_iff in Hn as [Hn|Hn].
             - left. apply Nat.eqb_eq in Hn. congruence.
             - right. apply Hmand, Hn. }
    intros n a b Hn. simpl.
    destruct (decide (m = n)) as [<-|Hne].
    + rewrite lookup_insert_eq in Hn. injection Hn as <- <-.
      right. exists r. rewrite elem_of_cons.
      repeat split; try assumption; try lia. left. reflexivity.
    + rewrite lookup_insert_ne in Hn by assumption.
      destruct (Hspan n a b Hn) as [Hin | (body & Hb & ? & ? & ? & ?)].
      * left. assumption.
      * right. exists body. rewrite elem_of_cons.
        repeat split; try assumption. right. assumption.
Qed.

End Soundness.

(** *** What a match object of [re.search] holds *)

Lemma search_from_sound (r : regex) (s : str) (m : match_obj) :
  forall (rest : str) (i : nat),
    rest = drop i s -> (i <= List.length s)%nat ->
    search_from r s rest i = Some m ->
    m_string m = s
    /\ sound_out s (group_bodies r) (mandatory r) (lang r) (m_start m) ∅
         (fun _ j c => Some (j, c)) (m_end m, m_groups m).
Proof.
  induction rest as [|x rest IH]; intros i Hrest Hi H; simpl in H.
  - destruct (rmatch r [] i ∅ _) as [[j c]|] eqn:E; [|discriminate].
    injection H as <-. simpl. split; [reflexivity|].
    rewrite Hrest in E. exact (rmatch_sound s r i ∅ _ _ Hi E).
  - destruct (rmatch r (x :: rest) i ∅ _) as [[j c]|] eqn:E.
    + injection H as <-. simpl. split; [reflexivity|].
      rewrite Hrest in E. exact (rmatch_sound s r i ∅ _ _ Hi E).
    + symmetry in Hrest. apply drop_cons_inv in Hrest as (Hlen & Hd & _).
      apply (IH (S i)); auto.
Qed.

(** A successful search: the groups of [mandatory] are set, and a group
    that is set holds a word of the operand of a group with its number. *)
Theorem re_search_sound (r : regex) (s : str) (m : match_obj) :
  re_search r s = Some m ->
  m_string m = s
  /\ lang r (substr s (m_start m) (m_end m))
  /\ (forall n, mandatory r n = true -> is_Some (group n m))
  /\ (forall n g, n <> O -> group n m = Some g ->
        exists body, (n, body) ∈ group_bodies r /\ lang body g).
Proof.
  intros H. unfold re_search in H.
  apply search_from_sound in H as (Hs & j & c & Hij & Hj & Hl & Hk & _ & Hmand & Hspan);
    [|reflexivity|lia].
  injection Hk as -> ->.
  split; [assumption|]. split; [assumption|]. split.
  - intros n Hn. destruct n as [|n]; simpl; [eauto|].
    destruct (Hmand (S n) Hn) as [[a b] Hab]. rewrite Hab. eauto.
  - intros n g Hn Hg. destruct n as [|n]; [congruence|]. simpl in Hg.
    destruct (m_groups m !! S n) as [[a b]|] eqn:Hab; [|discriminate].
    injection Hg as <-.
    destruct (Hspan (S n) a b Hab) as [Hin | (body & Hb & _ & _ & _ & Hlang)].
    + rewrite lookup_empty in Hin. discriminate.
    + exists body. rewrite Hs. split; assumption.
Qed.

Lemma lang_chr_inv (p : codepoint -> bool) (w : str) :
  lang (Chr p) w -> exists x, w = [x] /\ p x = true.
Proof. intros H. inversion H; subst. eauto. Qed.

Lemma lang_star_chr (g : bool) (p : codepoint -> bool) (w : str) :
  lang (Star g (Chr p)) w -> Forall (fun x => p x = true) w.
Proof.
  intros H. remember (Star g (Chr p)) as r eqn:Er.
  induction H; try discriminate.
  - constructor.
  - injection Er as -> ->.
    apply lang_chr_inv in H as (x & -> & Hx). simpl.
    constructor; [assumption | apply IHlang2; reflexivity].
Qed.

Lemma lang_plus_chr (p : codepoint -> bool) (w : str) :
  lang (Plus (Chr p)) w -> w <> [] /\ Forall (fun x => p x = true) w.
Proof.
  intros H. unfold Plus in H. inversion H as [| |r1 r2 w1 w2 H1 H2| | | | |]; subst.
  apply lang_chr_inv in H1 as (x & -> & Hx).
  apply lang_star_chr in H2. simpl. split; [discriminate|].
  constructor; assumption.
Qed.

Lemma lang_repeat_chr (n : nat) (p : codepoint -> bool) (w : str) :
  lang (Repeat n (Chr p)) w ->
  List.length w = n /\ Forall (fun x => p x = true) w.
Proof.
  revert w. induction n as [|n IH]; intros w H; simpl in H.
  - inversion H; subst. split; [reflexivity | constructor].
  - inversion H as [| |r1 r2 w1 w2 H1 H2| | | | |]; subst.
    apply lang_chr_inv in H1 as (x & -> & Hx).
    apply IH in H2 as [Hlen Hall]. simpl. split; [lia|].
    constructor; assumption.
Qed.

(** [int] accepts every non-empty run of decimal digits. *)
Lemma int_digits_total (w : str) :
  Forall (fun x => isdecimal x = true) w ->
  forall acc, exists n, int_digits acc w = Some n.
Proof.
  induction 1 as [|x w Hx _ IH]; intros acc; simpl.
  - eauto.
  - unfold isdecimal in Hx. destruct (decimal_value x); [apply IH | discriminate].
Qed.

Lemma py_int_total (w : str) :
  w <> [] -> Forall (fun x => isdecimal x = true) w ->
  exists n,
    py_int w = if int_too_long w then Raise ValueError else Ok (Z.of_N n).
Proof.
  intros Hne Hall. destruct (int_digits_total w Hall 0%N) as [n Hn].
  exists n. unfold py_int. destruct w; [congruence|]. rewrite Hn. reflexivity.
Qed.

(** A run of four digits is short enough. *)
Lemma int_too_long_short (w : str) :
  (List.length w <= 4300)%nat -> int_too_long w = false.
Proof.
  intros H. unfold int_too_long, INT_MAX_STR_DIGITS. apply N.ltb_ge. lia.
Qed.

Lemma ascii_digit_decimal (x : codepoint) :
  is_ascii_digit x = true -> isdecimal x = true.
Proof.
  unfold is_ascii_digit, isdecimal, decimal_value. intros H.
  apply andb_true_iff in H as [H1 H2].
  apply N.leb_le in H1. apply N.leb_le in H2.
  simpl List.find.
  replace (48 <=? x) with true by (symmetry; apply N.leb_le; lia).
  replace (x <? 48 + 10) with true by (symmetry; apply N.ltb_lt; lia).
  reflexivity.
Qed.

(** Every match of [DATE_REGX] has its three groups: a day that [int]
    reads unless it is too long, a month token, and a year that [int]
    reads. *)
Lemma date_match_groups (s : str) (m : match_obj) :
  re_search DATE_REGX s = Some m ->
  exists (g1 g2 g3 : str) (d y : N),
    group 1 m = Some g1 /\ group 2 m = Some g2 /\ group 3 m = Some g3
    /\ py_int g1
       = (if int_too_long g1 then Raise ValueError else Ok (Z.of_N d))
    /\ py_int g3 = Ok (Z.of_N y).
Proof.
  intros H. apply re_search_sound in H as (_ & _ & Hmand & Hbody).
  destruct (Hmand 1%nat eq_refl) as [g1 Hg1].
  destruct (Hmand 2%nat eq_refl) as [g2 Hg2].
  destruct (Hmand 3%nat eq_refl) as [g3 Hg3].
  destruct (Hbody 1%nat g1 ltac:(lia) Hg1) as (b1 & Hb1 & Hl1).
  destruct (Hbody 3%nat g3 ltac:(lia) Hg3) as (b3 & Hb3 & Hl3).
  simpl in Hb1, Hb3.
  repeat (apply elem_of_cons in Hb1 as [Hb1|Hb1]; [try discriminate|]);
    [|apply elem_of_nil in Hb1; contradiction].
  repeat (apply elem_of_cons in Hb3 as [Hb3|Hb3]; [try discriminate|]);
    [|apply elem_of_nil in Hb3; contradiction].
  injection Hb1 as ->. injection Hb3 as ->.
  apply lang_plus_chr in Hl1 as [Hne1 Hall1].
  apply (lang_repeat_chr 4) in Hl3 as [Hlen3 Hall3].
  destruct (py_int_total g1 Hne1 Hall1) as [d Hd].
  destruct (py_int_total g3) as [y Hy]; [|assumption|].
  { destruct g3; [discriminate | discriminate]. }
  rewrite int_too_long_short in Hy by lia.
  exists g1, g2, g3, d, y. auto.
Qed.

(** Every match of [TIMEDELTA_REGX] has a second group that [int] reads
    unless it is too long. *)
Lemma timedelta_match_group (s : str) (m : match_obj) :
  re_search TIMEDELTA_REGX s = Some m ->
  exists (g : str) (n : N),
    group 2 m = Some g
    /\ py_int g
       = (if int_too_long g then Raise ValueError else Ok (Z.of_N n)).
Proof.
  intros H. apply re_search_sound in H as (_ & _ & Hmand & Hbody).
  destruct (Hmand 2%nat eq_refl) as [g Hg].
  destruct (Hbody 2%nat g ltac:(lia) Hg) as (b & Hb & Hl).
  simpl in Hb.
  repeat (apply elem_of_cons in Hb as [Hb|Hb]; [try discriminate|]);
    [|apply elem_of_nil in Hb; contradiction].
  injection Hb as ->.
  apply lang_plus_chr in Hl as [Hne Hall].
  destruct (py_int_total g Hne) as [n Hn].
  { eapply Forall_impl; [exact Hall|]. apply ascii_digit_decimal. }
  exists g, n. auto.
Qed.

(** ** Calendar arithmetic *)

Local Open Scope Z_scope.

Lemma days_before_year_cycles (a b c d : Z) :
  0 <= b <= 3 -> 0 <= c <= 24 -> 0 <= d <= 3 ->
  days_before_year (400 * a + 100 * b + 4 * c + d + 1)
  = 146097 * a + 36524 * b + 1461 * c + 365 * d.
Proof.
  intros. unfold days_before_year.
  Z.to_euclidean_division_equations; lia.
Qed.

Lemma is_leap_cycles (a b c d : Z) :
  0 <= b <= 3 -> 0 <= c <= 24 -> 0 <= d <= 3 ->
  is_leap (400 * a + 100 * b + 4 * c + d + 1)
  = (d =? 3) && (negb (c =? 24) || (b =? 3)).
Proof.
  intros. unfold is_leap.
  repeat match goal with
         | |- context [?x =? ?y] => destruct (Z.eqb_spec x y)
         end; simpl; try reflexivity; exfalso;
    Z.to_euclidean_division_equations; lia.
Qed.

Lemma month_day_table :
  forallb (month_day_ok false) (seq 0 365) = true
  /\ forallb (month_day_ok true) (seq 0 366) = true.
Proof. split; vm_compute; reflexivity. Qed.

Lemma month_day_spec (leap : bool) (n : Z) :
  0 <= n < (if leap then 366 else 365) ->
  1 <= fst (month_day leap n) <= 12
  /\ 1 <= snd (month_day leap n)
  /\ nth (Z.to_nat (fst (month_day leap n) - 1)) DAYS_BEFORE_MONTH 0
     + (if (2 <? fst (month_day leap n)) && leap then 1 else 0)
     + snd (month_day leap n) = n + 1.
Proof.
  intros Hn.
  assert (Hok : month_day_ok leap (Z.to_nat n) = true).
  { destruct month_day_table as [H0 H1].
    destruct leap.
    - eapply (proj1 (forallb_forall _ _) H1), in_seq. lia.
    - eapply (proj1 (forallb_forall _ _) H0), in_seq. lia. }
  unfold month_day_ok in Hok. rewrite Z2Nat.id in Hok by lia.
  cbv zeta in Hok.
  repeat (apply andb_true_iff in Hok as [Hok ?]).
  repeat match goal with
         | H : (_ <=? _) = true |- _ => apply Z.leb_le in H
         | H : (_ =? _) = true |- _ => apply Z.eqb_eq in H
         end.
  auto.
Qed.

Lemma month_day_days_before (leap : bool) (y n : Z) :
  0 <= n < (if leap then 366 else 365) -> is_leap y = leap ->
  ymd2ord y (fst (month_day leap n)) (snd (month_day leap n))
  = days_before_year y + n + 1.
Proof.
  intros Hn Hleap. destruct (month_day_spec leap n Hn) as (_ & _ & H).
  unfold ymd2ord, days_before_month. rewrite Hleap. lia.
Qed.

(** [toordinal] undoes [fromordinal]. *)
Theorem toordinal_ord2ymd (o : Z) : 1 <= o -> toordinal (ord2ymd o) = o.
Proof.
  intros Ho. unfold ord2ymd.
  remember ((o - 1) / 146097) as a eqn:Ea.
  remember ((o - 1) mod 146097) as r1 eqn:Er1.
  remember (r1 / 36524) as b eqn:Eb.
  remember (r1 mod 36524) as r2 eqn:Er2.
  remember (r2 / 1461) as c eqn:Ec.
  remember (r2 mod 1461) as r3 eqn:Er3.
  remember (r3 / 365) as d eqn:Ed.
  remember (r3 mod 365) as n eqn:En.
  assert (H1 : o - 1 = 146097 * a + r1 /\ 0 <= r1 < 146097)
    by (subst a r1; Z.to_euclidean_division_equations; lia).
  assert (H2 : r1 = 36524 * b + r2 /\ 0 <= r2 < 36524)
    by (subst b r2; Z.to_euclidean_division_equations; lia).
  assert (H3 : r2 = 1461 * c + r3 /\ 0 <= r3 < 1461)
    by (subst c r3; Z.to_euclidean_division_equations; lia).
  assert (H4 : r3 = 365 * d + n /\ 0 <= n < 365)
    by (subst d n; Z.to_euclidean_division_equations; lia).
  clear Ea Er1 Eb Er2 Ec Er3 Ed En. cbv zeta.
  destruct ((d =? 4) || (b =? 4)) eqn:Eedge.
  - (* the last day of a 4-year or of a 400-year cycle *)
    unfold toordinal. cbn [year month day].
    apply orb_true_iff in Eedge as [E|E]; apply Z.eqb_eq in E; subst.
    + replace (a * 400 + 1 + b * 100 + c * 4 + 4 - 1)
        with (400 * a + 100 * b + 4 * c + 3 + 1) by lia.
      assert (0 <= b <= 3) by lia. assert (0 <= c <= 24) by lia.
      unfold ymd2ord, days_before_month.
      rewrite days_before_year_cycles, is_leap_cycles by lia.
      change (nth (Z.to_nat (12 - 1)) DAYS_BEFORE_MONTH 0) with 334.
      replace (3 =? 3) with true by reflexivity.
      replace (2 <? 12) with true by reflexivity.
      destruct (Z.eqb_spec c 24), (Z.eqb_spec b 3); cbn [negb orb andb]; lia.
    + replace (a * 400 + 1 + 4 * 100 + c * 4 + d - 1)
        with (400 * (a + 1) + 100 * 0 + 4 * c + d) by lia.
      assert (c = 0 /\ d = 0 /\ n = 0) as (-> & -> & ->) by lia.
      unfold ymd2ord, days_before_month, days_before_year, is_leap.
      change (nth (Z.to_nat (12 - 1)) DAYS_BEFORE_MONTH 0) with 334.
      replace (2 <? 12) with true by reflexivity.
      repeat match goal with
             | |- context [?x =? ?y] => destruct (Z.eqb_spec x y)
             end; cbn [negb orb andb];
        Z.to_euclidean_division_equations; lia.
  - apply orb_false_iff in Eedge as [Ed Eb].
    apply Z.eqb_neq in Ed. apply Z.eqb_neq in Eb.
    assert (Hb : 0 <= b <= 3) by lia.
    assert (Hc : 0 <= c <= 24) by lia.
    assert (Hd : 0 <= d <= 3) by lia.
    remember ((d =? 3) && (negb (c =? 24) || (b =? 3))) as leap eqn:Eleap.
    assert (Hy : a * 400 + 1 + b * 100 + c * 4 + d
                 = 400 * a + 100 * b + 4 * c + d + 1) by lia.
    assert (Hleap : is_leap (a * 400 + 1 + b * 100 + c * 4 + d) = leap)
      by (rewrite Hy, is_leap_cycles by lia; congruence).
    assert (Hn : 0 <= n < (if leap then 366 else 365))
      by (destruct leap; lia).
    pose proof (month_day_days_before leap _ n Hn Hleap) as Hmd.
    unfold month_day in Hmd. cbv zeta in Hmd.
    unfold toordinal.
    destruct (n <? _); cbn [year month day fst snd] in *;
      rewrite Hmd, Hy, days_before_year_cycles by lia; lia.
Qed.

Lemma date_new_valid (y m d : Z) (dt : date) :
  date_new y m d = Ok dt -> valid_date dt.
Proof.
  unfold valid_date, date_new. intros H.
  destruct (fits_int y && fits_int m && fits_int d) eqn:Ef; [|discriminate].
  destruct ((1 <=? y) && (y <=? 9999)) eqn:Ey; [|discriminate].
  destruct ((1 <=? m) && (m <=? 12)) eqn:Em; [|discriminate].
  destruct ((1 <=? d) && (d <=? days_in_month y m)) eqn:Ed; [|discriminate].
  injection H as <-. cbn [year month day]. rewrite Ef, Ey, Em, Ed.
  reflexivity.
Qed.



Lemma date_add_ok (pub fd : date) (n : Z) :
  date_add pub n = Ok fd -> date_sub_days fd pub = n.
Proof.
  unfold date_add, date_sub_days. intros H.
  destruct ((0 <? toordinal pub + n) && (toordinal pub + n <=? MAXORDINAL))
    eqn:E; [|discriminate].
  apply andb_true_iff in E as [E _]. apply Z.ltb_lt in E.
  injection H as <-. rewrite toordinal_ord2ymd by lia. lia.
Qed.

Local Open Scope N_scope.

(** ** Which attributes a method touches *)

Ltac inv_ok :=
  repeat match goal with
         | H : Ok _ = Ok _ |- _ => injection H as H; subst
         | H : Raise _ = Ok _ |- _ => discriminate H
         | H : rbind ?r _ = Ok _ |- _ =>
           let E := fresh "E" in
           destruct r eqn:E; cbn [rbind] in H; [|discriminate H]
         | H : (let '(_, _) := ?p in _) = Ok _ |- _ => destruct p
         | H : (if ?b then _ else _) = Ok _ |- _ => destruct b eqn:?
         | H : match ?x with _ => _ end = Ok _ |- _ => destruct x eqn:?
         end.

Lemma extract_article_type_keeps (cfg : settings) (row : list node)
  (self self' : Article) (t : option str) :
  _extract_article_type cfg row self = Ok (self', t) ->
  self' = set_article_type t self.
Proof.
  unfold _extract_article_type. intros H. inv_ok; reflexivity.
Qed.

Lemma extract_title_keeps (cfg : settings) (row : list node)
  (self self' : Article) :
  _extract_title cfg row self = Ok self' ->
  exists t ti, self' = set_title ti (set_article_type t self).
Proof.
  unfold _extract_title. intros H.
  destruct (_extract_article_type cfg row self) as [[self1 t]|] eqn:E;
    cbn [rbind] in H; [|discriminate].
  apply extract_article_type_keeps in E. subst self1.
  inv_ok. eexists _, _. reflexivity.
Qed.

Lemma build_contact_keeps (row : list node) (self self' : Article) :
  _build_contact row self = Ok self' -> exists c, self' = set_contact c self.
Proof.
  unfold _build_contact. intros H.
  destruct (py_index row (-1)); cbn [rbind] in H; [|discriminate].
  destruct (py_index _ 0); cbn [rbind] in H; [|discriminate].
  destruct (contact_loop _ _ _); cbn [rbind] in H; [|discriminate].
  injection H as <-. eexists. reflexivity.
Qed.

Lemma build_documents_keeps (cfg : settings) (row : list node)
  (self self' : Article) :
  _build_documents cfg row self = Ok self' ->
  exists d, self' = set_documents d self.
Proof.
  unfold _build_documents. intros H. inv_ok; eexists; reflexivity.
Qed.

Lemma extract_published_at_keeps (cfg : settings) (row : list node)
  (self self' : Article) :
  _extract_published_at cfg row self = Ok self' ->
  feedback_days self' = feedback_days self.
Proof.
  unfold _extract_published_at. intros H.
  destruct (py_index row (-1)); cbn [rbind] in H; [|discriminate].
  destruct (py_index _ (-1)); cbn [rbind] in H; [|discriminate].
  destruct (re_search DATE_REGX _).
  - destruct (_build_date_from_match cfg _); cbn [rbind] in H;
      [|discriminate].
    injection H as <-. reflexivity.
  - injection H as <-. reflexivity.
Qed.

Lemma generate_id_keeps (self self' : Article) :
  _generate_id self = Ok self' ->
  feedback_days self' = feedback_days self
  /\ published_at self' = published_at self.
Proof.
  unfold _generate_id. intros H. inv_ok; split; reflexivity.
Qed.

(** ** Type classification *)

Lemma filter_filter (p q : N -> bool) (s : list N) :
  List.filter q (List.filter p s) = List.filter (fun x => p x && q x) s.
Proof.
  induction s as [|x s IH]; [reflexivity|].
  cbn [List.filter]. destruct (p x); cbn [List.filter andb];
    [destruct (q x)|]; rewrite IH; reflexivity.
Qed.

Lemma sanitize_nonempty (s : str) :
  s <> [] -> _sanitize s = Some (sanitize_spec s).
Proof.
  intros Hne. destruct s as [|c t]; [congruence|].
  unfold _sanitize, sanitize_spec.
  rewrite !replace_remove, filter_filter. f_equal.
  apply filter_ext. intros x.
  rewrite (N.eqb_sym x 0xA), (N.eqb_sym x 0x200B). reflexivity.
Qed.

Lemma is_text_filter (p : N -> bool) (s : str) :
  is_text s -> is_text (List.filter p s).
Proof.
  induction 1 as [|x s Hx _ IH]; cbn [List.filter]; [constructor|].
  destruct (p x); [constructor; assumption | assumption].
Qed.

Lemma is_text_lstrip (p : codepoint -> bool) (s : str) :
  is_text s -> is_text (lstrip_by p s).
Proof.
  induction 1 as [|x s Hx Hs IH]; cbn [lstrip_by]; [constructor|].
  destruct (p x); [assumption | constructor; assumption].
Qed.

Lemma is_text_strip (s : str) : is_text s -> is_text (strip s).
Proof.
  intros H. unfold strip, rstrip_by, is_text.
  apply Forall_rev. apply is_text_lstrip. apply Forall_rev.
  apply is_text_lstrip. exact H.
Qed.

Lemma truthy_str_code (cfg : settings) (k code : str) :
  types_wf cfg -> TYPES cfg !! k = Some code -> truthy_str (Some code) = true.
Proof.
  intros [_ Hwf] Hk. specialize (Hwf k code Hk). cbn beta in Hwf.
  destruct code; [congruence | reflexivity].
Qed.

(** C5 (as amended): for a label of scalar values, that is one without
    a lone surrogate, and a type table without an entry for the empty label
    and without an empty type code, [_extract_article_type] returns without
    error and sets and returns the type code that the classification of the
    specification gives for the stripped text of the first link. *)
Theorem C5_type_classification (cfg : settings) (row : list node)
  (self : Article) (r0 a0 : node) :
  py_index row 0 = Ok r0 ->
  py_index (find_all "a" r0) 0 = Ok a0 ->
  is_text (text a0) ->
  types_wf cfg ->
  _extract_article_type cfg row self
  = Ok (set_article_type (classify_spec cfg (strip (text a0))) self,
        classify_spec cfg (strip (text a0))).
Proof.
  intros Hr0 Ha0 Htext Hwf. unfold _extract_article_type.
  rewrite Hr0. cbn [rbind]. rewrite Ha0. cbn [rbind].
  apply is_text_strip in Htext. unfold classify_spec.
  remember (strip (text a0)) as label eqn:El. clear El.
  destruct label as [|c t] eqn:Elabel.
  - (* an empty label is [None] after [_sanitize] *)
    cbn [_sanitize dict_get set_article_type article_type truthy_str negb
         _do_magic rbind sanitize_spec List.filter].
    change (magic_spec []) with (@nil N).
    rewrite (proj1 Hwf). reflexivity.
  - rewrite <- Elabel in *.
    rewrite sanitize_nonempty by (subst; discriminate).
    cbn [dict_get set_article_type article_type].
    destruct (TYPES cfg !! sanitize_spec label) as [code|] eqn:E1.
    + rewrite (truthy_str_code cfg _ code Hwf E1). reflexivity.
    + cbn [truthy_str negb].
      destruct (sanitize_spec label) as [|c' t'] eqn:Es.
      * (* nothing is left of the label *)
        cbn [_do_magic rbind dict_get set_article_type article_type
             truthy_str negb].
        change (magic_spec []) with (@nil N).
        rewrite E1. reflexivity.
      * rewrite <- Es in *.
        rewrite do_magic_spec;
          [|rewrite Es; discriminate
           |unfold sanitize_spec; apply is_text_filter; exact Htext].
        cbn [rbind dict_get set_article_type article_type]. unfold magic_spec.
        destruct (TYPES cfg !! replace MAGIC_TEXT MAGIC_NEW _) as [code|]
          eqn:E2.
        -- rewrite (truthy_str_code cfg _ code Hwf E2). reflexivity.
        -- reflexivity.
Qed.

Lemma sample_cfg_wf : types_wf sample_cfg.
Proof.
  split; [reflexivity|]. unfold sample_cfg. cbn [TYPES].
  repeat (apply map_Forall_insert_2; [discriminate|]).
  apply map_Forall_empty.
Qed.

Lemma C5_type_classification_witness :
  _extract_article_type sample_cfg
    (select "tr" (two_rows label_misencoded [lit "Publicat"])) Article_new
  = Ok (set_article_type (Some (lit "HG")) Article_new, Some (lit "HG"))
  /\ _extract_article_type sample_cfg
       (select "tr" (two_rows (lit "AVIZ") [lit "Publicat"])) Article_new
     = Ok (set_article_type (Some (lit "OTHER")) Article_new,
           Some (lit "OTHER")).
Proof.
  split.
  - rewrite (C5_type_classification sample_cfg
               (select "tr" (two_rows label_misencoded [lit "Publicat"]))
               Article_new (first_row label_misencoded)
               (link "/node/1" label_misencoded) eq_refl eq_refl);
      [reflexivity | |exact sample_cfg_wf].
    repeat constructor.
  - rewrite (C5_type_classification sample_cfg
               (select "tr" (two_rows (lit "AVIZ") [lit "Publicat"]))
               Article_new
               (first_row (lit "AVIZ")) (link "/node/1" (lit "AVIZ"))
               eq_refl eq_refl);
      [reflexivity | |exact sample_cfg_wf].
    repeat constructor.
Defined.

(** C5 (as stated, refuted): the classification is not the chain of
    lookups for every label and every type table, and it can fail.  An
    entry whose type code is empty counts as a miss, so that "HOTARARE"
    gets the fallback code where the lookup gives the empty one; and a
    label with a lone surrogate that is not in the table ends in a
    [UnicodeEncodeError]. *)
Lemma C5_not_every_label :
  ~ (forall cfg label,
       _extract_article_type cfg
         (select "tr" (two_rows label [lit "Publicat"])) Article_new
       = Ok (set_article_type (classify_spec cfg (strip label)) Article_new,
             classify_spec cfg (strip label)))
  /\ _extract_article_type cfg_empty_code
       (select "tr" (two_rows (lit "HOTARARE") [lit "Publicat"])) Article_new
     = Ok (set_article_type (Some (lit "OTHER")) Article_new,
           Some (lit "OTHER"))
  /\ classify_spec cfg_empty_code (strip (lit "HOTARARE")) = Some []
  /\ _extract_article_type sample_cfg
       (select "tr" (two_rows label_surrogate [lit "Publicat"])) Article_new
     = Raise UnicodeEncodeError.
Proof.
  assert (H1 : _extract_article_type cfg_empty_code
                 (select "tr" (two_rows (lit "HOTARARE") [lit "Publicat"]))
                 Article_new
               = Ok (set_article_type (Some (lit "OTHER")) Article_new,
                     Some (lit "OTHER"))) by (vm_compute; reflexivity).
  assert (H2 : classify_spec cfg_empty_code (strip (lit "HOTARARE"))
               = Some []) by (vm_compute; reflexivity).
  split; [|split; [exact H1|split; [exact H2|vm_compute; reflexivity]]].
  intros H. specialize (H cfg_empty_code (lit "HOTARARE")).
  rewrite H1, H2 in H. discriminate H.
Qed.

(** ** Titles *)

(** C2 (fails on the code): when the type lookup gives no type code, the
    title is not built: calling [lower] on [None] is an [AttributeError]. *)
Theorem C2_title_without_type (cfg : settings) (row : list node)
  (self self' : Article) :
  _extract_article_type cfg row self = Ok (self', None) ->
  _extract_title cfg row self = Raise AttributeError.
Proof. intros H. unfold _extract_title. rewrite H. reflexivity. Qed.

Lemma C2_title_without_type_witness :
  _extract_article_type cfg_no_types
    (select "tr" (two_rows (lit "HOTARARE") [lit "Publicat"])) Article_new
  = Ok (set_article_type None Article_new, None)
  /\ _extract_title cfg_no_types
       (select "tr" (two_rows (lit "HOTARARE") [lit "Publicat"])) Article_new
     = Raise AttributeError.
Proof.
  split.
  - vm_compute. reflexivity.
  - eapply C2_title_without_type. vm_compute. reflexivity.
Defined.

(** With a type code, even an empty one, and a second link in the first
    row, the title is built. *)
Lemma extract_title_with_type (cfg : settings) (row : list node)
  (self self' : Article) (t : str) (r0 a1 : node) :
  _extract_article_type cfg row self = Ok (self', Some t) ->
  py_index row 0 = Ok r0 -> py_index (find_all "a" r0) 1 = Ok a1 ->
  exists ti, _extract_title cfg row self = Ok (set_title (Some ti) self').
Proof.
  intros H H0 H1. unfold _extract_title. rewrite H. simpl.
  rewrite H0. simpl. rewrite H1. simpl. eexists. reflexivity.
Qed.

(** ** Contact fields *)

(** A step of the loop stores the captured text, or nothing; it cannot
    fail, because the first group takes part in every match. *)
Lemma contact_step_spec (paragraph : str) (acc : gmap string str)
  (field : string) (rx : regex) :
  mandatory rx 1 = true ->
  contact_step paragraph acc (field, rx)
  = Ok (match captured rx paragraph with
        | Some v => <[string_lower field := v]> acc
        | None => acc
        end).
Proof.
  intros Hmand. unfold contact_step, captured. cbn [fst snd].
  destruct (re_search rx paragraph) as [aux|] eqn:E; [|reflexivity].
  apply re_search_sound in E as (_ & _ & Hm & _).
  destruct (Hm 1%nat Hmand) as [g ->]. cbn [deref rbind].
  destruct (strip g); reflexivity.
Qed.

(** C9: given the contact paragraph, [_build_contact] ends without error
    and the mapping holds, for each of email, tel, fax and addr, the
    stripped first group of the first match of its pattern when that is not
    empty, and nothing otherwise; there is no other key. *)
Theorem C9_contact (row : list node) (self : Article) (last p : node) :
  py_index row (-1) = Ok last ->
  py_index (select "p" last) 0 = Ok p ->
  exists c : gmap string str,
    _build_contact row self = Ok (set_contact (Some c) self)
    /\ c !! "email"%string = captured EMAIL_REGX (text p)
    /\ c !! "tel"%string = captured TEL_REGX (text p)
    /\ c !! "fax"%string = captured FAX_REGX (text p)
    /\ c !! "addr"%string = captured ADDR_REGX (text p)
    /\ (forall key, is_Some (c !! key) ->
          key ∈ ["email"; "tel"; "fax"; "addr"]%string).
Proof.
  intros Hlast Hp. unfold _build_contact.
  rewrite Hlast. cbn [rbind]. rewrite Hp. cbn [rbind].
  unfold CONTACT_REGX. cbn [contact_loop].
  rewrite (contact_step_spec _ _ "email" EMAIL_REGX eq_refl). cbn [rbind].
  rewrite (contact_step_spec _ _ "tel" TEL_REGX eq_refl). cbn [rbind].
  rewrite (contact_step_spec _ _ "fax" FAX_REGX eq_refl). cbn [rbind].
  rewrite (contact_step_spec _ _ "addr" ADDR_REGX eq_refl). cbn [rbind].
  change (string_lower "email") with "email"%string.
  change (string_lower "tel") with "tel"%string.
  change (string_lower "fax") with "fax"%string.
  change (string_lower "addr") with "addr"%string.
  eexists. split; [reflexivity|].
  destruct (captured EMAIL_REGX (text p)), (captured TEL_REGX (text p)),
    (captured FAX_REGX (text p)), (captured ADDR_REGX (text p));
    (repeat split; [simplify_map_eq; reflexivity ..|]);
    intros key [v Hv];
    repeat match type of Hv with
           | <[?k := _]> _ !! key = Some _ =>
             destruct (decide (k = key)) as [<-|];
               [set_solver | rewrite lookup_insert_ne in Hv by assumption]
           end;
    rewrite lookup_empty in Hv; discriminate.
Qed.

Lemma C9_contact_witness :
  _build_contact (select "tr" table_email_only) Article_new
  = Ok (set_contact (Some {[ "email"%string := lit "dce@mae.ro" ]})
          Article_new).
Proof.
  destruct (C9_contact (select "tr" table_email_only) Article_new
              (second_row
                 [lit "Propuneri la adresa dce@mae.ro, pana la 20 ianuarie 2020";
                  lit "Publicat la 1 ianuarie 2020"])
              (paragraph
                 (lit "Propuneri la adresa dce@mae.ro, pana la 20 ianuarie 2020"))
              eq_refl eq_refl)
    as (c & Hc & He & Ht & Hf & Ha & Hkeys).
  rewrite Hc. do 3 f_equal. apply map_eq. intros key.
  destruct (decide (key = "email"%string)) as [->|Hne].
  - rewrite He, lookup_singleton_eq. vm_compute. reflexivity.
  - rewrite lookup_singleton_ne by congruence.
    destruct (c !! key) as [v|] eqn:Hv; [|reflexivity].
    assert (Hin : key ∈ ["email"; "tel"; "fax"; "addr"]%string)
      by (apply Hkeys; eauto).
    repeat (apply elem_of_cons in Hin as [-> | Hin]).
    + contradiction.
    + rewrite Ht in Hv. vm_compute in Hv. discriminate.
    + rewrite Hf in Hv. vm_compute in Hv. discriminate.
    + rewrite Ha in Hv. vm_compute in Hv. discriminate.
    + apply elem_of_nil in Hin. contradiction.
Defined.

(** ** Documents *)

(** A row-group of one row never gets its documents: the link of the
    second row is read whether or not there is a second row. *)
Lemma build_documents_one_row (cfg : settings) (r : node) (self : Article) :
  raises (_build_documents cfg [r] self).
Proof.
  unfold _build_documents. simpl (2 <=? List.length [r])%nat. cbv iota.
  simpl rbind at 1.
  repeat (apply raises_bind; intros ? _).
  exists IndexError. reflexivity.
Qed.

(** A row-group whose first two rows have the expected cells and links
    gets two documents, each url the base url followed by the href. *)
Lemma build_documents_two_rows (cfg : settings) (r0 r1 : node)
  (rest : list node) (self : Article) (td0 a0 td1 a1 : node) (h0 h1 : str) :
  find "td" r0 = Some td0 -> find "a" td0 = Some a0 ->
  attr "href" a0 = Ok h0 ->
  find "td" r1 = Some td1 -> find "a" td1 = Some a1 ->
  attr "href" a1 = Ok h1 ->
  text td1 <> [] ->
  exists t1 t2 : option str,
    _build_documents cfg (r0 :: r1 :: rest) self
    = Ok (set_documents
            (Some [ {| doc_type := t1; doc_url := MAE_BASE_URL cfg ++ h0 |};
                    {| doc_type := t2; doc_url := MAE_BASE_URL cfg ++ h1 |} ])
            self).
Proof.
  intros Htd0 Ha0 Hh0 Htd1 Ha1 Hh1 Htxt.
  unfold _build_documents.
  simpl (2 <=? _)%nat. cbv iota.
  rewrite py_index_cons_1, py_index_cons_0. simpl.
  rewrite Htd1. simpl.
  destruct (text td1) as [|c t] eqn:Et; [congruence|].
  simpl. rewrite Htd0. simpl. rewrite Ha0. simpl. rewrite Hh0. simpl.
  rewrite Ha1. simpl. rewrite Hh1. simpl.
  lazymatch goal with
  | |- context [match ?x ++ ANEXA with _ => _ end] => destruct x; simpl
  end; eexists _, _; reflexivity.
Qed.

Lemma raises_not_ok {A} (r : result A) (a : A) : raises r -> r <> Ok a.
Proof. intros [e ->]. discriminate. Qed.

(** C1 (the one-row case fails): whenever the row-group has exactly one
    row, the constructor stops with an error, raised in [_build_documents]
    at the latest, instead of giving a record with one document. *)
Theorem C1_one_row_raises (cfg : settings) (table r : node) :
  select "tr" table = [r] -> raises (Article_init cfg table).
Proof.
  intros Hrows. unfold Article_init. rewrite Hrows.
  apply raises_bind. intros [self1 ty] _.
  apply raises_bind. intros self2 _.
  apply raises_bind. intros self3 _.
  apply raises_bind. intros self4 H4.
  exfalso. revert H4. apply raises_not_ok, build_documents_one_row.
Qed.

Lemma C1_one_row_witness :
  select "tr" (one_row (lit "HOTARARE") [lit "Publicat la 15 ianuarie 2020"])
  = [Tag "tr" ∅
       [Tag "td" ∅
          [link "/node/1" (lit "HOTARARE");
           link "/node/1" (lit "privind aprobarea unui acord")];
        Tag "td" ∅ [paragraph (lit "Publicat la 15 ianuarie 2020")]]]
  /\ raises (Article_init sample_cfg
               (one_row (lit "HOTARARE")
                  [lit "Publicat la 15 ianuarie 2020"])).
Proof.
  split.
  - reflexivity.
  - eapply C1_one_row_raises. reflexivity.
Defined.

(** The error of the one-row case is the [IndexError] of the missing
    second row. *)
Example one_row_IndexError :
  Article_init sample_cfg
    (one_row (lit "HOTARARE") [lit "Publicat la 15 ianuarie 2020"])
  = Raise IndexError.
Proof. vm_compute. reflexivity. Qed.

(** ** Publication dates *)

(** What [_build_date_from_match] makes of a match of [DATE_REGX]: the
    groups are there and the year is read, so that only the month table,
    the length of the day and the calendar decide. *)
Lemma build_date_from_match_spec (cfg : settings) (s : str) (m : match_obj) :
  re_search DATE_REGX s = Some m ->
  exists (g1 g2 g3 : str) (d y : N),
    group 1 m = Some g1 /\ group 2 m = Some g2 /\ group 3 m = Some g3
    /\ py_int g1
       = (if int_too_long g1 then Raise ValueError else Ok (Z.of_N d))
    /\ py_int g3 = Ok (Z.of_N y)
    /\ _build_date_from_match cfg m
       = match MONTHS cfg !! strip g2 with
         | None => Ok None
         | Some mon =>
           if (mon =? 0)%Z then Ok None
           else if int_too_long g1 then Raise ValueError
           else let! dt := date_new (Z.of_N y) mon (Z.of_N d) in Ok (Some dt)
         end.
Proof.
  intros H.
  destruct (date_match_groups s m H)
    as (g1 & g2 & g3 & d & y & H1 & H2 & H3 & Hd & Hy).
  exists g1, g2, g3, d, y. repeat (split; [assumption|]).
  unfold _build_date_from_match. rewrite H2. cbn [deref rbind].
  destruct (MONTHS cfg !! strip g2) as [mon|]; [|reflexivity].
  destruct (mon =? 0)%Z; [reflexivity|].
  rewrite H3. cbn [deref rbind]. rewrite Hy. cbn [rbind].
  rewrite H1. cbn [deref rbind]. rewrite Hd.
  destruct (int_too_long g1); reflexivity.
Qed.



(** ** The feedback window *)

Lemma extract_feedback_days_inv (cfg : settings) (row : list node)
  (self self' : Article) :
  _extract_feedback_days cfg row self = Ok self' ->
  self' = self
  \/ exists last p pub fd,
       py_index row (-1) = Ok last
       /\ py_index (find_all "p" last) 0 = Ok p
       /\ published_at self = Some pub
       /\ resolves_deadline cfg (text p) pub fd
       /\ self' = set_feedback_days (Some (date_sub_days fd pub)) self.
Proof.
  unfold _extract_feedback_days. intros H.
  destruct (py_index row (-1)) as [last|] eqn:Hlast; cbn [rbind] in H;
    [|discriminate].
  destruct (py_index _ 0) as [p|] eqn:Hp; cbn [rbind] in H; [|discriminate].
  destruct (re_search DATE_REGX (text p)) as [m|] eqn:Hm.
  - destruct (_build_date_from_match cfg m) as [[fd|]|] eqn:Hb;
      cbn [rbind] in H; [| |discriminate].
    + destruct (published_at self) as [pub|] eqn:Hpub; [|discriminate].
      injection H as <-. right. exists last, p, pub, fd.
      repeat (split; [assumption || reflexivity|]).
      split; [|reflexivity]. left. eauto.
    + injection H as <-. left. reflexivity.
  - destruct (re_search TIMEDELTA_REGX (text p)) as [dm|] eqn:Hdm.
    + destruct (group 2 dm) as [g|] eqn:Hg; cbn [deref rbind] in H;
        [|discriminate].
      destruct (py_int g) as [n|] eqn:Hn; cbn [rbind] in H; [|discriminate].
      destruct (timedelta_days n) as [days|] eqn:Hdays; cbn [rbind] in H;
        [|discriminate].
      assert (days = n) as ->.
      { unfold timedelta_days in Hdays.
        destruct (_ && _) in Hdays; congruence. }
      destruct (published_at self) as [pub|] eqn:Hpub; [|discriminate].
      destruct (date_add pub n) as [fd|] eqn:Hadd; cbn [rbind] in H;
        [|discriminate].
      injection H as <-. right. exists last, p, pub, fd.
      repeat (split; [assumption || reflexivity|]).
      split; [|reflexivity]. right. split; [assumption|].
      exists dm, g, n. auto.
    + cbn [rbind] in H. injection H as <-. left. reflexivity.
Qed.

(** C3 (as amended): on a constructed record with [feedback_days] set,
    [published_at] is set too and [feedback_days] is the number of days from
    [published_at] to the deadline that the first paragraph of the trailing
    cell resolves to; the number is negative when that date lies before the
    publication date. *)
Theorem C3_feedback_days (cfg : settings) (table : node) (art : Article)
  (n : Z) :
  Article_init cfg table = Ok art ->
  feedback_days art = Some n ->
  exists last p pub fd,
    py_index (select "tr" table) (-1) = Ok last
    /\ py_index (find_all "p" last) 0 = Ok p
    /\ published_at art = Some pub
    /\ resolves_deadline cfg (text p) pub fd
    /\ n = (toordinal fd - toordinal pub)%Z.
Proof.
  unfold Article_init. intros H Hn.
  destruct (_extract_article_type cfg _ Article_new) as [[s1 t]|] eqn:E1;
    cbn [rbind] in H; [|discriminate].
  destruct (_extract_title cfg _ s1) as [s2|] eqn:E2; cbn [rbind] in H;
    [|discriminate].
  destruct (_build_contact _ s2) as [s3|] eqn:E3; cbn [rbind] in H;
    [|discriminate].
  destruct (_build_documents cfg _ s3) as [s4|] eqn:E4; cbn [rbind] in H;
    [|discriminate].
  destruct (_extract_published_at cfg _ s4) as [s5|] eqn:E5;
    cbn [rbind] in H; [|discriminate].
  destruct (_extract_feedback_days cfg _ s5) as [s6|] eqn:E6;
    cbn [rbind] in H; [|discriminate].
  apply extract_article_type_keeps in E1. subst s1.
  apply extract_title_keeps in E2 as (t2 & ti & ->).
  apply build_contact_keeps in E3 as (c & ->).
  apply build_documents_keeps in E4 as (d & ->).
  apply extract_published_at_keeps in E5. cbn in E5.
  apply generate_id_keeps in H as [Hf Hp].
  apply extract_feedback_days_inv in E6
    as [-> | (last & p & pub & fd & Hlast & Hpp & Hpub & Hres & ->)].
  - congruence.
  - exists last, p, pub, fd. rewrite Hp. cbn.
    repeat (split; [assumption|]).
    rewrite Hf in Hn. cbn in Hn. unfold date_sub_days in Hn. congruence.
Qed.

Lemma C3_feedback_days_witness :
  exists art,
    Article_init sample_cfg table_deadline_before = Ok art
    /\ feedback_days art = Some (-14)%Z
    /\ exists last p pub fd,
         py_index (select "tr" table_deadline_before) (-1) = Ok last
         /\ py_index (find_all "p" last) 0 = Ok p
         /\ published_at art = Some pub
         /\ resolves_deadline sample_cfg (text p) pub fd
         /\ (-14 = toordinal fd - toordinal pub)%Z.
Proof.
  destruct (Article_init sample_cfg table_deadline_before) as [art|] eqn:E;
    [|vm_compute in E; discriminate].
  exists art. split; [reflexivity|].
  assert (Hn : feedback_days art = Some (-14)%Z).
  { vm_compute in E. injection E as <-. reflexivity. }
  split; [exact Hn|].
  exact (C3_feedback_days sample_cfg table_deadline_before art (-14) E Hn).
Defined.

(** C3 (as stated, refuted): the days of a constructed record can be
    negative. *)
Lemma C3_negative_feedback_days :
  ~ (forall art n,
       Article_init sample_cfg table_deadline_before = Ok art ->
       feedback_days art = Some n -> (0 <= n)%Z).
Proof.
  intros H.
  destruct (Article_init sample_cfg table_deadline_before) as [art|] eqn:E;
    [|vm_compute in E; discriminate].
  assert (Hn : feedback_days art = Some (-14)%Z).
  { vm_compute in E. injection E as <-. reflexivity. }
  specialize (H art (-14)%Z eq_refl Hn). lia.
Qed.




(** ** The relative pattern without a publication date *)

Lemma feedback_relative_unanchored (cfg : settings) (row : list node)
  (self : Article) (last p : node) (dm : match_obj) :
  py_index row (-1) = Ok last ->
  py_index (find_all "p" last) 0 = Ok p ->
  re_search DATE_REGX (text p) = None ->
  re_search TIMEDELTA_REGX (text p) = Some dm ->
  published_at self = None ->
  exists (g : str) (n : N),
    group 2 dm = Some g
    /\ py_int g
       = (if int_too_long g then Raise ValueError else Ok (Z.of_N n))
    /\ _extract_feedback_days cfg row self
       = if int_too_long g then Raise ValueError
         else if (Z.of_N n <=? 999999999)%Z then Raise TypeError
         else Raise OverflowError.
Proof.
  intros Hlast Hp Hm Hdm Hpub.
  destruct (timedelta_match_group _ dm Hdm) as (g & n & Hg & Hn).
  exists g, n. split; [assumption|]. split; [assumption|].
  unfold _extract_feedback_days.
  rewrite Hlast. cbn [rbind]. rewrite Hp. cbn [rbind].
  rewrite Hm, Hdm, Hg. cbn [deref rbind]. rewrite Hn.
  destruct (int_too_long g); [reflexivity|]. cbn [rbind].
  unfold timedelta_days.
  replace (-999999999 <=? Z.of_N n)%Z with true
    by (symmetry; apply Z.leb_le; lia).
  cbn [andb]. destruct (Z.of_N n <=? 999999999)%Z; cbn [rbind].
  - rewrite Hpub. reflexivity.
  - reflexivity.
Qed.

(** C10: when [published_at] stays unset and the first paragraph of the
    trailing cell matches the relative pattern but not the date pattern,
    the constructor ends in an error. *)
Theorem C10_unanchored_relative_raises (cfg : settings) (table : node)
  (last p : node) (dm : match_obj) :
  py_index (select "tr" table) (-1) = Ok last ->
  py_index (find_all "p" last) 0 = Ok p ->
  re_search DATE_REGX (text p) = None ->
  re_search TIMEDELTA_REGX (text p) = Some dm ->
  published_unset cfg (select "tr" table) ->
  raises (Article_init cfg table).
Proof.
  intros Hlast Hp Hm Hdm Hunset. unfold Article_init.
  apply raises_bind. intros [s1 t] E1.
  apply raises_bind. intros s2 E2.
  apply raises_bind. intros s3 E3.
  apply raises_bind. intros s4 E4.
  apply raises_bind. intros s5 E5.
  apply extract_article_type_keeps in E1. subst s1.
  apply extract_title_keeps in E2 as (t2 & ti & ->).
  apply build_contact_keeps in E3 as (c & ->).
  apply build_documents_keeps in E4 as (d & ->).
  apply Hunset in E5; [|reflexivity].
  destruct (feedback_relative_unanchored cfg _ s5 last p dm
              Hlast Hp Hm Hdm E5) as (g & n & _ & _ & Hr).
  rewrite Hr.
  destruct (int_too_long g); [exists ValueError; reflexivity|].
  destruct (Z.of_N n <=? 999999999)%Z; cbn [rbind].
  - exists TypeError. reflexivity.
  - exists OverflowError. reflexivity.
Qed.

Lemma C10_unanchored_relative_witness :
  Article_init sample_cfg table_deadline_days = Raise TypeError
  /\ raises (Article_init sample_cfg table_deadline_days).
Proof.
  split; [vm_compute; reflexivity|].
  destruct (re_search TIMEDELTA_REGX (lit "Propuneri timp de 10 zile"))
    as [dm|] eqn:Edm; [|vm_compute in Edm; discriminate].
  refine (C10_unanchored_relative_raises sample_cfg table_deadline_days
            (second_row [lit "Propuneri timp de 10 zile"; lit "Publicat"])
            (paragraph (lit "Propuneri timp de 10 zile")) dm
            eq_refl eq_refl _ Edm _).
  - vm_compute. reflexivity.
  - intros self self' Hself H.
    change (_extract_published_at sample_cfg (select "tr" table_deadline_days)
              self) with (Ok self) in H.
    injection H as <-. exact Hself.
Defined.

(** ** Identifiers *)

Lemma generate_id_set (self : Article) (ty ti : str) (b : bytes) :
  article_type self = Some ty -> ty <> [] ->
  title self = Some ti -> ti <> [] ->
  utf8_encode ti = Ok b ->
  _generate_id self
  = Ok (set_identifier (Some (ty ++ lit "-" ++ md5_hexdigest b)) self).
Proof.
  intros Hty Hty' Hti Hti' Hb. unfold _generate_id.
  rewrite Hty, Hti.
  destruct ty; [congruence|]. destruct ti; [congruence|].
  simpl truthy_str. simpl andb. cbv iota.
  unfold deref, rbind at 1 2. rewrite Hb. reflexivity.
Qed.

Lemma generate_id_unset (self : Article) :
  truthy_str (article_type self) && truthy_str (title self) = false ->
  _generate_id self = Ok self.
Proof. intros H. unfold _generate_id. rewrite H. reflexivity. Qed.

(** C7: with a type and a title, the identifier is the type, a dash and
    the hexadecimal MD5 digest of the encoded title; without one of them the
    record is left as it is, without error.  Hence records that agree on
    type and title get the same identifier, and records of one type whose
    titles differ get different identifiers unless the digests collide. *)
Theorem C7_identifier :
  (forall self ty ti b,
     article_type self = Some ty -> ty <> [] ->
     title self = Some ti -> ti <> [] ->
     utf8_encode ti = Ok b ->
     _generate_id self
     = Ok (set_identifier (Some (ty ++ lit "-" ++ md5_hexdigest b)) self))
  /\ (forall self,
        truthy_str (article_type self) && truthy_str (title self) = false ->
        _generate_id self = Ok self)
  /\ (forall s1 s2 a1 a2,
        article_type s1 = article_type s2 -> title s1 = title s2 ->
        identifier s1 = identifier s2 ->
        _generate_id s1 = Ok a1 -> _generate_id s2 = Ok a2 ->
        identifier a1 = identifier a2)
  /\ (forall s1 s2 a1 a2 ty t1 t2 b1 b2,
        article_type s1 = Some ty -> article_type s2 = Some ty -> ty <> [] ->
        title s1 = Some t1 -> title s2 = Some t2 -> t1 <> [] -> t2 <> [] ->
        t1 <> t2 ->
        utf8_encode t1 = Ok b1 -> utf8_encode t2 = Ok b2 ->
        md5_hexdigest b1 <> md5_hexdigest b2 ->
        _generate_id s1 = Ok a1 -> _generate_id s2 = Ok a2 ->
        identifier a1 <> identifier a2).
Proof.
  split; [exact generate_id_set|].
  split; [exact generate_id_unset|].
  split.
  - intros s1 s2 a1 a2 Hty Hti Hid H1 H2.
    unfold _generate_id in H1, H2. rewrite <- Hty, <- Hti in H2.
    destruct (truthy_str (article_type s1) && truthy_str (title s1)).
    + destruct (article_type s1) as [ty|]; simpl in H1, H2; [|discriminate].
      destruct (title s1) as [ti|]; simpl in H1, H2; [|discriminate].
      destruct (utf8_encode ti) as [b|e]; simpl in H1, H2; [|discriminate].
      injection H1 as <-. injection H2 as <-. reflexivity.
    + injection H1 as <-. injection H2 as <-. exact Hid.
  - intros s1 s2 a1 a2 ty t1 t2 b1 b2 Hty1 Hty2 Hty Ht1 Ht2 Hn1 Hn2 _
      Hb1 Hb2 Hmd5 H1 H2.
    rewrite (generate_id_set s1 ty t1 b1) in H1 by assumption.
    rewrite (generate_id_set s2 ty t2 b2) in H2 by assumption.
    injection H1 as <-. injection H2 as <-. simpl.
    intros [= Heq]. apply app_inv_head in Heq. injection Heq as Heq.
    contradiction.
Qed.

Lemma C7_identifier_witness :
  _generate_id typed_titled
  = Ok (set_identifier
          (Some (lit "HG" ++ lit "-" ++ md5_hexdigest (lit "Hg privind")))
          typed_titled)
  /\ md5_hexdigest (lit "Hg privind")
     = lit "3376595e707b6cd6285883d75ef05ad8"
  /\ _generate_id typed_untitled = Ok typed_untitled.
Proof.
  split; [|split].
  - refine (proj1 C7_identifier typed_titled (lit "HG") (lit "Hg privind")
              (lit "Hg privind") _ _ _ _ _);
      first [reflexivity | discriminate].
  - vm_compute. reflexivity.
  - refine (proj1 (proj2 C7_identifier) typed_untitled _). reflexivity.
Defined.

(** ** Validity *)

Lemma getattr_data_field (self : Article) (name : string) :
  name ∈ data_fields -> exists v, getattr self name = Ok v.
Proof.
  intros H. unfold data_fields in H.
  repeat (apply elem_of_cons in H as [-> | H]; [eexists; reflexivity|]).
  apply elem_of_nil in H. contradiction.
Qed.

Lemma is_valid_loop_unchanged (fields : list string) (self self' : Article)
  (b : bool) :
  is_valid_loop fields self = Ok (self', b) -> self' = self.
Proof.
  induction fields as [|f fields IH]; simpl.
  - congruence.
  - destruct (getattr self f) as [v|e]; simpl; [|discriminate].
    destruct (truthy v); simpl; [exact IH | congruence].
Qed.

(** [is_valid] never changes the record. *)
Lemma is_valid_unchanged (cfg : settings) (self self' : Article) (b : bool) :
  is_valid cfg self = Ok (self', b) -> self' = self.
Proof. apply is_valid_loop_unchanged. Qed.

(** [is_valid] answers [True] exactly when every named attribute exists
    and is true. *)
Lemma is_valid_true_iff (cfg : settings) (self : Article) :
  is_valid cfg self = Ok (self, true)
  <-> Forall (fun f => attr_truthy self f = true) (MANDATORY_FIELDS cfg).
Proof.
  unfold is_valid. induction (MANDATORY_FIELDS cfg) as [|f fields IH]; simpl.
  - split; [constructor | reflexivity].
  - unfold attr_truthy at 1. rewrite Forall_cons.
    destruct (getattr self f) as [v|e]; simpl.
    + destruct (truthy v); simpl.
      * rewrite IH. tauto.
      * split; [discriminate | intros [? _]; discriminate].
    + split; [discriminate | intros [? _]; discriminate].
Qed.

(** When the mandatory names are data attributes, [is_valid] returns
    without error, and its answer is the conjunction of the truth values of
    the named attributes. *)
Lemma is_valid_total (cfg : settings) (self : Article) :
  Forall (fun f => f ∈ data_fields) (MANDATORY_FIELDS cfg) ->
  is_valid cfg self
  = Ok (self, forallb (attr_truthy self) (MANDATORY_FIELDS cfg)).
Proof.
  unfold is_valid. induction (MANDATORY_FIELDS cfg) as [|f fields IH];
    intros Hall; simpl.
  - reflexivity.
  - apply Forall_cons in Hall as [Hf Hall].
    destruct (getattr_data_field self f Hf) as [v Hv].
    unfold attr_truthy at 1. rewrite Hv. simpl.
    destruct (truthy v); simpl; [apply IH, Hall | reflexivity].
Qed.

(** C8: [is_valid] answers true exactly when every attribute named in
    the mandatory list is true (neither [None] nor empty nor zero); it only
    reads the record, which is the same afterwards; and when the names are
    data attributes it always answers, without error. *)
Theorem C8_is_valid (cfg : settings) (self : Article) :
  (is_valid cfg self = Ok (self, true)
   <-> Forall (fun f => attr_truthy self f = true) (MANDATORY_FIELDS cfg))
  /\ (forall self' b, is_valid cfg self = Ok (self', b) -> self' = self)
  /\ (Forall (fun f => f ∈ data_fields) (MANDATORY_FIELDS cfg) ->
      is_valid cfg self
      = Ok (self, forallb (attr_truthy self) (MANDATORY_FIELDS cfg))).
Proof.
  split; [apply is_valid_true_iff|].
  split; [intros self' b; apply is_valid_unchanged | apply is_valid_total].
Qed.

Lemma C8_is_valid_witness :
  Forall (fun f => f ∈ data_fields) (MANDATORY_FIELDS sample_cfg)
  /\ is_valid sample_cfg typed_titled = Ok (typed_titled, true)
  /\ is_valid sample_cfg typed_untitled = Ok (typed_untitled, false)
  /\ is_valid sample_cfg Article_new = Ok (Article_new, false).
Proof.
  assert (H : Forall (fun f => f ∈ data_fields) (MANDATORY_FIELDS sample_cfg)).
  { repeat constructor. }
  split; [exact H|].
  split; [|split].
  - exact (proj2 (proj2 (C8_is_valid sample_cfg typed_titled)) H).
  - exact (proj2 (proj2 (C8_is_valid sample_cfg typed_untitled)) H).
  - exact (proj2 (proj2 (C8_is_valid sample_cfg Article_new)) H).
Defined.

(** * Further properties of the methods *)

(** ** Blanks at the ends of a string *)

Lemma lstrip_by_suffix (p : codepoint -> bool) (s : str) :
  exists pre, s = pre ++ lstrip_by p s /\ Forall (fun x => p x = true) pre.
Proof.
  induction s as [|x s (pre & IH & Hpre)]; cbn [lstrip_by].
  - exists []. split; [reflexivity | constructor].
  - destruct (p x) eqn:Ex.
    + exists (x :: pre). split; [cbn; congruence | constructor; assumption].
    + exists []. split; [reflexivity | constructor].
Qed.

Lemma lstrip_by_head (p : codepoint -> bool) (s : str) (x : codepoint)
  (t : str) :
  lstrip_by p s = x :: t -> p x = false.
Proof.
  induction s as [|y s IH]; cbn [lstrip_by]; [discriminate|].
  destruct (p y) eqn:Ey; [exact IH|]. intros [= <- <-]. exact Ey.
Qed.

Lemma lstrip_by_id (p : codepoint -> bool) (x : codepoint) (t : str) :
  p x = false -> lstrip_by p (x :: t) = x :: t.
Proof. intros H. cbn [lstrip_by]. rewrite H. reflexivity. Qed.

Lemma lstrip_by_snoc (p : codepoint -> bool) (l : str) (x : codepoint) :
  p x = false -> lstrip_by p (l ++ [x]) = lstrip_by p l ++ [x].
Proof.
  intros Hx. induction l as [|y l IH]; cbn [app lstrip_by].
  - rewrite Hx. reflexivity.
  - destruct (p y); [exact IH | reflexivity].
Qed.

Lemma rstrip_by_cons (p : codepoint -> bool) (x : codepoint) (t : str) :
  p x = false -> rstrip_by p (x :: t) = x :: rstrip_by p t.
Proof.
  intros Hx. unfold rstrip_by. cbn [rev].
  rewrite lstrip_by_snoc by exact Hx. rewrite rev_app_distr. reflexivity.
Qed.

Lemma rstrip_by_prefix (p : codepoint -> bool) (s : str) :
  exists post, s = rstrip_by p s ++ post /\ Forall (fun x => p x = true) post.
Proof.
  unfold rstrip_by.
  destruct (lstrip_by_suffix p (rev s)) as (pre & Hs & Hpre).
  exists (rev pre). split.
  - rewrite <- rev_app_distr, <- Hs, rev_involutive. reflexivity.
  - apply Forall_rev. exact Hpre.
Qed.

Lemma rstrip_by_idemp (p : codepoint -> bool) (s : str) :
  rstrip_by p (rstrip_by p s) = rstrip_by p s.
Proof.
  unfold rstrip_by. rewrite rev_involutive.
  destruct (lstrip_by p (rev s)) as [|x t] eqn:E; [reflexivity|].
  rewrite lstrip_by_id by (eapply lstrip_by_head; exact E). reflexivity.
Qed.

(** [strip] cuts blanks, and only blanks, from both ends. *)
Lemma strip_infix (s : str) :
  exists pre post,
    s = pre ++ strip s ++ post
    /\ Forall (fun x => isspace x = true) pre
    /\ Forall (fun x => isspace x = true) post.
Proof.
  unfold strip.
  destruct (lstrip_by_suffix isspace s) as (pre & Hs & Hpre).
  destruct (rstrip_by_prefix isspace (lstrip_by isspace s))
    as (post & Hr & Hpost).
  exists pre, post. split; [|split; assumption].
  rewrite <- Hr. exact Hs.
Qed.

Lemma strip_idemp (s : str) : strip (strip s) = strip s.
Proof.
  unfold strip at 1.
  assert (Hl : lstrip_by isspace (strip s) = strip s).
  { unfold strip.
    destruct (lstrip_by isspace s) as [|x t] eqn:E; [reflexivity|].
    pose proof (lstrip_by_head _ _ _ _ E) as Hx.
    rewrite rstrip_by_cons by exact Hx. apply lstrip_by_id. exact Hx. }
  rewrite Hl. unfold strip. apply rstrip_by_idemp.
Qed.

(** A string with a character that is no blank is not stripped away. *)
Lemma strip_nonempty (s : str) (x : codepoint) :
  In x s -> isspace x = false -> strip s <> [].
Proof.
  intros Hin Hx Hs.
  destruct (strip_infix s) as (pre & post & E & Hpre & Hpost).
  rewrite Hs in E. cbn [app] in E. rewrite E in Hin.
  apply in_app_or in Hin.
  rewrite !Forall_forall in *.
  destruct Hin as [Hin|Hin];
    [apply list_elem_of_In, Hpre in Hin | apply list_elem_of_In, Hpost in Hin];
    congruence.
Qed.

(** A string whose first and last characters are no blanks is its own
    [strip]. *)
Lemma strip_id (s : str) :
  (forall x, head s = Some x -> isspace x = false) ->
  (forall x, last s = Some x -> isspace x = false) ->
  strip s = s.
Proof.
  intros Hh Hl. unfold strip.
  destruct s as [|x t]; [reflexivity|].
  rewrite lstrip_by_id by (apply Hh; reflexivity).
  unfold rstrip_by.
  destruct (rev (x :: t)) as [|y u] eqn:E.
  { apply (f_equal (@List.length _)) in E. rewrite length_rev in E.
    discriminate. }
  assert (Hy : last (x :: t) = Some y).
  { rewrite <- (rev_involutive (x :: t)), E. cbn [rev]. apply last_snoc. }
  rewrite lstrip_by_id by (apply Hl; exact Hy).
  rewrite <- E. apply rev_involutive.
Qed.

(** ** Titles in normal form *)

(** Replacing one character by another is a map. *)
Lemma replace_subst (c d : N) (s : list N) :
  replace [c] [d] s = List.map (fun x => if c =? x then d else x) s.
Proof.
  induction s as [|x t IH]; [reflexivity|].
  unfold replace in *.
  cbn [replace_go is_prefix List.map List.length Nat.sub].
  destruct (c =? x); cbn [andb app]; rewrite IH; reflexivity.
Qed.

Lemma collapse_spaces_cons (x y : codepoint) (t : str) :
  collapse_spaces (x :: y :: t)
  = if (x =? 0x20) && (y =? 0x20) then collapse_spaces (y :: t)
    else x :: collapse_spaces (y :: t).
Proof.
  change (collapse_spaces (x :: y :: t))
    with (if x =? 0x20
          then if y =? 0x20 then collapse_spaces (y :: t)
               else x :: collapse_spaces (y :: t)
          else x :: collapse_spaces (y :: t)).
  destruct (x =? 0x20), (y =? 0x20); reflexivity.
Qed.

Lemma collapse_spaces_one (x : codepoint) : collapse_spaces [x] = [x].
Proof. cbn. destruct (x =? 0x20); reflexivity. Qed.

Lemma collapse_spaces_head (t : str) :
  forall x, head (collapse_spaces (x :: t)) = Some x.
Proof.
  induction t as [|y t IH]; intros x.
  - rewrite collapse_spaces_one. reflexivity.
  - rewrite collapse_spaces_cons.
    destruct ((x =? 0x20) && (y =? 0x20)) eqn:E; [|reflexivity].
    apply andb_true_iff in E as [Ex Ey].
    apply N.eqb_eq in Ex. apply N.eqb_eq in Ey. rewrite IH. congruence.
Qed.

Lemma collapse_spaces_In (s : str) (x : codepoint) :
  In x (collapse_spaces s) -> In x s.
Proof.
  induction s as [|y t IH]; [tauto|].
  destruct t as [|z t'].
  - rewrite collapse_spaces_one. tauto.
  - rewrite collapse_spaces_cons.
    destruct ((y =? 0x20) && (z =? 0x20)).
    + intros H. right. apply IH, H.
    + intros [H|H]; [left; exact H | right; apply IH, H].
Qed.

(** After [re.sub(' +', ' ', s)] no two spaces are side by side. *)
Lemma collapse_spaces_single (s : str) :
  has_double_space (collapse_spaces s) = false.
Proof.
  induction s as [|x t IH]; [reflexivity|].
  destruct t as [|y t'].
  - rewrite collapse_spaces_one. reflexivity.
  - rewrite collapse_spaces_cons.
    destruct ((x =? 0x20) && (y =? 0x20)) eqn:E; [exact IH|].
    pose proof (collapse_spaces_head t' y) as Hy.
    destruct (collapse_spaces (y :: t')) as [|z u]; [reflexivity|].
    injection Hy as ->. cbn [has_double_space] in *. rewrite E, IH.
    reflexivity.
Qed.

Lemma has_double_space_tail (x : codepoint) (s : str) :
  has_double_space (x :: s) = false -> has_double_space s = false.
Proof.
  destruct s as [|y t]; [reflexivity|]. cbn [has_double_space].
  intros H. apply orb_false_iff in H as [_ H]. exact H.
Qed.

Lemma has_double_space_infix (pre m post : str) :
  has_double_space (pre ++ m ++ post) = false -> has_double_space m = false.
Proof.
  induction pre as [|x pre IH]; cbn [app].
  - revert post. induction m as [|a m IHm]; intros post H; [reflexivity|].
    destruct m as [|b m']; [reflexivity|].
    cbn [app has_double_space] in *.
    apply orb_false_iff in H as [H1 H2]. rewrite H1. cbn [orb].
    apply (IHm post). exact H2.
  - intros H. apply IH. eapply has_double_space_tail. exact H.
Qed.

Lemma strip_In (s : str) (x : codepoint) : In x (strip s) -> In x s.
Proof.
  intros H. destruct (strip_infix s) as (pre & post & E & _ & _).
  rewrite E. apply in_or_app. right. apply in_or_app. left. exact H.
Qed.

(** What [_extract_title] does when it succeeds. *)
Lemma extract_title_inv (cfg : settings) (row : list node)
  (self self' : Article) :
  _extract_title cfg row self = Ok self' ->
  exists (t desc : str) (self1 : Article),
    _extract_article_type cfg row self = Ok (self1, Some t)
    /\ self' = set_title
                 (Some (strip (collapse_spaces
                    (replace [0x9] (lit " ")
                       (replace [0xA] (lit " ")
                          (capitalize (lower t) ++ lit " " ++ desc))))))
                 self1.
Proof.
  unfold _extract_title. intros H.
  destruct (_extract_article_type cfg row self) as [[self1 t]|] eqn:E;
    cbn [rbind] in H; [|discriminate].
  destruct t as [t|]; cbn [deref rbind] in H; [|discriminate].
  destruct (py_index row 0); cbn [rbind] in H; [|discriminate].
  destruct (py_index _ 1); cbn [rbind] in H; [|discriminate].
  injection H as <-. eexists t, _, self1. split; reflexivity.
Qed.

(** The shape of a title that [_extract_title] builds. *)
Lemma extract_title_normal (cfg : settings) (row : list node)
  (self self' : Article) :
  _extract_title cfg row self = Ok self' ->
  exists ti,
    title self' = Some ti
    /\ ~ In 0xA ti /\ ~ In 0x9 ti
    /\ has_double_space ti = false
    /\ trimmed ti.
Proof.
  intros H.
  destruct (extract_title_inv cfg row self self' H)
    as (t & desc & self1 & _ & ->).
  eexists. split; [reflexivity|].
  set (raw := capitalize (lower t) ++ lit " " ++ desc).
  assert (Hno : forall x, In x (replace [0x9] (lit " ")
                                  (replace [0xA] (lit " ") raw)) ->
                          x <> 0xA /\ x <> 0x9).
  { intros x Hx. change (lit " ") with [0x20] in Hx.
    rewrite !replace_subst in Hx.
    apply in_map_iff in Hx as (y & <- & Hy).
    apply in_map_iff in Hy as (z & <- & _).
    destruct (0xA =? z) eqn:Ez.
    - cbn. split; discriminate.
    - apply N.eqb_neq in Ez.
      destruct (0x9 =? z) eqn:Ez'; [split; discriminate|].
      apply N.eqb_neq in Ez'. split; congruence. }
  split; [|split; [|split]].
  - intros Hin. apply strip_In, collapse_spaces_In, Hno in Hin.
    destruct Hin as [Hin _]. congruence.
  - intros Hin. apply strip_In, collapse_spaces_In, Hno in Hin.
    destruct Hin as [_ Hin]. congruence.
  - destruct (strip_infix (collapse_spaces
               (replace [0x9] (lit " ") (replace [0xA] (lit " ") raw))))
      as (pre & post & E & _ & _).
    eapply (has_double_space_infix pre _ post). rewrite <- E.
    apply collapse_spaces_single.
  - apply strip_idemp.
Qed.

(** X4: a title that [_extract_title] builds has no newline and no tab,
    no two spaces side by side, and no blank at either end. *)
Theorem title_normal_form (cfg : settings) (row : list node)
  (self self' : Article) :
  _extract_title cfg row self = Ok self' ->
  exists ti,
    title self' = Some ti
    /\ ~ In 0xA ti /\ ~ In 0x9 ti
    /\ has_double_space ti = false
    /\ trimmed ti.
Proof. apply extract_title_normal. Qed.

Lemma title_normal_form_witness :
  exists self',
    _extract_title sample_cfg (select "tr" table_email_only) Article_new
    = Ok self'
    /\ title self' = Some (lit "Hg privind aprobarea unui acord")
    /\ exists ti,
         title self' = Some ti
         /\ ~ In 0xA ti /\ ~ In 0x9 ti
         /\ has_double_space ti = false
         /\ trimmed ti.
Proof.
  destruct (_extract_title sample_cfg (select "tr" table_email_only)
              Article_new) as [self'|] eqn:E;
    [|vm_compute in E; discriminate].
  exists self'. split; [reflexivity|]. split.
  - vm_compute in E. injection E as <-. reflexivity.
  - exact (title_normal_form sample_cfg _ Article_new self' E).
Defined.

(** ** [_sanitize] and [_do_magic] on their own *)

(** X1: what [_sanitize] returns has no newline and no zero-width space,
    and [_sanitize] leaves it as it is, unless nothing is left of the
    string: the empty string is turned into [None]. *)
Theorem sanitize_clean (s t : str) :
  _sanitize s = Some t ->
  ~ In 0xA t /\ ~ In 0x200B t
  /\ _sanitize t = match t with [] => None | _ => Some t end.
Proof.
  intros H.
  assert (Hs : s <> []) by (intros ->; discriminate).
  rewrite sanitize_nonempty in H by exact Hs. injection H as <-.
  unfold sanitize_spec.
  split; [|split].
  - intros Hin. apply filter_In in Hin as [_ Hin]. discriminate.
  - intros Hin. apply filter_In in Hin as [_ Hin]. discriminate.
  - destruct (List.filter _ s) as [|x u] eqn:E; [reflexivity|].
    rewrite sanitize_nonempty by discriminate. unfold sanitize_spec.
    rewrite <- E, filter_filter. f_equal. apply filter_ext. intros y.
    destruct (negb (y =? 0xA) && negb (y =? 0x200B)); reflexivity.
Qed.

Lemma sanitize_clean_witness :
  _sanitize ([0xA; 0x200B] ++ lit "HG" ++ [0xA]) = Some (lit "HG")
  /\ _sanitize (lit "HG") = Some (lit "HG")
  /\ _sanitize [0xA; 0x200B] = Some []
  /\ _sanitize [] = None.
Proof.
  split; [reflexivity|]. split; [|split; [reflexivity|]].
  - exact (proj2 (proj2 (sanitize_clean ([0xA; 0x200B] ++ lit "HG" ++ [0xA])
                           (lit "HG") eq_refl))).
  - exact (proj2 (proj2 (sanitize_clean [0xA; 0x200B] [] eq_refl))).
Defined.

Lemma is_prefix_magic (a : codepoint) (t : str) :
  is_prefix MAGIC_TEXT (a :: t)
  = (0x162 =? a) && match t with
                    | b :: _ => 0x102 =? b
                    | [] => false
                    end.
Proof.
  unfold MAGIC_TEXT. cbn [is_prefix]. destruct t as [|b t']; [reflexivity|].
  rewrite andb_true_r. reflexivity.
Qed.

Lemma replace_magic_head (a : codepoint) (t : str) :
  exists u,
    replace MAGIC_TEXT MAGIC_NEW (a :: t)
    = (if is_prefix MAGIC_TEXT (a :: t) then 0x54 else a) :: u.
Proof.
  destruct (is_prefix MAGIC_TEXT (a :: t)) eqn:E.
  - rewrite is_prefix_magic in E. apply andb_true_iff in E as [Ea Eb].
    destruct t as [|b t']; [discriminate|].
    apply N.eqb_eq in Ea. apply N.eqb_eq in Eb. subst.
    change (0x162 :: 0x102 :: t') with (MAGIC_TEXT ++ t').
    rewrite replace_match by discriminate. eexists. reflexivity.
  - rewrite replace_nomatch by exact E. eexists. reflexivity.
Qed.

Lemma has_magic_pair_cons (a b : codepoint) (t : str) :
  has_magic_pair (a :: b :: t)
  = (a =? 0x162) && (b =? 0x102) || has_magic_pair (b :: t).
Proof. reflexivity. Qed.

(** After the replacement the two letters are nowhere side by side. *)
Lemma replace_magic_clean (n : nat) :
  forall s : str,
    (List.length s <= n)%nat ->
    has_magic_pair (replace MAGIC_TEXT MAGIC_NEW s) = false.
Proof.
  induction n as [|n IH]; intros s Hlen.
  - destruct s; [reflexivity | cbn in Hlen; lia].
  - destruct s as [|a t]; [reflexivity|]. cbn [List.length] in Hlen.
    destruct (is_prefix MAGIC_TEXT (a :: t)) eqn:E.
    + rewrite is_prefix_magic in E. apply andb_true_iff in E as [Ea Eb].
      destruct t as [|b t']; [discriminate|].
      apply N.eqb_eq in Ea. apply N.eqb_eq in Eb. subst.
      change (0x162 :: 0x102 :: t') with (MAGIC_TEXT ++ t').
      rewrite replace_match by discriminate.
      cbn [List.length] in Hlen.
      pose proof (IH t' ltac:(lia)) as Ht.
      destruct (replace MAGIC_TEXT MAGIC_NEW t') as [|c u] eqn:Er;
        [reflexivity|].
      change (has_magic_pair (MAGIC_NEW ++ c :: u))
        with (has_magic_pair (c :: u)).
      exact Ht.
    + rewrite replace_nomatch by exact E.
      pose proof (IH t ltac:(lia)) as Ht.
      destruct t as [|b t']; [reflexivity|].
      destruct (replace_magic_head b t') as [u Hu].
      rewrite Hu in *. rewrite has_magic_pair_cons, Ht, orb_false_r.
      rewrite is_prefix_magic in E.
      destruct (is_prefix MAGIC_TEXT (b :: t')).
      * rewrite andb_false_r. reflexivity.
      * rewrite (N.eqb_sym a), (N.eqb_sym b). exact E.
Qed.

(** Without the two letters side by side nothing is replaced. *)
Lemma replace_magic_absent (s : str) :
  has_magic_pair s = false -> replace MAGIC_TEXT MAGIC_NEW s = s.
Proof.
  induction s as [|a t IH]; [reflexivity|].
  intros H. rewrite replace_nomatch.
  - rewrite IH; [reflexivity|].
    destruct t as [|b t']; [reflexivity|].
    rewrite has_magic_pair_cons in H.
    apply orb_false_iff in H as [_ H]. exact H.
  - rewrite is_prefix_magic. destruct t as [|b t'].
    + apply andb_false_r.
    + rewrite has_magic_pair_cons in H. apply orb_false_iff in H as [H _].
      rewrite (N.eqb_sym 0x162), (N.eqb_sym 0x102). exact H.
Qed.

(** X2: on text [_do_magic] never fails.  The empty string gives [None];
    any other string comes back with every U+0162 U+0102 replaced by "TA",
    so that the two letters are nowhere side by side in the result, and a
    string without them comes back unchanged. *)
Theorem do_magic_text (s : str) :
  is_text s ->
  _do_magic (Some s)
  = Ok (match s with
        | [] => None
        | _ => Some (replace MAGIC_TEXT MAGIC_NEW s)
        end)
  /\ has_magic_pair (replace MAGIC_TEXT MAGIC_NEW s) = false
  /\ (has_magic_pair s = false -> replace MAGIC_TEXT MAGIC_NEW s = s).
Proof.
  intros Hs. split; [|split].
  - destruct s as [|c t] eqn:E; [reflexivity|].
    apply do_magic_spec; [discriminate | exact Hs].
  - apply (replace_magic_clean (List.length s)). reflexivity.
  - apply replace_magic_absent.
Qed.

Lemma do_magic_text_witness :
  is_text label_misencoded
  /\ _do_magic (Some label_misencoded) = Ok (Some (lit "HOTARARE"))
  /\ _do_magic (Some (lit "HOTARARE")) = Ok (Some (lit "HOTARARE")).
Proof.
  assert (H1 : is_text label_misencoded) by (repeat constructor).
  assert (H2 : is_text (lit "HOTARARE")) by (repeat constructor).
  split; [exact H1|]. split.
  - exact (proj1 (do_magic_text label_misencoded H1)).
  - exact (proj1 (do_magic_text (lit "HOTARARE") H2)).
Defined.

(** ** Type codes come from the table *)

(** [_extract_article_type] on a text label, whatever the table holds. *)
Lemma extract_article_type_total (cfg : settings) (row : list node)
  (self : Article) (r0 a0 : node) :
  py_index row 0 = Ok r0 ->
  py_index (find_all "a" r0) 0 = Ok a0 ->
  is_text (text a0) ->
  exists t : option str,
    _extract_article_type cfg row self = Ok (set_article_type t self, t)
    /\ (forall code, t = Some code -> exists k, TYPES cfg !! k = Some code)
    /\ (forall o, TYPES cfg !! lit "OTHER" = Some o -> o <> [] ->
          exists code, t = Some code /\ code <> [])
    /\ (t = None -> TYPES cfg !! lit "OTHER" = None).
Proof.
  intros Hr0 Ha0 Htext. unfold _extract_article_type.
  rewrite Hr0. cbn [rbind]. rewrite Ha0. cbn [rbind].
  apply is_text_strip in Htext.
  set (label := strip (text a0)) in *.
  assert (Hfinal : forall (t : option str),
    (t = TYPES cfg !! lit "OTHER"
     \/ (truthy_str t = true /\ exists k, TYPES cfg !! k = t)) ->
    (forall code, t = Some code -> exists k, TYPES cfg !! k = Some code)
    /\ (forall o, TYPES cfg !! lit "OTHER" = Some o -> o <> [] ->
          exists code, t = Some code /\ code <> [])
    /\ (t = None -> TYPES cfg !! lit "OTHER" = None)).
  { intros t [-> | [Ht [k Hk]]].
    - split; [|split].
      + intros code H. eauto.
      + intros o -> Ho. eauto.
      + auto.
    - destruct t as [[|c u]|]; try discriminate.
      split; [|split].
      + intros code [= <-]. eauto.
      + intros o _ _. exists (c :: u). split; [reflexivity | discriminate].
      + discriminate. }
  assert (Hget : forall key : option str,
    truthy_str (dict_get (TYPES cfg) key) = true ->
    exists k, TYPES cfg !! k = dict_get (TYPES cfg) key).
  { intros [k|]; cbn [dict_get]; [eauto | discriminate]. }
  cbn [set_article_type article_type].
  destruct (truthy_str (dict_get (TYPES cfg) (_sanitize label))) eqn:E1;
    cbn [negb].
  { eexists. split; [reflexivity|]. apply Hfinal. right. auto. }
  assert (Hmagic : exists l', _do_magic (_sanitize label) = Ok l').
  { destruct label as [|c u] eqn:El; [cbn; eauto|].
    rewrite sanitize_nonempty by discriminate.
    destruct (sanitize_spec (c :: u)) as [|c' u'] eqn:Es; [cbn; eauto|].
    rewrite do_magic_spec; [eauto | discriminate|].
    rewrite <- Es. apply is_text_filter. exact Htext. }
  destruct Hmagic as [l' ->]. cbn [rbind].
  destruct (truthy_str (dict_get (TYPES cfg) l')) eqn:E2; cbn [negb].
  { eexists. split; [reflexivity|]. apply Hfinal. right. auto. }
  eexists. split; [reflexivity|]. apply Hfinal. left. reflexivity.
Qed.

(** X3: for a text label [_extract_article_type] never fails, whatever
    the type table holds.  A type code that it sets is an entry of the
    table, never the label itself; with a non-empty entry for "OTHER" the
    type is always set and not empty; and the type is [None] only when
    "OTHER" has no entry. *)
Theorem article_type_from_table (cfg : settings) (row : list node)
  (self : Article) (r0 a0 : node) :
  py_index row 0 = Ok r0 ->
  py_index (find_all "a" r0) 0 = Ok a0 ->
  is_text (text a0) ->
  exists t : option str,
    _extract_article_type cfg row self = Ok (set_article_type t self, t)
    /\ (forall code, t = Some code -> exists k, TYPES cfg !! k = Some code)
    /\ (forall o, TYPES cfg !! lit "OTHER" = Some o -> o <> [] ->
          exists code, t = Some code /\ code <> [])
    /\ (t = None -> TYPES cfg !! lit "OTHER" = None).
Proof. apply extract_article_type_total. Qed.

Lemma article_type_from_table_witness :
  is_text (lit "AVIZ")
  /\ exists t,
       _extract_article_type sample_cfg
         (select "tr" (two_rows (lit "AVIZ") [lit "Publicat"])) Article_new
       = Ok (set_article_type t Article_new, t)
       /\ t = Some (lit "OTHER").
Proof.
  assert (H : is_text (lit "AVIZ")) by (repeat constructor).
  split; [exact H|].
  destruct (article_type_from_table sample_cfg
              (select "tr" (two_rows (lit "AVIZ") [lit "Publicat"]))
              Article_new (first_row (lit "AVIZ"))
              (link "/node/1" (lit "AVIZ")) eq_refl eq_refl H)
    as (t & Ht & _ & _ & _).
  exists t. split; [exact Ht|].
  vm_compute in Ht. inversion Ht. reflexivity.
Defined.

(** ** Contact keys and values *)

Lemma lang_seq_inv (r1 r2 : regex) (w : str) :
  lang (Seq r1 r2) w ->
  exists w1 w2, w = w1 ++ w2 /\ lang r1 w1 /\ lang r2 w2.
Proof. intros H. inversion H; subst. eauto. Qed.

Lemma lang_group_inv (n : nat) (r : regex) (w : str) :
  lang (Group n r) w -> lang r w.
Proof. intros H. inversion H; subst. assumption. Qed.

(** No decimal digit is a blank. *)
Lemma decimal_not_space (x : codepoint) :
  isdecimal x = true -> isspace x = false.
Proof.
  intros Hd. destruct (isspace x) eqn:E; [|reflexivity]. exfalso.
  unfold isspace in E.
  repeat (apply orb_true_iff in E as [E|E]);
    repeat match goal with
           | H : _ && _ = true |- _ => apply andb_true_iff in H as [? ?]
           | H : (_ <=? _) = true |- _ => apply N.leb_le in H
           | H : (_ =? _) = true |- _ => apply N.eqb_eq in H
           end; subst; try discriminate.
  - assert (Hx : x = 9 \/ x = 10 \/ x = 11 \/ x = 12 \/ x = 13) by lia.
    repeat (destruct Hx as [-> | Hx]); try subst x; discriminate.
  - assert (Hx : x = 28 \/ x = 29 \/ x = 30 \/ x = 31 \/ x = 32) by lia.
    repeat (destruct Hx as [-> | Hx]); try subst x; discriminate.
  - assert (Hx : x = 0x2000 \/ x = 0x2001 \/ x = 0x2002 \/ x = 0x2003
                 \/ x = 0x2004 \/ x = 0x2005 \/ x = 0x2006 \/ x = 0x2007
                 \/ x = 0x2008 \/ x = 0x2009 \/ x = 0x200A) by lia.
    repeat (destruct Hx as [-> | Hx]); try subst x; discriminate.
Qed.

(** What [captured] gives is the stripped first group of a match: not
    empty, and without blanks at its ends. *)
Lemma captured_Some (rx : regex) (paragraph v : str) :
  captured rx paragraph = Some v ->
  v <> [] /\ trimmed v /\ is_Some (re_search rx paragraph).
Proof.
  unfold captured. intros H.
  destruct (re_search rx paragraph) as [aux|]; [|discriminate].
  destruct (group 1 aux) as [g|]; [|discriminate].
  destruct (strip g) as [|x u] eqn:E; [discriminate|].
  injection H as <-. split; [discriminate|]. split; [|eauto].
  unfold trimmed. rewrite <- E. apply strip_idemp.
Qed.

(** A match whose first group holds a character that is no blank is
    captured. *)
Lemma captured_match (rx : regex) (paragraph : str) (aux : match_obj) :
  re_search rx paragraph = Some aux ->
  mandatory rx 1 = true ->
  (forall body g, (1%nat, body) ∈ group_bodies rx -> lang body g ->
     exists x, In x g /\ isspace x = false) ->
  is_Some (captured rx paragraph).
Proof.
  intros Hm Hmand Hbody. unfold captured. rewrite Hm.
  apply re_search_sound in Hm as (_ & _ & Hman & Hgrp).
  destruct (Hman 1%nat Hmand) as [g Hg]. rewrite Hg.
  destruct (Hgrp 1%nat g ltac:(lia) Hg) as (body & Hin & Hl).
  destruct (Hbody body g Hin Hl) as (x & Hx & Hsp).
  pose proof (strip_nonempty g x Hx Hsp) as Hne.
  destruct (strip g); [congruence | eauto].
Qed.

Lemma number_group_digit (g : str) :
  lang (Plus (Group 2 (Seq (Plus rx_d) rx_num_sep))) g ->
  exists x, In x g /\ isspace x = false.
Proof.
  intros H. apply lang_seq_inv in H as (w1 & w2 & -> & H1 & _).
  apply lang_group_inv, lang_seq_inv in H1 as (d & w3 & -> & Hd & _).
  apply lang_plus_chr in Hd as [Hne Hall].
  destruct d as [|x d]; [congruence|].
  exists x. split; [left; reflexivity|].
  apply decimal_not_space. apply Forall_cons in Hall as [Hx _]. exact Hx.
Qed.

Lemma email_captured (paragraph : str) :
  is_Some (re_search EMAIL_REGX paragraph) ->
  is_Some (captured EMAIL_REGX paragraph).
Proof.
  intros [aux Hm]. apply (captured_match _ _ aux Hm eq_refl).
  intros body g Hin Hl.
  cbn [group_bodies app EMAIL_REGX] in Hin.
  repeat (apply elem_of_cons in Hin as [Hin|Hin]; [try discriminate|]);
    [|apply elem_of_nil in Hin; contradiction].
  injection Hin as ->.
  apply lang_seq_inv in Hl as (w1 & w2 & -> & _ & Hl).
  apply lang_seq_inv in Hl as (a & w3 & -> & Ha & _).
  apply lang_chr_inv in Ha as (x & -> & Hx).
  apply N.eqb_eq in Hx. subst x.
  exists 64. split; [|reflexivity].
  apply in_or_app. right. left. reflexivity.
Qed.

Lemma tel_captured (paragraph : str) :
  is_Some (re_search TEL_REGX paragraph) ->
  is_Some (captured TEL_REGX paragraph).
Proof.
  intros [aux Hm]. apply (captured_match _ _ aux Hm eq_refl).
  intros body g Hin Hl.
  cbn in Hin.
  repeat (apply elem_of_cons in Hin as [Hin|Hin]; [try discriminate|]);
    [|apply elem_of_nil in Hin; contradiction].
  injection Hin as ->. apply number_group_digit. exact Hl.
Qed.

Lemma fax_captured (paragraph : str) :
  is_Some (re_search FAX_REGX paragraph) ->
  is_Some (captured FAX_REGX paragraph).
Proof.
  intros [aux Hm]. apply (captured_match _ _ aux Hm eq_refl).
  intros body g Hin Hl.
  cbn in Hin.
  repeat (apply elem_of_cons in Hin as [Hin|Hin]; [try discriminate|]);
    [|apply elem_of_nil in Hin; contradiction].
  injection Hin as ->. apply number_group_digit. exact Hl.
Qed.

Lemma addr_captured (paragraph : str) :
  is_Some (re_search ADDR_REGX paragraph) ->
  is_Some (captured ADDR_REGX paragraph).
Proof.
  intros [aux Hm]. apply (captured_match _ _ aux Hm eq_refl).
  intros body g Hin Hl.
  cbn in Hin.
  repeat (apply elem_of_cons in Hin as [Hin|Hin]; [try discriminate|]);
    [|apply elem_of_nil in Hin; contradiction].
  injection Hin as ->.
  apply lang_seq_inv in Hl as (w1 & w2 & -> & _ & Hl).
  apply lang_seq_inv in Hl as (ws & w3 & -> & _ & Hl).
  apply lang_seq_inv in Hl as (wc & w4 & -> & Hc & _).
  apply lang_seq_inv in Hc as (c & w5 & -> & Hc & _).
  apply lang_chr_inv in Hc as (x & -> & Hx).
  apply N.eqb_eq in Hx. subst x.
  exists 99. split; [|reflexivity].
  apply in_or_app. right. apply in_or_app. right. left. reflexivity.
Qed.

(** The mapping that [_build_contact] stores, key by key. *)
Lemma build_contact_lookups (row : list node) (self : Article)
  (last p : node) :
  py_index row (-1) = Ok last ->
  py_index (select "p" last) 0 = Ok p ->
  exists c : gmap string str,
    _build_contact row self = Ok (set_contact (Some c) self)
    /\ forall key,
         c !! key
         = if bool_decide (key = "email"%string)
           then captured EMAIL_REGX (text p)
           else if bool_decide (key = "tel"%string)
           then captured TEL_REGX (text p)
           else if bool_decide (key = "fax"%string)
           then captured FAX_REGX (text p)
           else if bool_decide (key = "addr"%string)
           then captured ADDR_REGX (text p)
           else None.
Proof.
  intros Hlast Hp. unfold _build_contact.
  rewrite Hlast. cbn [rbind]. rewrite Hp. cbn [rbind].
  unfold CONTACT_REGX. cbn [contact_loop].
  rewrite (contact_step_spec _ _ "email" EMAIL_REGX eq_refl). cbn [rbind].
  rewrite (contact_step_spec _ _ "tel" TEL_REGX eq_refl). cbn [rbind].
  rewrite (contact_step_spec _ _ "fax" FAX_REGX eq_refl). cbn [rbind].
  rewrite (contact_step_spec _ _ "addr" ADDR_REGX eq_refl). cbn [rbind].
  change (string_lower "email") with "email"%string.
  change (string_lower "tel") with "tel"%string.
  change (string_lower "fax") with "fax"%string.
  change (string_lower "addr") with "addr"%string.
  eexists. split; [reflexivity|]. intros key.
  destruct (captured EMAIL_REGX (text p)), (captured TEL_REGX (text p)),
    (captured FAX_REGX (text p)), (captured ADDR_REGX (text p));
    repeat case_bool_decide; simplify_map_eq; reflexivity.
Qed.

(** X5: given the contact paragraph, the mapping of [_build_contact] has
    a key exactly for the patterns that match the paragraph: the first group
    of a match of one of the four patterns always holds a character that is
    no blank, so that the branch for a match with an empty capture is never
    taken.  Every stored value is non-empty and has no blank at its ends. *)
Theorem contact_keys_iff_match (row : list node) (self : Article)
  (last p : node) :
  py_index row (-1) = Ok last ->
  py_index (select "p" last) 0 = Ok p ->
  exists c : gmap string str,
    _build_contact row self = Ok (set_contact (Some c) self)
    /\ (is_Some (c !! "email"%string)
        <-> is_Some (re_search EMAIL_REGX (text p)))
    /\ (is_Some (c !! "tel"%string)
        <-> is_Some (re_search TEL_REGX (text p)))
    /\ (is_Some (c !! "fax"%string)
        <-> is_Some (re_search FAX_REGX (text p)))
    /\ (is_Some (c !! "addr"%string)
        <-> is_Some (re_search ADDR_REGX (text p)))
    /\ (forall key v, c !! key = Some v -> v <> [] /\ trimmed v).
Proof.
  intros Hlast Hp.
  destruct (build_contact_lookups row self last p Hlast Hp) as (c & Hc & Hl).
  exists c. split; [exact Hc|].
  assert (Hiff : forall rx,
    (is_Some (re_search rx (text p)) -> is_Some (captured rx (text p))) ->
    is_Some (captured rx (text p)) <-> is_Some (re_search rx (text p))).
  { intros rx H. split; [|exact H].
    intros [v Hv]. apply captured_Some in Hv as (_ & _ & Hv). exact Hv. }
  split; [|split; [|split; [|split]]].
  - rewrite Hl. cbn. apply Hiff, email_captured.
  - rewrite Hl. cbn. apply Hiff, tel_captured.
  - rewrite Hl. cbn. apply Hiff, fax_captured.
  - rewrite Hl. cbn. apply Hiff, addr_captured.
  - intros key v Hv. rewrite Hl in Hv.
    repeat case_bool_decide; try discriminate;
      apply captured_Some in Hv as (Hne & Htr & _); auto.
Qed.

Lemma contact_keys_iff_match_witness :
  exists c : gmap string str,
    _build_contact (select "tr" table_email_only) Article_new
    = Ok (set_contact (Some c) Article_new)
    /\ is_Some (c !! "email"%string)
    /\ c !! "tel"%string = None.
Proof.
  destruct (contact_keys_iff_match (select "tr" table_email_only)
              Article_new
              (second_row
                 [lit "Propuneri la adresa dce@mae.ro, pana la 20 ianuarie 2020";
                  lit "Publicat la 1 ianuarie 2020"])
              (paragraph
                 (lit "Propuneri la adresa dce@mae.ro, pana la 20 ianuarie 2020"))
              eq_refl eq_refl)
    as (c & Hc & He & Ht & _).
  exists c. split; [exact Hc|]. split.
  - apply He. vm_compute. eauto.
  - destruct (c !! "tel"%string) as [v|] eqn:Ev; [|reflexivity].
    assert (H : is_Some (re_search TEL_REGX
                 (text (paragraph
                    (lit "Propuneri la adresa dce@mae.ro, pana la 20 ianuarie 2020")))))
      by (apply Ht; eauto).
    destruct H as [m Hm]. vm_compute in Hm. discriminate.
Defined.

(** ** Documents of two rows *)

(** The result of [_build_documents] on two rows or more whose first
    cells hold a link with an href. *)
Lemma documents_two_rows_eq (cfg : settings) (r0 r1 : node)
  (rest : list node) (self : Article) (td0 a0 td1 a1 : node) (h0 h1 : str) :
  find "td" r0 = Some td0 -> find "a" td0 = Some a0 ->
  attr "href" a0 = Ok h0 ->
  find "td" r1 = Some td1 -> find "a" td1 = Some a1 ->
  attr "href" a1 = Ok h1 ->
  _build_documents cfg (r0 :: r1 :: rest) self
  = match text td1 with
    | [] => Raise TypeError
    | _ =>
      Ok (set_documents
            (Some [ {| doc_type :=
                         match article_type self with
                         | Some (c :: t) => Some ((c :: t) ++ ANEXA)
                         | _ => None
                         end;
                       doc_url := MAE_BASE_URL cfg ++ h0 |};
                    {| doc_type :=
                         Some (sanitize_spec (text td1) ++ ANEXA);
                       doc_url := MAE_BASE_URL cfg ++ h1 |} ])
            self)
    end.
Proof.
  intros Htd0 Ha0 Hh0 Htd1 Ha1 Hh1.
  unfold _build_documents.
  change (2 <=? List.length (r0 :: r1 :: rest))%nat with true. cbv iota.
  rewrite py_index_cons_1, py_index_cons_0. cbn [rbind].
  rewrite Htd1. cbn [deref rbind].
  destruct (text td1) as [|c t] eqn:Et; [reflexivity|].
  rewrite sanitize_nonempty by discriminate. cbn [rbind].
  rewrite Htd0. cbn [deref rbind]. rewrite Ha0. cbn [deref rbind].
  rewrite Hh0. cbn [rbind]. rewrite Ha1. cbn [deref rbind].
  rewrite Hh1. cbn [rbind].
  assert (Ht2 : truthy_str (Some (sanitize_spec (c :: t) ++ ANEXA)) = true).
  { destruct (sanitize_spec (c :: t)); reflexivity. }
  rewrite Ht2.
  destruct (article_type self) as [[|c' t']|]; reflexivity.
Qed.

(** X6: when the first cells of the first two rows hold a link with an
    href, [_build_documents] looks at nothing else: further rows are
    ignored.  A second row whose first cell has no text at all is a
    [TypeError] ([_sanitize] gives [None] for it); otherwise there are
    exactly two documents: the type with " - ANEXA" (or [None] without a
    type) and the sanitized text of that cell with " - ANEXA", each with
    the base url followed by the href of its row. *)
Theorem documents_two_rows (cfg : settings) (r0 r1 : node)
  (rest : list node) (self : Article) (td0 a0 td1 a1 : node) (h0 h1 : str) :
  find "td" r0 = Some td0 -> find "a" td0 = Some a0 ->
  attr "href" a0 = Ok h0 ->
  find "td" r1 = Some td1 -> find "a" td1 = Some a1 ->
  attr "href" a1 = Ok h1 ->
  _build_documents cfg (r0 :: r1 :: rest) self
  = match text td1 with
    | [] => Raise TypeError
    | _ =>
      Ok (set_documents
            (Some [ {| doc_type :=
                         match article_type self with
                         | Some (c :: t) => Some ((c :: t) ++ ANEXA)
                         | _ => None
                         end;
                       doc_url := MAE_BASE_URL cfg ++ h0 |};
                    {| doc_type :=
                         Some (sanitize_spec (text td1) ++ ANEXA);
                       doc_url := MAE_BASE_URL cfg ++ h1 |} ])
            self)
    end.
Proof. apply documents_two_rows_eq. Qed.

Lemma documents_two_rows_witness :
  _build_documents sample_cfg
    (select "tr" table_email_only ++ [first_row (lit "x")])
    (set_article_type (Some (lit "HG")) Article_new)
  = Ok (set_documents
          (Some [ {| doc_type := Some (lit "HG - ANEXA");
                     doc_url := lit "http://www.mae.ro/node/1" |};
                  {| doc_type := Some (lit "Nota de fundamentare - ANEXA");
                     doc_url := lit "http://www.mae.ro/node/2" |} ])
          (set_article_type (Some (lit "HG")) Article_new)).
Proof.
  exact (documents_two_rows sample_cfg
           (first_row (lit "HOTARARE"))
           (second_row
              [lit "Propuneri la adresa dce@mae.ro, pana la 20 ianuarie 2020";
               lit "Publicat la 1 ianuarie 2020"])
           [first_row (lit "x")]
           (set_article_type (Some (lit "HG")) Article_new)
           (Tag "td" ∅
              [link "/node/1" (lit "HOTARARE");
               link "/node/1" (lit "privind   aprobarea unui acord" ++ [0xA])])
           (link "/node/1" (lit "HOTARARE"))
           (Tag "td" ∅ [Text (lit "Nota de fundamentare"); link "/node/2" []])
           (link "/node/2" [])
           (lit "/node/1") (lit "/node/2")
           eq_refl eq_refl eq_refl eq_refl eq_refl eq_refl).
Defined.

(** ** What the date pattern captures *)

Lemma alpha_not_space (x : codepoint) :
  is_ascii_alpha x = true -> isspace x = false.
Proof.
  unfold is_ascii_alpha, isspace. intros H.
  apply orb_true_iff in H as [H|H]; apply andb_true_iff in H as [H1 H2];
    apply N.leb_le in H1; apply N.leb_le in H2;
    repeat match goal with
           | |- context [?a <=? ?b] =>
             destruct (N.leb_spec a b); try lia
           | |- context [?a =? ?b] =>
             destruct (N.eqb_spec a b); try lia
           end; reflexivity.
Qed.

Lemma decimal_value_digit (x : codepoint) (d : N) :
  decimal_value x = Some d -> d <= 9.
Proof.
  unfold decimal_value.
  destruct (List.find _ decimal_zeros) as [z|] eqn:E; [|discriminate].
  apply find_some in E as [_ E]. intros [= <-].
  apply andb_true_iff in E as [E1 E2].
  apply N.leb_le in E1. apply N.ltb_lt in E2. lia.
Qed.

Lemma int_digits_bound (w : str) :
  forall acc n,
    int_digits acc w = Some n -> n < (acc + 1) * 10 ^ N.of_nat (List.length w).
Proof.
  induction w as [|x w IH]; intros acc n H; cbn [int_digits] in H.
  - injection H as <-. cbn. lia.
  - destruct (decimal_value x) as [d|] eqn:Ed; [|discriminate].
    apply decimal_value_digit in Ed. apply IH in H.
    cbn [List.length]. rewrite Nat2N.inj_succ, N.pow_succ_r'.
    eapply N.lt_le_trans; [exact H|].
    rewrite (N.mul_comm 10), N.mul_assoc.
    apply N.mul_le_mono_r. lia.
Qed.

(** X7: for every match of the date pattern, the month token is a run of
    ASCII letters (also the empty run), the year is read from exactly four
    digits and is at most 9999, and [_build_date_from_match] ends in one of
    three ways: [None], when the token has no entry in the month table or
    the entry is 0; a date that is a date of the calendar, its month the
    entry of the token; or a [ValueError] or [OverflowError], of the [date]
    constructor or of [int] on a day of too many digits.  It never fails for
    any other reason. *)
Theorem build_date_outcomes (cfg : settings) (s : str) (m : match_obj) :
  re_search DATE_REGX s = Some m ->
  exists (g2 g3 : str) (y : Z),
    group 2 m = Some g2 /\ Forall (fun x => is_ascii_alpha x = true) g2
    /\ group 3 m = Some g3 /\ List.length g3 = 4%nat
    /\ py_int g3 = Ok y /\ (0 <= y <= 9999)%Z
    /\ match _build_date_from_match cfg m with
       | Ok None =>
         MONTHS cfg !! g2 = None \/ MONTHS cfg !! g2 = Some 0%Z
       | Ok (Some dt) =>
         valid_date dt /\ MONTHS cfg !! g2 = Some (month dt) /\ year dt = y
       | Raise e => e = ValueError \/ e = OverflowError
       end.
Proof.
  intros H.
  destruct (build_date_from_match_spec cfg s m H)
    as (g1 & g2 & g3 & d & y & H1 & H2 & H3 & Hd & Hy & Hb).
  apply re_search_sound in H as (_ & _ & _ & Hbody).
  destruct (Hbody 2%nat g2 ltac:(lia) H2) as (b2 & Hb2 & Hl2).
  destruct (Hbody 3%nat g3 ltac:(lia) H3) as (b3 & Hb3 & Hl3).
  cbn in Hb2, Hb3.
  repeat (apply elem_of_cons in Hb2 as [Hb2|Hb2]; [try discriminate|]);
    [|apply elem_of_nil in Hb2; contradiction].
  repeat (apply elem_of_cons in Hb3 as [Hb3|Hb3]; [try discriminate|]);
    [|apply elem_of_nil in Hb3; contradiction].
  injection Hb2 as ->. injection Hb3 as ->.
  apply lang_star_chr in Hl2.
  apply (lang_repeat_chr 4) in Hl3 as [Hlen3 Hall3].
  assert (Hstrip : strip g2 = g2).
  { apply strip_id; intros x Hx; apply alpha_not_space;
      rewrite Forall_forall in Hl2; apply Hl2.
    - destruct g2; [discriminate|]. injection Hx as ->. left.
    - apply last_Some in Hx as [l' ->]. apply elem_of_app. right. left. }
  assert (Hy9 : y < 10000).
  { unfold py_int in Hy. destruct g3 as [|x g3']; [discriminate|].
    destruct (int_digits 0 (x :: g3')) as [n|] eqn:En; [|discriminate].
    destruct (int_too_long (x :: g3')); [discriminate|].
    injection Hy as Hy. apply N2Z.inj in Hy. subst n.
    apply int_digits_bound in En. rewrite Hlen3 in En. exact En. }
  exists g2, g3, (Z.of_N y).
  repeat (split; [assumption || lia|]).
  rewrite Hb, Hstrip.
  destruct (MONTHS cfg !! g2) as [mon|] eqn:Em; [|left; reflexivity].
  destruct (Z.eqb_spec mon 0) as [->|Hmon]; [right; reflexivity|].
  destruct (int_too_long g1); [left; reflexivity|].
  destruct (date_new (Z.of_N y) mon (Z.of_N d)) as [dt|e] eqn:Edt;
    cbn [rbind].
  - split; [eapply date_new_valid; exact Edt|].
    unfold date_new in Edt.
    repeat match type of Edt with
           | (if ?b then _ else _) = _ => destruct b; [|discriminate]
           end.
    injection Edt as <-. split; reflexivity.
  - unfold date_new in Edt.
    repeat match type of Edt with
           | (if ?b then _ else _) = _ => destruct b
           end; try discriminate; injection Edt as <-; auto.
Qed.

Lemma build_date_outcomes_witness :
  exists m,
    re_search DATE_REGX (lit "Publicat la 30 februarie 2020") = Some m
    /\ _build_date_from_match sample_cfg m = Raise ValueError
    /\ exists (g2 g3 : str) (y : Z),
         group 2 m = Some g2 /\ Forall (fun x => is_ascii_alpha x = true) g2
         /\ group 3 m = Some g3 /\ List.length g3 = 4%nat
         /\ py_int g3 = Ok y /\ (0 <= y <= 9999)%Z
         /\ match _build_date_from_match sample_cfg m with
            | Ok None =>
              MONTHS sample_cfg !! g2 = None
              \/ MONTHS sample_cfg !! g2 = Some 0%Z
            | Ok (Some dt) =>
              valid_date dt /\ MONTHS sample_cfg !! g2 = Some (month dt)
              /\ year dt = y
            | Raise e => e = ValueError \/ e = OverflowError
            end.
Proof.
  destruct (re_search DATE_REGX (lit "Publicat la 30 februarie 2020"))
    as [m|] eqn:E; [|vm_compute in E; discriminate].
  exists m. split; [reflexivity|]. split.
  - vm_compute in E. injection E as <-. vm_compute. reflexivity.
  - exact (build_date_outcomes sample_cfg _ m E).
Defined.

(** ** The steps of the constructor *)

(** A constructed record went through the seven steps. *)
Lemma Article_init_inv (cfg : settings) (table : node) (art : Article) :
  Article_init cfg table = Ok art ->
  exists s1 t s2 s3 s4 s5 s6,
    _extract_article_type cfg (select "tr" table) Article_new = Ok (s1, t)
    /\ _extract_title cfg (select "tr" table) s1 = Ok s2
    /\ _build_contact (select "tr" table) s2 = Ok s3
    /\ _build_documents cfg (select "tr" table) s3 = Ok s4
    /\ _extract_published_at cfg (select "tr" table) s4 = Ok s5
    /\ _extract_feedback_days cfg (select "tr" table) s5 = Ok s6
    /\ _generate_id s6 = Ok art.
Proof.
  unfold Article_init. intros H.
  destruct (_extract_article_type cfg _ Article_new) as [[s1 t]|] eqn:E1;
    cbn [rbind] in H; [|discriminate].
  destruct (_extract_title cfg _ s1) as [s2|] eqn:E2; cbn [rbind] in H;
    [|discriminate].
  destruct (_build_contact _ s2) as [s3|] eqn:E3; cbn [rbind] in H;
    [|discriminate].
  destruct (_build_documents cfg _ s3) as [s4|] eqn:E4; cbn [rbind] in H;
    [|discriminate].
  destruct (_extract_published_at cfg _ s4) as [s5|] eqn:E5;
    cbn [rbind] in H; [|discriminate].
  destruct (_extract_feedback_days cfg _ s5) as [s6|] eqn:E6;
    cbn [rbind] in H; [|discriminate].
  exists s1, t, s2, s3, s4, s5, s6. auto 10.
Qed.

(** A type code that [_extract_article_type] returns is an entry of the
    type table. *)
Lemma extract_article_type_entry (cfg : settings) (row : list node)
  (self self' : Article) (code : str) :
  _extract_article_type cfg row self = Ok (self', Some code) ->
  exists k, TYPES cfg !! k = Some code.
Proof.
  unfold _extract_article_type. intros H.
  destruct (py_index row 0); cbn [rbind] in H; [|discriminate].
  destruct (py_index _ 0); cbn [rbind] in H; [|discriminate].
  cbn [set_article_type article_type] in H.
  assert (Hget : forall key : option str,
            dict_get (TYPES cfg) key = Some code ->
            exists k, TYPES cfg !! k = Some code).
  { intros [k|]; cbn [dict_get]; [eauto | discriminate]. }
  destruct (negb (truthy_str (dict_get (TYPES cfg) _))).
  - destruct (_do_magic _) as [l'|]; cbn [rbind] in H; [|discriminate].
    destruct (negb (truthy_str (dict_get (TYPES cfg) l'))).
    + injection H as _ H. eauto.
    + injection H as _ H. eauto.
  - injection H as _ H. eauto.
Qed.

(** What [_build_documents] does when it succeeds. *)
Lemma build_documents_inv (cfg : settings) (row : list node)
  (self self' : Article) :
  _build_documents cfg row self = Ok self' ->
  exists r0 r1 rest td0 a0 h0 td1 a1 h1,
    row = r0 :: r1 :: rest
    /\ find "td" r0 = Some td0 /\ find "a" td0 = Some a0
    /\ attr "href" a0 = Ok h0
    /\ find "td" r1 = Some td1 /\ find "a" td1 = Some a1
    /\ attr "href" a1 = Ok h1
    /\ text td1 <> []
    /\ self' = set_documents
                 (Some [ {| doc_type :=
                              match article_type self with
                              | Some (c :: t) => Some ((c :: t) ++ ANEXA)
                              | _ => None
                              end;
                            doc_url := MAE_BASE_URL cfg ++ h0 |};
                         {| doc_type :=
                              Some (sanitize_spec (text td1) ++ ANEXA);
                            doc_url := MAE_BASE_URL cfg ++ h1 |} ])
                 self.
Proof.
  intros H. destruct row as [|r0 [|r1 rest]].
  - discriminate H.
  - exfalso. revert H. apply raises_not_ok, build_documents_one_row.
  - destruct (find "td" r0) as [td0|] eqn:Htd0.
    2:{ unfold _build_documents in H.
        change (2 <=? List.length (r0 :: r1 :: rest))%nat with true in H.
        cbv iota in H. rewrite py_index_cons_1, py_index_cons_0 in H.
        cbn [rbind] in H.
        destruct (find "td" r1); cbn [deref rbind] in H; [|discriminate].
        destruct (_sanitize _); cbn [rbind] in H; [|discriminate].
        rewrite Htd0 in H. discriminate. }
    destruct (find "td" r1) as [td1|] eqn:Htd1.
    2:{ unfold _build_documents in H.
        change (2 <=? List.length (r0 :: r1 :: rest))%nat with true in H.
        cbv iota in H. rewrite py_index_cons_1 in H. cbn [rbind] in H.
        rewrite Htd1 in H. discriminate. }
    destruct (find "a" td0) as [a0|] eqn:Ha0.
    2:{ unfold _build_documents in H.
        change (2 <=? List.length (r0 :: r1 :: rest))%nat with true in H.
        cbv iota in H. rewrite py_index_cons_1, py_index_cons_0 in H.
        cbn [rbind] in H. rewrite Htd1 in H. cbn [deref rbind] in H.
        destruct (_sanitize _); cbn [rbind] in H; [|discriminate].
        rewrite Htd0 in H. cbn [deref rbind] in H. rewrite Ha0 in H.
        discriminate. }
    destruct (attr "href" a0) as [h0|] eqn:Hh0.
    2:{ unfold _build_documents in H.
        change (2 <=? List.length (r0 :: r1 :: rest))%nat with true in H.
        cbv iota in H. rewrite py_index_cons_1, py_index_cons_0 in H.
        cbn [rbind] in H. rewrite Htd1 in H. cbn [deref rbind] in H.
        destruct (_sanitize _); cbn [rbind] in H; [|discriminate].
        rewrite Htd0 in H. cbn [deref rbind] in H. rewrite Ha0 in H.
        cbn [deref rbind] in H. rewrite Hh0 in H. discriminate. }
    destruct (find "a" td1) as [a1|] eqn:Ha1.
    2:{ unfold _build_documents in H.
        change (2 <=? List.length (r0 :: r1 :: rest))%nat with true in H.
        cbv iota in H. rewrite py_index_cons_1, py_index_cons_0 in H.
        cbn [rbind] in H. rewrite Htd1 in H. cbn [deref rbind] in H.
        destruct (_sanitize _); cbn [rbind] in H; [|discriminate].
        rewrite Htd0 in H. cbn [deref rbind] in H. rewrite Ha0 in H.
        cbn [deref rbind] in H. rewrite Hh0 in H. cbn [rbind] in H.
        rewrite Ha1 in H. discriminate. }
    destruct (attr "href" a1) as [h1|] eqn:Hh1.
    2:{ unfold _build_documents in H.
        change (2 <=? List.length (r0 :: r1 :: rest))%nat with true in H.
        cbv iota in H. rewrite py_index_cons_1, py_index_cons_0 in H.
        cbn [rbind] in H. rewrite Htd1 in H. cbn [deref rbind] in H.
        destruct (_sanitize _); cbn [rbind] in H; [|discriminate].
        rewrite Htd0 in H. cbn [deref rbind] in H. rewrite Ha0 in H.
        cbn [deref rbind] in H. rewrite Hh0 in H. cbn [rbind] in H.
        rewrite Ha1 in H. cbn [deref rbind] in H. rewrite Hh1 in H.
        discriminate. }
    rewrite (documents_two_rows_eq cfg r0 r1 rest self td0 a0 td1 a1 h0 h1)
      in H by assumption.
    destruct (text td1) as [|c u] eqn:Et; [discriminate|]. injection H as <-.
    exists r0, r1, rest, td0, a0, h0, td1, a1, h1. rewrite Et.
    repeat (split; [reflexivity || assumption || discriminate|]).
    reflexivity.
Qed.

(** What [_build_contact] does when it succeeds. *)
Lemma build_contact_inv (row : list node) (self self' : Article) :
  _build_contact row self = Ok self' ->
  exists last p c,
    py_index row (-1) = Ok last
    /\ py_index (select "p" last) 0 = Ok p
    /\ self' = set_contact (Some c) self.
Proof.
  unfold _build_contact. intros H.
  destruct (py_index row (-1)) as [last|] eqn:Hlast; cbn [rbind] in H;
    [|discriminate].
  destruct (py_index _ 0) as [p|] eqn:Hp; cbn [rbind] in H; [|discriminate].
  destruct (contact_loop _ _ _) as [c|]; cbn [rbind] in H; [|discriminate].
  injection H as <-. exists last, p, c. auto.
Qed.

(** What [_extract_published_at] does when it succeeds. *)
Lemma extract_published_at_inv (cfg : settings) (row : list node)
  (self self' : Article) :
  _extract_published_at cfg row self = Ok self' ->
  exists last p,
    py_index row (-1) = Ok last
    /\ py_index (find_all "p" last) (-1) = Ok p
    /\ ((re_search DATE_REGX (text p) = None /\ self' = self)
        \/ exists m d,
             re_search DATE_REGX (text p) = Some m
             /\ _build_date_from_match cfg m = Ok d
             /\ self' = set_published_at d self).
Proof.
  unfold _extract_published_at. intros H.
  destruct (py_index row (-1)) as [last|] eqn:Hlast; cbn [rbind] in H;
    [|discriminate].
  destruct (py_index (find_all "p" last) (-1)) as [p|] eqn:Hp;
    cbn [rbind] in H; [|discriminate].
  exists last, p. split; [reflexivity|]. split; [exact Hp|].
  destruct (re_search DATE_REGX (text p)) as [m|].
  - destruct (_build_date_from_match cfg m) as [d|] eqn:Hd;
      cbn [rbind] in H; [|discriminate].
    injection H as <-. right. exists m, d. auto.
  - injection H as <-. left. auto.
Qed.

(** A date that [_build_date_from_match] gives is one the constructor of
    dates accepted. *)
Lemma build_date_valid (cfg : settings) (m : match_obj) (dt : date) :
  _build_date_from_match cfg m = Ok (Some dt) -> valid_date dt.
Proof.
  unfold _build_date_from_match. intros H.
  destruct (group 2 m); cbn [deref rbind] in H; [|discriminate].
  destruct (MONTHS cfg !! _) as [mon|]; [|discriminate].
  destruct (mon =? 0)%Z; [discriminate|].
  destruct (group 3 m); cbn [deref rbind] in H; [|discriminate].
  destruct (py_int _) as [y|]; cbn [rbind] in H; [|discriminate].
  destruct (group 1 m); cbn [deref rbind] in H; [|discriminate].
  destruct (py_int _) as [d|]; cbn [rbind] in H; [|discriminate].
  destruct (date_new y mon d) as [dt'|] eqn:E; cbn [rbind] in H;
    [|discriminate].
  injection H as <-. exact (date_new_valid _ _ _ _ E).
Qed.

(** What [_generate_id] does when it succeeds. *)
Lemma generate_id_inv (self self' : Article) :
  _generate_id self = Ok self' ->
  (truthy_str (article_type self) && truthy_str (title self) = false
   /\ self' = self)
  \/ exists ty ti b,
       article_type self = Some ty /\ ty <> []
       /\ title self = Some ti /\ ti <> []
       /\ utf8_encode ti = Ok b
       /\ self' = set_identifier (Some (ty ++ lit "-" ++ md5_hexdigest b))
                    self.
Proof.
  unfold _generate_id. intros H.
  destruct (article_type self) as [[|c ty]|] eqn:Hty;
    cbn [truthy_str andb] in H;
    try (injection H as <-; left; split; reflexivity).
  destruct (title self) as [[|c' ti]|] eqn:Hti;
    cbn [truthy_str andb] in H;
    try (injection H as <-; left; split; reflexivity).
  cbn [deref rbind] in H.
  destruct (utf8_encode (c' :: ti)) as [b|] eqn:Hb; cbn [rbind] in H;
    [|discriminate].
  injection H as <-. right. exists (c :: ty), (c' :: ti), b.
  repeat (split; [reflexivity || discriminate || assumption|]). reflexivity.
Qed.

(** ** The shape of an identifier *)

Lemma le_bytes_length (n : nat) (x : N) : List.length (le_bytes n x) = n.
Proof. unfold le_bytes. rewrite List.length_map, List.length_seq. reflexivity. Qed.

Lemma le_bytes_byte (n : nat) (x : N) :
  Forall (fun b => b < 256) (le_bytes n x).
Proof.
  unfold le_bytes. apply List.Forall_forall. intros b Hb.
  apply in_map_iff in Hb as (i & <- & _). apply N.mod_lt. discriminate.
Qed.

Lemma md5_length (msg : bytes) : List.length (md5 msg) = 16%nat.
Proof.
  unfold md5. destruct (md5_blocks _ _ _) as [[[a b] c] d].
  rewrite !List.length_app, !le_bytes_length. reflexivity.
Qed.

Lemma md5_byte (msg : bytes) : Forall (fun b => b < 256) (md5 msg).
Proof.
  unfold md5. destruct (md5_blocks _ _ _) as [[[a b] c] d].
  repeat (apply Forall_app; split); apply le_bytes_byte.
Qed.

Lemma hex_digit_hex (n : N) : n < 16 -> is_hex_digit (hex_digit n) = true.
Proof.
  intros H. unfold hex_digit, is_hex_digit.
  destruct (n <? 10) eqn:E.
  - apply N.ltb_lt in E. apply orb_true_iff. left.
    apply andb_true_iff. split; apply N.leb_le; lia.
  - apply N.ltb_ge in E. apply orb_true_iff. right.
    apply andb_true_iff. split; apply N.leb_le; lia.
Qed.

Lemma hexlify_length (b : bytes) :
  List.length (hexlify b) = (2 * List.length b)%nat.
Proof.
  unfold hexlify. induction b as [|x b IH]; [reflexivity|].
  cbn [flat_map List.app List.length]. rewrite IH. lia.
Qed.

Lemma hexlify_hex (b : bytes) :
  Forall (fun x => x < 256) b ->
  Forall (fun c => is_hex_digit c = true) (hexlify b).
Proof.
  unfold hexlify. induction 1 as [|x b Hx _ IH]; [constructor|].
  cbn [flat_map List.app].
  constructor; [apply hex_digit_hex; ndiv|].
  constructor; [apply hex_digit_hex; ndiv|]. exact IH.
Qed.

(** X8: an identifier that [_generate_id] sets is the type, a dash and
    thirty-two hexadecimal digits in lower case; the type in it is not
    empty. *)
Theorem identifier_shape (self self' : Article) (i : str) :
  _generate_id self = Ok self' ->
  identifier self = None ->
  identifier self' = Some i ->
  exists ty h,
    article_type self' = Some ty /\ ty <> []
    /\ i = ty ++ lit "-" ++ h
    /\ List.length h = 32%nat
    /\ Forall (fun c => is_hex_digit c = true) h.
Proof.
  intros H Hnone Hi.
  destruct (generate_id_inv self self' H)
    as [[_ ->] | (ty & ti & b & Hty & Hne & _ & _ & _ & ->)];
    [congruence|].
  cbn [set_identifier identifier article_type] in *.
  injection Hi as <-. exists ty, (md5_hexdigest b).
  split; [exact Hty|]. split; [exact Hne|]. split; [reflexivity|].
  unfold md5_hexdigest. split.
  - rewrite hexlify_length, md5_length. reflexivity.
  - apply hexlify_hex, md5_byte.
Qed.

Lemma identifier_shape_witness :
  exists self' i,
    _generate_id typed_titled = Ok self'
    /\ identifier self' = Some i
    /\ exists ty h,
         article_type self' = Some ty /\ ty <> []
         /\ i = ty ++ lit "-" ++ h
         /\ List.length h = 32%nat
         /\ Forall (fun c => is_hex_digit c = true) h.
Proof.
  destruct (_generate_id typed_titled) as [self'|] eqn:E;
    [|vm_compute in E; discriminate].
  destruct (identifier self') as [i|] eqn:Ei.
  - exists self', i. split; [reflexivity|]. split; [exact Ei|].
    exact (identifier_shape typed_titled self' i E eq_refl Ei).
  - vm_compute in E. injection E as <-. discriminate Ei.
Defined.

(** ** The constructed record *)

(** Each attribute of a constructed record is the one its step left, and
    the steps before a step have not set what that step sets. *)
Lemma Article_init_fields (cfg : settings) (table : node) (art : Article) :
  Article_init cfg table = Ok art ->
  exists s1 t s2 s3 s4 s5 s6,
    (_extract_article_type cfg (select "tr" table) Article_new = Ok (s1, t)
     /\ _extract_title cfg (select "tr" table) s1 = Ok s2
     /\ _build_contact (select "tr" table) s2 = Ok s3
     /\ _build_documents cfg (select "tr" table) s3 = Ok s4
     /\ _extract_published_at cfg (select "tr" table) s4 = Ok s5
     /\ _extract_feedback_days cfg (select "tr" table) s5 = Ok s6
     /\ _generate_id s6 = Ok art)
    /\ (article_type art = article_type s2
        /\ title art = title s2
        /\ contact art = contact s3
        /\ documents art = documents s4
        /\ published_at art = published_at s5
        /\ feedback_days art = feedback_days s6)
    /\ (article_type s3 = article_type s2
        /\ article_type s6 = article_type s2
        /\ title s6 = title s2
        /\ published_at s4 = None
        /\ feedback_days s5 = None
        /\ published_at s6 = published_at s5
        /\ identifier s6 = None).
Proof.
  intros H.
  destruct (Article_init_inv cfg table art H)
    as (s1 & t & s2 & s3 & s4 & s5 & s6 & E1 & E2 & E3 & E4 & E5 & E6 & E7).
  exists s1, t, s2, s3, s4, s5, s6.
  split; [auto 10|].
  pose proof (extract_article_type_keeps _ _ _ _ _ E1) as F1.
  destruct (extract_title_keeps _ _ _ _ E2) as (t' & ti & F2).
  destruct (build_contact_keeps _ _ _ E3) as (c & F3).
  destruct (build_documents_keeps _ _ _ _ E4) as (d & F4).
  subst s1 s2 s3 s4.
  destruct (extract_published_at_inv _ _ _ _ E5)
    as (last & p & _ & _ & [[_ ->] | (m & dd & _ & _ & ->)]);
    (destruct (extract_feedback_days_inv _ _ _ _ E6)
      as [-> | (last' & q & pub & fd & _ & _ & _ & _ & ->)]);
    (destruct (generate_id_inv _ _ E7)
      as [[_ ->] | (ty & tt & b & _ & _ & _ & _ & _ & ->)]);
    cbn; auto 20.
Qed.

(** X9: a record is constructed only from a row-group of two rows or
    more whose first cells each hold a link with an href, the second of them
    with some text; its documents are then exactly two, the first named
    after its type and the second after that text, both with " - ANEXA",
    each with the base url followed by the href of its row. *)
Theorem constructed_documents (cfg : settings) (table : node)
  (art : Article) :
  Article_init cfg table = Ok art ->
  exists r0 r1 rest td0 a0 h0 td1 a1 h1 ty,
    select "tr" table = r0 :: r1 :: rest
    /\ find "td" r0 = Some td0 /\ find "a" td0 = Some a0
    /\ attr "href" a0 = Ok h0
    /\ find "td" r1 = Some td1 /\ find "a" td1 = Some a1
    /\ attr "href" a1 = Ok h1
    /\ text td1 <> []
    /\ article_type art = Some ty
    /\ documents art
       = Some [ {| doc_type := match ty with
                               | [] => None
                               | _ => Some (ty ++ ANEXA)
                               end;
                   doc_url := MAE_BASE_URL cfg ++ h0 |};
                {| doc_type := Some (sanitize_spec (text td1) ++ ANEXA);
                   doc_url := MAE_BASE_URL cfg ++ h1 |} ].
Proof.
  intros H.
  destruct (Article_init_fields cfg table art H)
    as (s1 & t & s2 & s3 & s4 & s5 & s6
        & (E1 & E2 & E3 & E4 & E5 & E6 & E7)
        & (Gty & Gti & Gc & Gd & Gp & Gf)
        & (G3 & _)).
  destruct (build_documents_inv cfg _ s3 s4 E4)
    as (r0 & r1 & rest & td0 & a0 & h0 & td1 & a1 & h1
        & Hrow & Htd0 & Ha0 & Hh0 & Htd1 & Ha1 & Hh1 & Ht & Hs4).
  destruct (extract_title_inv cfg _ s1 s2 E2)
    as (ty & desc & self1 & Hty1 & Hs2).
  apply extract_article_type_keeps in Hty1.
  assert (Hty : article_type s2 = Some ty).
  { rewrite Hs2, Hty1. reflexivity. }
  exists r0, r1, rest, td0, a0, h0, td1, a1, h1, ty.
  repeat (split; [assumption|]).
  split; [rewrite Gty; exact Hty|].
  rewrite Gd, Hs4. cbn [documents set_documents]. rewrite G3, Hty.
  destruct ty; reflexivity.
Qed.

Lemma constructed_documents_witness :
  exists art,
    Article_init sample_cfg table_email_only = Ok art
    /\ documents art
       = Some [ {| doc_type := Some (lit "HG - ANEXA");
                   doc_url := lit "http://www.mae.ro/node/1" |};
                {| doc_type := Some (lit "Nota de fundamentare - ANEXA");
                   doc_url := lit "http://www.mae.ro/node/2" |} ].
Proof.
  destruct (Article_init sample_cfg table_email_only) as [art|] eqn:E;
    [|vm_compute in E; discriminate].
  exists art. split; [reflexivity|].
  destruct (constructed_documents sample_cfg table_email_only art E)
    as (r0 & r1 & rest & td0 & a0 & h0 & td1 & a1 & h1 & ty
        & Hrow & Htd0 & Ha0 & Hh0 & Htd1 & Ha1 & Hh1 & _ & Hty & ->).
  injection Hrow as <- <- _.
  injection Htd0 as <-. injection Ha0 as <-. injection Hh0 as <-.
  injection Htd1 as <-. injection Ha1 as <-. injection Hh1 as <-.
  vm_compute in E. injection E as <-. injection Hty as <-.
  vm_compute. reflexivity.
Defined.

(** X10: on a constructed record the type is set and is an entry of the
    type table; the title is set, without newline or tab, without two
    spaces side by side and without a blank at its ends; the contact is a
    mapping whose keys are among email, tel, fax and addr and whose values
    are non-empty and trimmed; a publication date is a date of the
    calendar; and the identifier is set exactly when type and title are
    both non-empty. *)
Theorem constructed_fields (cfg : settings) (table : node) (art : Article) :
  Article_init cfg table = Ok art ->
  (exists ty k, article_type art = Some ty /\ TYPES cfg !! k = Some ty)
  /\ (exists ti,
        title art = Some ti
        /\ ~ In 0xA ti /\ ~ In 0x9 ti
        /\ has_double_space ti = false
        /\ trimmed ti)
  /\ (exists c : gmap string str,
        contact art = Some c
        /\ forall key v,
             c !! key = Some v ->
             key ∈ ["email"; "tel"; "fax"; "addr"]%string
             /\ v <> [] /\ trimmed v)
  /\ (forall d, published_at art = Some d -> valid_date d)
  /\ (is_Some (identifier art)
      <-> truthy_str (article_type art) && truthy_str (title art) = true).
Proof.
  intros H.
  destruct (Article_init_fields cfg table art H)
    as (s1 & t & s2 & s3 & s4 & s5 & s6
        & (E1 & E2 & E3 & E4 & E5 & E6 & E7)
        & (Gty & Gti & Gc & Gd & Gp & Gf)
        & (G3 & G6ty & G6ti & G4 & G5 & G6 & Gid)).
  split; [|split; [|split; [|split]]].
  - destruct (extract_title_inv cfg _ s1 s2 E2)
      as (ty & desc & self1 & Hty1 & Hs2).
    destruct (extract_article_type_entry cfg _ s1 self1 ty Hty1) as [k Hk].
    apply extract_article_type_keeps in Hty1.
    exists ty, k. split; [|exact Hk].
    rewrite Gty, Hs2, Hty1. reflexivity.
  - rewrite Gti. exact (extract_title_normal cfg _ s1 s2 E2).
  - destruct (build_contact_inv _ s2 s3 E3) as (last & p & c & Hlast & Hp & Hs3).
    destruct (build_contact_lookups _ s2 last p Hlast Hp) as (c' & Hc' & Hl).
    rewrite E3 in Hc'. injection Hc' as Hc'. rewrite Hs3 in Hc'.
    apply (f_equal contact) in Hc'. cbn [contact set_contact] in Hc'.
    injection Hc' as <-.
    exists c. split; [rewrite Gc, Hs3; reflexivity|].
    intros key v Hv. rewrite Hl in Hv.
    repeat case_bool_decide; try discriminate; subst key;
      (split; [set_solver|]);
      apply captured_Some in Hv as (Hne & Htr & _); auto.
  - intros d Hd. rewrite Gp in Hd.
    destruct (extract_published_at_inv _ _ _ _ E5)
      as (last & p & _ & _ & [[_ ->] | (m & dd & _ & Hb & ->)]).
    + congruence.
    + cbn [published_at set_published_at] in Hd. subst dd.
      exact (build_date_valid cfg m d Hb).
  - rewrite Gty, Gti, <- G6ty, <- G6ti.
    destruct (generate_id_inv _ _ E7)
      as [[Hf ->] | (ty & ti & b & Hty & Hne & Hti & Hne' & _ & ->)].
    + rewrite Gid, Hf. split; [intros [? ?]|]; discriminate.
    + cbn [identifier set_identifier]. rewrite Hty, Hti.
      destruct ty; [congruence|]. destruct ti; [congruence|].
      split; [reflexivity | eauto].
Qed.

Lemma constructed_fields_witness :
  exists art,
    Article_init sample_cfg table_email_only = Ok art
    /\ article_type art = Some (lit "HG")
    /\ title art = Some (lit "Hg privind aprobarea unui acord")
    /\ is_Some (identifier art)
    /\ (forall d, published_at art = Some d -> valid_date d).
Proof.
  destruct (Article_init sample_cfg table_email_only) as [art|] eqn:E;
    [|vm_compute in E; discriminate].
  exists art.
  destruct (constructed_fields sample_cfg table_email_only art E)
    as (_ & _ & _ & Hp & Hid).
  split; [reflexivity|].
  assert (Hty : article_type art = Some (lit "HG")).
  { vm_compute in E. injection E as <-. reflexivity. }
  assert (Hti : title art = Some (lit "Hg privind aprobarea unui acord")).
  { vm_compute in E. injection E as <-. reflexivity. }
  split; [exact Hty|]. split; [exact Hti|]. split; [|exact Hp].
  apply Hid. rewrite Hty, Hti. reflexivity.
Defined.

(** ** One paragraph in the trailing cell *)

Lemma py_index_single {A} (x : A) :
  py_index [x] 0 = Ok x /\ py_index [x] (-1) = Ok x.
Proof. split; reflexivity. Qed.

(** X11: when the trailing cell of the last row has one paragraph, that
    paragraph is read both for the publication date and for the deadline:
    a constructed record has either no publication date and no feedback
    days, or a publication date and zero feedback days. *)
Theorem single_paragraph_window (cfg : settings) (table : node)
  (art : Article) (last p : node) :
  Article_init cfg table = Ok art ->
  py_index (select "tr" table) (-1) = Ok last ->
  find_all "p" last = [p] ->
  (published_at art = None /\ feedback_days art = None)
  \/ (exists d, published_at art = Some d /\ feedback_days art = Some 0%Z).
Proof.
  intros H Hlast Hps.
  destruct (Article_init_fields cfg table art H)
    as (s1 & t & s2 & s3 & s4 & s5 & s6
        & (E1 & E2 & E3 & E4 & E5 & E6 & E7)
        & (Gty & Gti & Gc & Gd & Gp & Gf)
        & (G3 & G6ty & G6ti & G4 & G5 & G6 & Gid)).
  rewrite Gp, Gf.
  destruct (py_index_single p) as [Hp0 Hp1]. rewrite <- Hps in Hp0, Hp1.
  unfold _extract_published_at in E5.
  rewrite Hlast in E5. cbn [rbind] in E5. rewrite Hp1 in E5. cbn [rbind] in E5.
  destruct (re_search DATE_REGX (text p)) as [m|] eqn:Hm.
  - destruct (_build_date_from_match cfg m) as [d|] eqn:Hd;
      cbn [rbind] in E5; [|discriminate].
    injection E5 as <-.
    unfold _extract_feedback_days in E6.
    rewrite Hlast in E6. cbn [rbind] in E6. rewrite Hp0 in E6.
    cbn [rbind] in E6. rewrite Hm, Hd in E6. cbn [rbind] in E6.
    destruct d as [d|].
    + cbn [published_at set_published_at] in E6. injection E6 as <-.
      right. exists d. split; [reflexivity|].
      cbn [feedback_days set_feedback_days]. unfold date_sub_days.
      f_equal. lia.
    + injection E6 as <-. left. split; [reflexivity | exact G5].
  - injection E5 as <-.
    destruct (re_search TIMEDELTA_REGX (text p)) as [dm|] eqn:Hdm.
    + exfalso.
      destruct (feedback_relative_unanchored cfg _ s4 last p dm
                  Hlast Hp0 Hm Hdm G4) as (g & n & _ & _ & Hr).
      rewrite E6 in Hr.
      destruct (int_too_long g); [discriminate|].
      destruct (Z.of_N n <=? 999999999)%Z; discriminate.
    + unfold _extract_feedback_days in E6.
      rewrite Hlast in E6. cbn [rbind] in E6. rewrite Hp0 in E6.
      cbn [rbind] in E6. rewrite Hm, Hdm in E6. cbn [rbind] in E6.
      injection E6 as <-. left. split; [exact G4 | exact G5].
Qed.

Lemma single_paragraph_window_witness :
  exists art,
    Article_init sample_cfg table_single_paragraph = Ok art
    /\ published_at art = Some {| year := 2020; month := 1; day := 1 |}
    /\ feedback_days art = Some 0%Z.
Proof.
  destruct (Article_init sample_cfg table_single_paragraph) as [art|] eqn:E;
    [|vm_compute in E; discriminate].
  exists art. split; [reflexivity|].
  destruct (single_paragraph_window sample_cfg table_single_paragraph art
              (second_row [lit "Publicat la 1 ianuarie 2020"])
              (paragraph (lit "Publicat la 1 ianuarie 2020"))
              E eq_refl eq_refl) as [[Hp _] | (d & Hp & Hf)].
  - exfalso. vm_compute in E. injection E as <-. discriminate Hp.
  - split; [|exact Hf]. vm_compute in E. injection E as <-. reflexivity.
Defined.

(** ** The answer of [is_valid] *)

Lemma is_valid_loop_app (pre post : list string) (self : Article) :
  Forall (fun g => attr_truthy self g = true) pre ->
  is_valid_loop (pre ++ post) self = is_valid_loop post self.
Proof.
  induction 1 as [|g pre Hg _ IH]; [reflexivity|].
  cbn [List.app is_valid_loop]. unfold attr_truthy in Hg.
  destruct (getattr self g) as [v|]; [|discriminate].
  cbn [rbind]. rewrite Hg. cbn [negb]. exact IH.
Qed.

(** [getattr] finds the names of [attribute_names] and no other. *)
Lemma getattr_found (self : Article) (name : string) :
  name ∈ attribute_names -> exists v, getattr self name = Ok v.
Proof.
  intros H. unfold getattr.
  repeat (case_bool_decide; [eauto|]).
  exfalso. unfold attribute_names, data_fields in H.
  repeat (apply elem_of_app in H as [H|H]);
    try (repeat (apply elem_of_cons in H as [H|H]; [contradiction|]);
         apply elem_of_nil in H; contradiction).
  - match goal with Hn : ~ _ ∈ class_names ++ _ |- _ => apply Hn end.
    apply elem_of_app. left. exact H.
  - match goal with Hn : ~ _ ∈ class_names ++ _ |- _ => apply Hn end.
    apply elem_of_app. right. exact H.
Qed.

Lemma getattr_missing (self : Article) (name : string) :
  name ∉ attribute_names -> getattr self name = Raise AttributeError.
Proof.
  intros Hn. unfold getattr.
  repeat (case_bool_decide as Hc;
          [exfalso; apply Hn; unfold attribute_names, data_fields;
           first [rewrite Hc; set_solver
                 | do 2 (apply elem_of_app; right); exact Hc]|
           clear Hc]).
  reflexivity.
Qed.

(** X12: [is_valid] stops at the first mandatory name whose attribute is
    not true: it answers [False] when the object has an attribute of that
    name, and ends in an [AttributeError] when it has none; in both cases
    the names behind it are not looked at. *)
Theorem is_valid_first_failure (cfg : settings) (self : Article)
  (pre post : list string) (f : string) :
  MANDATORY_FIELDS cfg = pre ++ f :: post ->
  Forall (fun g => attr_truthy self g = true) pre ->
  attr_truthy self f = false ->
  is_valid cfg self
  = if bool_decide (f ∈ attribute_names) then Ok (self, false)
    else Raise AttributeError.
Proof.
  intros HM Hpre Hf. unfold is_valid. rewrite HM.
  rewrite (is_valid_loop_app pre (f :: post) self Hpre).
  cbn [is_valid_loop]. unfold attr_truthy in Hf.
  case_bool_decide as Hd.
  - destruct (getattr_found self f Hd) as [v Hv].
    rewrite Hv in *. cbn [rbind]. rewrite Hf. reflexivity.
  - rewrite (getattr_missing self f Hd). reflexivity.
Qed.

Lemma is_valid_first_failure_witness :
  is_valid cfg_unknown_field Article_new = Ok (Article_new, false)
  /\ is_valid cfg_unknown_field typed_titled = Raise AttributeError
  /\ is_valid cfg_weakref typed_titled = Ok (typed_titled, false).
Proof.
  split; [|split].
  - exact (is_valid_first_failure cfg_unknown_field Article_new
             [] ["no_such_field"%string] "title" eq_refl
             (List.Forall_nil _) eq_refl).
  - refine (is_valid_first_failure cfg_unknown_field typed_titled
              ["title"%string] [] "no_such_field" eq_refl _ eq_refl).
    repeat constructor.
  - refine (is_valid_first_failure cfg_weakref typed_titled
              ["__doc__"; "__dict__"]%string ["no_such_field"%string]
              "__weakref__" eq_refl _ eq_refl).
    repeat constructor.
Defined.

(** X13: when the mandatory names are the type and the title, [is_valid]
    on a constructed record answers without error, and it answers [True]
    exactly when the record has an identifier. *)
Theorem constructed_valid_iff_identifier (cfg : settings) (table : node)
  (art : Article) :
  MANDATORY_FIELDS cfg = ["article_type"; "title"]%string ->
  Article_init cfg table = Ok art ->
  exists b,
    is_valid cfg art = Ok (art, b)
    /\ (b = true <-> is_Some (identifier art)).
Proof.
  intros HM H.
  destruct (Article_init_fields cfg table art H)
    as (s1 & t & s2 & s3 & s4 & s5 & s6
        & (E1 & E2 & E3 & E4 & E5 & E6 & E7)
        & (Gty & Gti & Gc & Gd & Gp & Gf)
        & (G3 & G6ty & G6ti & G4 & G5 & G6 & Gid)).
  exists (truthy_str (article_type art) && truthy_str (title art)).
  split.
  - rewrite is_valid_total by (rewrite HM; repeat constructor).
    rewrite HM. cbn [forallb]. unfold attr_truthy.
    change (getattr art "article_type")
      with (Ok (of_opt PStr (article_type art))).
    change (getattr art "title") with (Ok (of_opt PStr (title art))).
    destruct (article_type art) as [[|c u]|], (title art) as [[|c' u']|];
      reflexivity.
  - rewrite Gty, Gti, <- G6ty, <- G6ti.
    destruct (generate_id_inv _ _ E7)
      as [[Hf ->] | (ty & ti & b & Hty & Hne & Hti & Hne' & _ & ->)].
    + rewrite Gid, Hf. split; [|intros [? ?]]; discriminate.
    + cbn [identifier set_identifier]. rewrite Hty, Hti.
      destruct ty; [congruence|]. destruct ti; [congruence|].
      split; [eauto | reflexivity].
Qed.

Lemma constructed_valid_iff_identifier_witness :
  exists art,
    Article_init sample_cfg table_email_only = Ok art
    /\ is_valid sample_cfg art = Ok (art, true)
    /\ is_Some (identifier art).
Proof.
  destruct (Article_init sample_cfg table_email_only) as [art|] eqn:E;
    [|vm_compute in E; discriminate].
  exists art. split; [reflexivity|].
  destruct (constructed_valid_iff_identifier sample_cfg table_email_only art
              eq_refl E) as (b & Hv & Hb).
  assert (Hi : is_Some (identifier art)).
  { vm_compute in E. injection E as <-. eauto. }
  apply Hb in Hi. subst b. split; [exact Hv | apply Hb; reflexivity].
Defined.

(** ** The title with a fallback type *)

(** X14: with a non-empty entry for "OTHER" in the type table,
    [_extract_title] succeeds on every first row that holds two links of
    which the first has a text label, and leaves a type that is not empty
    and a title: the missing type that stops it otherwise cannot occur. *)
Theorem title_built_with_fallback (cfg : settings) (row : list node)
  (self : Article) (r0 a0 a1 : node) (links : list node) (o : str) :
  py_index row 0 = Ok r0 ->
  find_all "a" r0 = a0 :: a1 :: links ->
  is_text (text a0) ->
  TYPES cfg !! lit "OTHER" = Some o -> o <> [] ->
  exists self' ty ti,
    _extract_title cfg row self = Ok self'
    /\ article_type self' = Some ty /\ ty <> []
    /\ title self' = Some ti.
Proof.
  intros Hr0 Hl Htext Ho Hne.
  assert (Ha0 : py_index (find_all "a" r0) 0 = Ok a0).
  { rewrite Hl. apply py_index_cons_0. }
  destruct (extract_article_type_total cfg row self r0 a0 Hr0 Ha0 Htext)
    as (t & Ht & _ & Hother & _).
  destruct (Hother o Ho Hne) as (code & -> & Hcode).
  unfold _extract_title. rewrite Ht. cbn [rbind deref].
  rewrite Hr0. cbn [rbind]. rewrite Hl, py_index_cons_1. cbn [rbind].
  eexists _, code, _. split; [reflexivity|].
  split; [reflexivity|]. split; [exact Hcode | reflexivity].
Qed.

Lemma title_built_with_fallback_witness :
  exists self',
    _extract_title sample_cfg
      (select "tr" (two_rows (lit "AVIZ") [lit "Publicat"])) Article_new
    = Ok self'
    /\ article_type self' = Some (lit "OTHER")
    /\ title self' = Some (lit "Other privind aprobarea unui acord").
Proof.
  assert (Htext : is_text (lit "AVIZ")) by (repeat constructor).
  destruct (title_built_with_fallback sample_cfg
              (select "tr" (two_rows (lit "AVIZ") [lit "Publicat"]))
              Article_new (first_row (lit "AVIZ"))
              (link "/node/1" (lit "AVIZ"))
              (link "/node/1" (lit "privind   aprobarea unui acord" ++ [0xA]))
              [] (lit "OTHER") eq_refl eq_refl Htext eq_refl)
    as (self' & ty & ti & H & _).
  { discriminate. }
  exists self'. split; [exact H|].
  vm_compute in H. injection H as <-. split; reflexivity.
Defined.

(** ** The only error of [_do_magic] *)

Ltac nbool :=
  repeat match goal with
         | H : (_ <? _) = true |- _ => apply N.ltb_lt in H
         | H : (_ <? _) = false |- _ => apply N.ltb_ge in H
         | H : (_ <=? _) = true |- _ => apply N.leb_le in H
         | H : (_ <=? _) = false |- _ => apply N.leb_gt in H
         | H : (_ && _) = true |- _ => apply andb_true_iff in H as [? ?]
         | H : (_ || _) = false |- _ => apply orb_false_iff in H as [? ?]
         end.

Lemma utf8_encode_cp_raise (c : codepoint) (e : exn) :
  utf8_encode_cp c = Raise e -> e = UnicodeEncodeError /\ is_scalar c = false.
Proof.
  unfold utf8_encode_cp. intros H.
  destruct (c <? 0x80) eqn:E1; [discriminate|].
  destruct (c <? 0x800) eqn:E2; [discriminate|].
  destruct (c <? 0x10000) eqn:E3.
  - destruct ((0xD800 <=? c) && (c <? 0xE000)) eqn:E4; [|discriminate].
    injection H as <-. split; [reflexivity|].
    destruct (is_scalar c) eqn:Es; [exfalso | reflexivity].
    unfold is_scalar in Es. apply orb_true_iff in Es as [Es|Es]; nbool; lia.
  - destruct (c <? 0x110000) eqn:E4; [discriminate|].
    injection H as <-. split; [reflexivity|].
    destruct (is_scalar c) eqn:Es; [exfalso | reflexivity].
    unfold is_scalar in Es. apply orb_true_iff in Es as [Es|Es]; nbool; lia.
Qed.

Lemma utf8_encode_raise (s : str) (e : exn) :
  utf8_encode s = Raise e -> e = UnicodeEncodeError /\ ~ is_text s.
Proof.
  induction s as [|c t IH]; [discriminate|].
  cbn [utf8_encode]. intros H.
  destruct (utf8_encode_cp c) as [b|e'] eqn:Ec; cbn [rbind] in H.
  - destruct (utf8_encode t) as [bs|e'] eqn:Et; cbn [rbind] in H;
      [discriminate|].
    injection H as <-. destruct (IH eq_refl) as [-> Hn].
    split; [reflexivity|]. intros Ht. apply Hn.
    unfold is_text in *. apply Forall_cons in Ht as [_ Ht]. exact Ht.
  - injection H as <-. apply utf8_encode_cp_raise in Ec as [-> Hc].
    split; [reflexivity|]. intros Ht.
    unfold is_text in Ht. apply Forall_cons in Ht as [Ht _]. congruence.
Qed.

Lemma utf8_encode_ok_text (s : str) (b : bytes) :
  utf8_encode s = Ok b -> is_text s.
Proof.
  revert b. induction s as [|c t IH]; intros b H; [constructor|].
  cbn [utf8_encode] in H.
  destruct (utf8_encode_cp c) as [bc|] eqn:Ec; cbn [rbind] in H;
    [|discriminate].
  destruct (utf8_encode t) as [bs|] eqn:Et; cbn [rbind] in H;
    [|discriminate].
  constructor; [|exact (IH bs eq_refl)].
  destruct (is_scalar c) eqn:Es; [reflexivity | exfalso].
  unfold is_scalar in Es. unfold utf8_encode_cp in Ec.
  destruct (c <? 0x80) eqn:E1; [nbool; lia|].
  destruct (c <? 0x800) eqn:E2; [nbool; lia|].
  destruct (c <? 0x10000) eqn:E3.
  - destruct ((0xD800 <=? c) && (c <? 0xE000)) eqn:E4; [discriminate|].
    apply andb_false_iff in E4 as [E4|E4]; nbool; [lia|].
    match goal with
    | H : (_ && _) = false |- _ => apply andb_false_iff in H as [H|H]
    end; nbool; lia.
  - destruct (c <? 0x110000) eqn:E4; [|discriminate].
    nbool.
    match goal with
    | H : (_ && _) = false |- _ => apply andb_false_iff in H as [H|H]
    end; nbool; lia.
Qed.

(** X15: [_do_magic] fails in one way only: with a
    [UnicodeEncodeError], on a string that holds a surrogate.  The decoding
    of the rewritten bytes never fails, although the bytes were replaced
    without regard to character boundaries. *)
Theorem do_magic_only_encode_error (s : option str) (e : exn) :
  _do_magic s = Raise e ->
  e = UnicodeEncodeError
  /\ exists s', s = Some s' /\ ~ is_text s'.
Proof.
  intros H. destruct s as [[|c t]|]; try discriminate H.
  destruct (utf8_encode (c :: t)) as [b|e'] eqn:Eb.
  - apply utf8_encode_ok_text in Eb.
    rewrite do_magic_spec in H by (discriminate || exact Eb). discriminate.
  - unfold _do_magic in H. rewrite Eb in H. cbn [rbind] in H.
    injection H as <-. apply utf8_encode_raise in Eb as [-> Hn].
    split; [reflexivity|]. eauto.
Qed.

Lemma do_magic_only_encode_error_witness :
  _do_magic (Some [0x41; 0xD800]) = Raise UnicodeEncodeError
  /\ ~ is_text [0x41; 0xD800].
Proof.
  destruct (_do_magic (Some [0x41; 0xD800])) as [r|e] eqn:E;
    [vm_compute in E; discriminate|].
  destruct (do_magic_only_encode_error _ e E) as (-> & s' & Hs & Hn).
  injection Hs as <-. split; [reflexivity | exact Hn].
Defined.
